(** * Botworld asset pipeline: catalog record -> prompt -> fetch -> post-process

    A shallow embedding of [scripts/generate-world-assets.py], of
    [scripts/generate-new-tiles.py] (its post-processor in module [NewTiles],
    the script in [NewTilesScript]) and of [scripts/generate-assets.py]
    (module [AssetsScript]), with the properties stated about them.

    Modelling conventions.
    - Python [int] is [Z]; counters that only count up from zero are [nat].
    - The spec dictionaries built by [make_spec] have a fixed set of keys and
      are read as structs, so they are records.
    - A decoded RGBA picture is its numpy array: a list of rows of pixels, each
      channel an unsigned byte held in a [Z].
    - The world outside the script is explicit state: the files under the asset
      root ([gmap] from path to content), the number of requests already sent
      to the generation service, and the chronological trace of observable
      effects (requests, file writes, sleeps, printed lines).
    - The generation service is an oracle: the answer to the [k]-th request
      for a given prompt.  An answer either raises or carries a list of parts,
      each with or without inline image data.
    - An exception that the script does not catch ends the process with
      status 1.  Two library calls of the generation mode raise on values the
      command line or the catalog can carry: [time.sleep] on a negative or a
      too large number of seconds and Pillow's [Image.resize] on a side
      smaller than 1.  The world records the exception that is propagating;
      the loops stop at it.  The delay is a finite number here: [nan] and
      [inf], which the command line also takes and [time.sleep] refuses, are
      not represented.  The two waits of [generate_image] are the constants 2
      and 3, which [time.sleep] takes.
    - A path is held as the string [pathlib] shows for it: repeated and
      trailing slashes and [.] components are gone, [..] components stay.  A
      file is identified with that string; links, and [..] components, which
      only the operating system resolves, are outside the model.
    - Opening the file the script has just written, the imports of the client
      library and writing a file are taken to return normally.  The payload
      of the service is held as the picture it decodes to. *)

From Stdlib Require Import ZArith List String Ascii QArith Floats Uint63 DecimalString Lia.
From stdpp Require Import gmap strings list.
Import ListNotations.
Open Scope Z_scope.

(** ** Python helpers *)

Module Py.

(** [str(n)] for an [int]. *)
Definition str (n : Z) : string := NilZero.string_of_int (Z.to_int n).

(** [sep.join(parts)]. *)
Definition join (sep : string) (parts : list string) : string :=
  String.concat sep parts.

(** [range(n)]. *)
Definition range (n : Z) : list Z := map Z.of_nat (seq 0 (Z.to_nat n)).

(** Truth value of a string that may be [None]: [None] and [""] are falsy. *)
Definition truthy (s : option string) : bool :=
  match s with
  | Some EmptyString => false
  | Some _ => true
  | None => false
  end.

(** [sub in s] as a proposition. *)
Definition Substring (sub s : string) : Prop :=
  exists pre post, s = pre +:+ sub +:+ post.

(** [s.split("/")]. *)
Fixpoint split_slash (s : string) : list string :=
  match s with
  | EmptyString => [EmptyString]
  | String c rest =>
      if Ascii.eqb c "/" then EmptyString :: split_slash rest
      else match split_slash rest with
           | [] => [String c EmptyString]
           | x :: xs => String c x :: xs
           end
  end.

(** The number of slashes a string starts with. *)
Fixpoint leading_slashes (s : string) : nat :=
  match s with
  | String c rest =>
      if Ascii.eqb c "/" then S (leading_slashes rest) else O
  | EmptyString => O
  end.

(** [pathlib] on POSIX.  A path is parsed into its root and its parts: the
    root is ["/"], or ["//"] for exactly two leading slashes, or empty; the
    parts are the components between slashes, without the empty ones and
    without ["."]. *)
Definition path_root (s : string) : string :=
  match leading_slashes s with
  | O => ""
  | S (S O) => "//"
  | _ => "/"
  end.

Definition is_part (x : string) : bool :=
  (negb (String.eqb x "") && negb (String.eqb x "."))%bool.

Definition path_parts (s : string) : list string :=
  List.filter is_part (split_slash s).

(** [str(path)]: the root, then the parts joined by slashes; ["."] for the
    empty path. *)
Definition path_str (root : string) (parts : list string) : string :=
  match root, parts with
  | EmptyString, [] => "."
  | _, _ => root +:+ join "/" parts
  end.

(** [str(Path(s))]. *)
Definition normalize (s : string) : string :=
  path_str (path_root s) (path_parts s).

Fixpoint ends_with_slash (s : string) : bool :=
  match s with
  | EmptyString => false
  | String c EmptyString => Ascii.eqb c "/"
  | String _ rest => ends_with_slash rest
  end.

Definition starts_with_slash (s : string) : bool :=
  match s with
  | String c _ => Ascii.eqb c "/"
  | EmptyString => false
  end.

(** [os.path.join(a, b)], which the [/] of [pathlib] applies to the two
    operands before it parses the result. *)
Definition os_path_join (a b : string) : string :=
  if starts_with_slash b then b
  else if (String.eqb a "" || ends_with_slash a)%bool then a +:+ b
  else a +:+ "/" +:+ b.

(** [str(Path(dir) / rel)]. *)
Definition path_join (dir rel : string) : string :=
  normalize (os_path_join dir rel).

(** [Path(p).name]: the last part, empty when there is none. *)
Definition path_name (p : string) : string :=
  List.last (path_parts p) EmptyString.

End Py.

(** ** The spec dictionary of [make_spec] *)

Record Dimensions := { width : Z; height : Z }.

Record Meta := {
  spec_version : string;
  title : string;
  campaign : string;
  brand_name : string;
  usage_context : string }.

Record PhysicalProperties := {
  width_px : Z;
  height_px : Z;
  format : string }.

Record Subject := {
  subject_type : string;
  name : string;
  variant : string;
  physical_properties : PhysicalProperties }.

Record Surface := { material : string; reflection_strength : Z }.
Record Background := { color : string; texture : string; effect : string }.
Record Atmosphere := { mood : string; keywords : list string }.

Record Environment := {
  surface : Surface;
  background : Background;
  atmosphere : Atmosphere }.

Record Camera := {
  angle : string;
  framing : string;
  focal_length_mm : Z;
  depth_of_field : string }.

Record Lighting := {
  key_light_direction : string;
  key_light_intensity : string;
  fill_light_direction : string;
  fill_light_intensity : string;
  rim_light : bool;
  color_temperature : string }.

Record Style := {
  art_direction : string;
  extra : string;
  description : string }.

Record Controls := {
  lock_subject_geometry : bool;
  lock_dimensions : bool;
  allow_background_variation : bool }.

Record MarketingImage := {
  meta : Meta;
  subject : Subject;
  environment : Environment;
  camera : Camera;
  lighting : Lighting;
  style : Style;
  controls : Controls }.

Record Spec := { marketing_image : MarketingImage }.

Definition STYLE_PREFIX : string :=
  "2D pixel art, isometric view, fantasy RPG style, " +:+
  "warm color palette, soft shadows, 16-bit era aesthetic, " +:+
  "transparent background, game asset, consistent top-left lighting, " +:+
  "clean crisp pixel edges".

Definition make_spec (title description : string) (dimensions : Dimensions)
    (category extra_style : string) : Spec :=
  {| marketing_image := {|
       meta := {| spec_version := "1.0.0";
                  title := title;
                  campaign := "botworld_assets";
                  brand_name := "Botworld";
                  usage_context := "game" |};
       subject := {| subject_type := "game_asset";
                     name := title;
                     variant := category;
                     physical_properties :=
                       {| width_px := width dimensions;
                          height_px := height dimensions;
                          format := "PNG with transparency" |} |};
       environment :=
         {| surface := {| material := "none"; reflection_strength := 0 |};
            background := {| color := "transparent"; texture := "none";
                             effect := "none" |};
            atmosphere := {| mood := "fantasy RPG, warm and inviting";
                             keywords := ["pixel art"; "isometric"; "16-bit";
                                          "fantasy"]%string |} |};
       camera := {| angle := "isometric_top_down";
                    framing := "tight";
                    focal_length_mm := 50;
                    depth_of_field := "infinite" |};
       lighting := {| key_light_direction := "top_left";
                      key_light_intensity := "medium";
                      fill_light_direction := "right";
                      fill_light_intensity := "low";
                      rim_light := false;
                      color_temperature := "warm" |};
       style := {| art_direction := STYLE_PREFIX;
                   extra := extra_style;
                   description := description |};
       controls := {| lock_subject_geometry := true;
                      lock_dimensions := true;
                      allow_background_variation := false |} |} |}.

(** Two catalog constants, used in the examples. *)
Definition TILE_DIM : Dimensions := {| width := 48; height := 48 |}.
Definition TILE_STYLE : string :=
  "isometric diamond-shaped terrain tile, top-down 2:1 ratio, 3D block with visible top face and two darker side faces for depth".

Definition grass_plains : string * Spec :=
  ("tiles/grass_plains.png"%string,
   make_spec "Grass Plains"
     "Lush green grassland tile with small grass blade details and subtle ground texture. Vibrant spring green color."
     TILE_DIM "terrain" TILE_STYLE).

Definition grass_flowers : string * Spec :=
  ("tiles/grass_flowers.png"%string,
   make_spec "Grass with Flowers"
     "Green grass tile decorated with colorful small wildflowers - red, yellow, purple dots scattered naturally across the surface."
     TILE_DIM "terrain" TILE_STYLE).

(** ** Prompt synthesis *)

Definition build_prompt (spec : Spec) : string :=
  let img := marketing_image spec in
  let style := style img in
  let subject := subject img in
  let dims := physical_properties subject in
  let prompt_parts := [
    "Generate a single game asset image.";
    "Art style: " +:+ art_direction style +:+ ".";
    "Type: " +:+ extra style +:+ ".";
    "Subject: " +:+ title (meta img) +:+ ".";
    "Description: " +:+ description style +:+ ".";
    "Dimensions: " +:+ Py.str (width_px dims) +:+ "x" +:+
      Py.str (height_px dims) +:+ " pixels.";
    "Must have transparent background (PNG with alpha channel).";
    "No text, no labels, no watermarks. Just the game asset sprite."
  ]%string in
  Py.join " " prompt_parts.

(** ** Pictures and the numpy operations of the post-processors *)

(** One RGBA pixel; every channel is a [uint8]. *)
Record Pixel := { R : Z; G : Z; B : Z; A : Z }.

Definition uint8 (v : Z) : Prop := 0 <= v <= 255.

Definition set_alpha (p : Pixel) (v : Z) : Pixel :=
  {| R := R p; G := G p; B := B p; A := v |}.

Definition rgb (p : Pixel) : Z * Z * Z := (R p, G p, B p).

(** A decoded RGBA picture, as [np.array(img)] shows it: [height] rows of
    [width] pixels.  [Image.fromarray] reads the size back from the shape. *)
Abbreviation Image := (list (list Pixel)).

Definition img_size (img : Image) : Z * Z :=
  (Z.of_nat (length (hd [] img)), Z.of_nat (length img)).

Module Np.

(** [data[:, :, c]]. *)
Definition channel (c : Pixel -> Z) (data : Image) : list (list Z) :=
  map (map c) data.

(** [x > t], elementwise. *)
Definition gt (x : list (list Z)) (t : Z) : list (list bool) :=
  map (map (fun v => t <? v)) x.

(** [m1 & m2] and [~m], elementwise. *)
Definition and_ (m1 m2 : list (list bool)) : list (list bool) :=
  zip_with (zip_with andb) m1 m2.

Definition not_ (m : list (list bool)) : list (list bool) :=
  map (map negb) m.

(** [data[mask, 3] = f(data[mask, 3])]: the alpha of the selected pixels is
    replaced, every other cell of the array is left as it is. *)
Definition set_alpha_where (mask : list (list bool)) (f : Z -> Z)
    (data : Image) : Image :=
  zip_with (zip_with (fun (sel : bool) p =>
                        if sel then set_alpha p (f (A p)) else p)) mask data.

(** Truncation of a binary64 value towards zero. *)
Definition trunc (x : float) : Z :=
  match Prim2SF x with
  | S754_finite s m e =>
      let v := if 0 <=? e then Z.pos m * 2 ^ e else Z.pos m / 2 ^ (- e) in
      if s then - v else v
  | _ => 0
  end.

(** [x.astype(np.uint8)] for a float [x]. *)
Definition astype_uint8 (x : float) : Z := trunc x mod 256.

(** A [uint8] value as a float64 (exact). *)
Definition to_float (v : Z) : float := PrimFloat.of_uint63 (Uint63.of_Z v).

End Np.

(** ** The world outside the script *)

Inductive FileData :=
  | ImageData (img : Image)
  | JsonData (spec : Spec).

(** What [client.models.generate_content] does on one request: it raises, or
    it returns a response whose parts carry inline image data or not. *)
Inductive Response :=
  | Raises
  | Parts (parts : list (option Image)).

(** The lines the script prints (layout and the formatted byte size of the
    [OK] line are left out). *)
Inductive Msg :=
  | MsgOk (name : string)
  | MsgWarnNoImage (name : string)
  | MsgRetrying (k retries : Z)
  | MsgError (name : string)
  | MsgPost (w h : Z)
  | MsgWarnNoPIL
  | MsgSkip (processed total : nat) (filepath : string)
  | MsgGenerating (processed total : nat) (filepath : string)
  | MsgBanner
  | MsgCategory (cat_name : string) (n : nat)
  | MsgSummary (generated skipped failed total : nat)
  | MsgFailedHint (failed : nat)
  | MsgUnknownCategory (c : string) (available : list string)
  | MsgNoKey
  | MsgDryRunHeader
  | MsgWouldGenerate (filepath : string)
  | MsgWouldGenerateCount (count : nat)
  | MsgListCategory (cat_name : string) (n : nat)
  | MsgListEntry (file_exists : bool) (filepath : string) (w h : Z)
  | MsgListTotal (total existing : nat)
  | MsgExported (output_dir : string).

Inductive Event :=
  | EvRequest (prompt : string)
  | EvWrite (path : string)
  | EvSleep (seconds : Q)
  | EvPrint (m : Msg).

(** The exceptions of library calls that the generation mode does not
    catch. *)
Inductive Exn :=
  | ValueError
  | OverflowError.

(** [raised] is the exception that is propagating, if one is: nothing
    catches it, so what would follow in the script does not happen and the
    process ends with it. *)
Record World := {
  fs : gmap string FileData;
  requests : nat;
  trace : list Event;
  raised : option Exn }.

Definition emit (e : Event) (w : World) : World :=
  {| fs := fs w; requests := requests w; trace := trace w ++ [e];
     raised := raised w |}.

Definition print (m : Msg) (w : World) : World := emit (EvPrint m) w.

(** An exception starts to propagate. *)
Definition raise (e : Exn) (w : World) : World :=
  {| fs := fs w; requests := requests w; trace := trace w;
     raised := Some e |}.

(** The wait of [time.sleep(seconds)] when the call takes its argument, as
    it does for the constants of [generate_image]. *)
Definition sleep (seconds : Q) (w : World) : World := emit (EvSleep seconds) w.

(** A [for] loop whose body may raise: a turn runs only while no exception
    is propagating. *)
Definition for_each {S A : Type} (world : S -> World) (body : S -> A -> S)
    (items : list A) (st : S) : S :=
  fold_left
    (fun st item =>
       match raised (world st) with
       | Some _ => st
       | None => body st item
       end)
    items st.

(** [open(path, "wb").write(data)] and [result.save(path)]. *)
Definition write_file (path : string) (data : FileData) (w : World) : World :=
  {| fs := <[path := data]> (fs w);
     requests := requests w;
     trace := trace w ++ [EvWrite path];
     raised := raised w |}.

(** [path.exists()]. *)
Definition file_exists (path : string) (w : World) : bool :=
  bool_decide (is_Some (fs w !! path)).

(** What the script takes from its surroundings: where it is installed,
    the credential found at import time, whether Pillow and numpy can be
    imported, Pillow's [Image.resize(size, LANCZOS)], the longest time that
    [time.sleep] takes (it counts in nanoseconds in a 64-bit integer, some
    9.2e9 seconds), and the service. *)
Record Env := {
  ASSETS_DIR : string;
  API_KEY : option string;
  pil_available : bool;
  Image_resize : Image -> Z * Z -> Image;
  sleep_max : Q;
  generate_content : nat -> string -> Response }.

(** [time.sleep(seconds)] on a number that the command line gives:
    [ValueError] for a negative one, [OverflowError] for one that is too
    large; otherwise the wait. *)
Definition time_sleep (env : Env) (seconds : Q) (w : World) : World :=
  if Qle_bool 0 seconds then
    if Qle_bool seconds (sleep_max env) then sleep seconds w
    else raise OverflowError w
  else raise ValueError w.

(** The six static asset tables. *)
Record Catalog := {
  TERRAIN_TILES : list (string * Spec);
  POI_BUILDINGS : list (string * Spec);
  RESOURCE_OBJECTS : list (string * Spec);
  ITEM_ICONS : list (string * Spec);
  CHARACTER_SPRITES : list (string * Spec);
  UI_ELEMENTS : list (string * Spec) }.

(** ** [generate-world-assets.py]: registry, generation, post-processing, CLI *)

Definition ALL_CATEGORIES (cat : Catalog) : list (string * list (string * Spec)) :=
  [ ("tiles"%string, TERRAIN_TILES cat);
    ("buildings"%string, POI_BUILDINGS cat);
    ("resources"%string, RESOURCE_OBJECTS cat);
    ("items"%string, ITEM_ICONS cat);
    ("characters"%string, CHARACTER_SPRITES cat);
    ("ui"%string, UI_ELEMENTS cat) ].

(** [d[key]] / [key in d] on a dictionary kept in declaration order. *)
Fixpoint dict_get {V} (d : list (string * V)) (key : string) : option V :=
  match d with
  | [] => None
  | (k, v) :: rest => if String.eqb k key then Some v else dict_get rest key
  end.

(** The first part of a response that has inline data. *)
Fixpoint first_inline_data (parts : list (option Image)) : option Image :=
  match parts with
  | [] => None
  | Some image_data :: _ => Some image_data
  | None :: rest => first_inline_data rest
  end.

(** The body of [for attempt in range(retries + 1)], over the attempts that
    are still to come. *)
Fixpoint generate_image_loop (env : Env) (prompt output_path : string)
    (retries : Z) (attempts : list Z) (w : World) : bool * World :=
  match attempts with
  | [] => (false, w)
  | attempt :: rest =>
      let response := generate_content env (requests w) prompt in
      let w := {| fs := fs w; requests := S (requests w);
                  trace := trace w ++ [EvRequest prompt];
                  raised := raised w |} in
      match response with
      | Parts parts =>
          match first_inline_data parts with
          | Some image_data =>
              let w := write_file output_path (ImageData image_data) w in
              let w := print (MsgOk (Py.path_name output_path)) w in
              (true, w)
          | None =>
              let w := print (MsgWarnNoImage (Py.path_name output_path)) w in
              let w := if attempt <? retries
                       then sleep (inject_Z 2)
                              (print (MsgRetrying (attempt + 1) retries) w)
                       else w in
              generate_image_loop env prompt output_path retries rest w
          end
      | Raises =>
          let w := print (MsgError (Py.path_name output_path)) w in
          let w := if attempt <? retries
                   then sleep (inject_Z 3)
                          (print (MsgRetrying (attempt + 1) retries) w)
                   else w in
          generate_image_loop env prompt output_path retries rest w
      end
  end.

Definition default_retries : Z := 2.

Definition generate_image (env : Env) (prompt output_path : string)
    (retries : Z) (w : World) : bool * World :=
  generate_image_loop env prompt output_path retries
    (Py.range (retries + 1)) w.

(** [(data[near_white, 3] * 0.3).astype(np.uint8)] on one alpha value. *)
Definition scale_alpha (a : Z) : Z :=
  Np.astype_uint8 (PrimFloat.mul (Np.to_float a) 0x1.3333333333333p-2%float).

(** The two steps of the picture part of [post_process].  First
    "Resize to target dimensions": only when the size differs. *)
Definition resize_to_target (resize : Image -> Z * Z -> Image)
    (img : Image) (target_width target_height : Z) : Image :=
  if decide (img_size img = (target_width, target_height))
  then img
  else resize img (target_width, target_height).

(** Then "Remove white/near-white backgrounds", on [data = np.array(img)]. *)
Definition remove_white_background (data : Image) : Image :=
  let r := Np.channel R data in
  let g := Np.channel G data in
  let b := Np.channel B data in
  let white_mask := Np.and_ (Np.and_ (Np.gt r 240) (Np.gt g 240)) (Np.gt b 240) in
  let near_white :=
    Np.and_ (Np.and_ (Np.and_ (Np.gt r 220) (Np.gt g 220)) (Np.gt b 220))
            (Np.not_ white_mask) in
  let data := Np.set_alpha_where white_mask (fun _ => 0) data in
  let data := Np.set_alpha_where near_white scale_alpha data in
  data.

Definition post_process_image (resize : Image -> Z * Z -> Image)
    (img : Image) (target_width target_height : Z) : Image :=
  let img := resize_to_target resize img target_width target_height in
  let data := img in
  let result := remove_white_background data in
  result.

(** Pillow's [img.resize(size, ...)] raises [ValueError] ("height and width
    must be > 0") when a side of [size] is smaller than 1.  The picture part
    of [post_process] calls it only when the size differs. *)
Definition resize_raises (img : Image) (target_width target_height : Z) : bool :=
  if decide (img_size img = (target_width, target_height))
  then false
  else ((target_width <? 1) || (target_height <? 1))%bool.

(** [post_process(image_path, target_width, target_height)].  An
    [ImportError] turns it into a warning; the [ValueError] of the resize is
    not caught: it leaves the file as it was and propagates.  The file is the
    one [generate_image] has just written; on a path that holds no picture
    the model leaves the world as it is. *)
Definition post_process (env : Env) (image_path : string)
    (target_width target_height : Z) (w : World) : World :=
  if pil_available env then
    match fs w !! image_path with
    | Some (ImageData img) =>
        if resize_raises img target_width target_height
        then raise ValueError w
        else
          let result :=
            post_process_image (Image_resize env) img target_width target_height in
          let w := write_file image_path (ImageData result) w in
          print (MsgPost target_width target_height) w
    | _ => w
    end
  else print MsgWarnNoPIL w.

(** The parsed command line. *)
Record Args := {
  list_ : bool;
  category : option string;
  force : bool;
  dry_run : bool;
  no_post : bool;
  export_specs_dir : option string;
  delay : Q }.

Definition count_existing (env : Env) (w : World)
    (assets : list (string * Spec)) : nat :=
  length (List.filter
            (fun a => file_exists (Py.path_join (ASSETS_DIR env) (fst a)) w)
            assets).

Definition total_assets (categories : list (string * list (string * Spec))) : nat :=
  list_sum (map (fun c => length (snd c)) categories).

Definition list_assets (env : Env)
    (categories : list (string * list (string * Spec))) (w : World) : World :=
  let w :=
    fold_left
      (fun w '(cat_name, assets) =>
         let w := print (MsgListCategory cat_name (length assets)) w in
         fold_left
           (fun w '(filepath, spec) =>
              let dims := physical_properties (subject (marketing_image spec)) in
              let file_exists_ :=
                file_exists (Py.path_join (ASSETS_DIR env) filepath) w in
              print (MsgListEntry file_exists_ filepath
                       (width_px dims) (height_px dims)) w)
           assets w)
      categories w in
  let total := total_assets categories in
  let existing :=
    list_sum (map (fun c => count_existing env w (snd c)) categories) in
  print (MsgListTotal total existing) w.

(** [Path(filepath).stem]: the last component without its last suffix. *)
Fixpoint last_dot (s : string) (i : nat) (found : option nat) : option nat :=
  match s with
  | EmptyString => found
  | String c rest =>
      last_dot rest (S i) (if Ascii.eqb c "." then Some i else found)
  end.

Definition path_stem (p : string) : string :=
  let name := Py.path_name p in
  match last_dot name 0%nat None with
  | Some i =>
      if ((0 <? i)%nat && (S i <? String.length name)%nat)%bool
      then String.substring 0 i name
      else name
  | None => name
  end.

Definition export_specs (categories : list (string * list (string * Spec)))
    (output_dir : string) (w : World) : World :=
  let w :=
    fold_left
      (fun w '(cat_name, assets) =>
         let cat_dir := Py.path_join output_dir cat_name in
         fold_left
           (fun w '(filepath, spec) =>
              let name := path_stem filepath in
              let spec_path := Py.path_join cat_dir (name +:+ ".json") in
              write_file spec_path (JsonData spec) w)
           assets w)
      categories w in
  print (MsgExported output_dir) w.

Record Counters := {
  generated : nat;
  skipped : nat;
  failed : nat;
  processed : nat }.

(** One turn of the inner loop of the generation mode.  When post-processing
    raises, the sleep that follows it does not happen. *)
Definition process_asset (env : Env) (args : Args) (total : nat)
    (st : Counters * World) (asset : string * Spec) : Counters * World :=
  let '(c, w) := st in
  let '(filepath, spec) := asset in
  let processed := S (processed c) in
  let output_path := Py.path_join (ASSETS_DIR env) filepath in
  if (file_exists output_path w && negb (force args))%bool then
    let w := print (MsgSkip processed total filepath) w in
    ({| generated := generated c; skipped := S (skipped c);
        failed := failed c; processed := processed |}, w)
  else
    let w := print (MsgGenerating processed total filepath) w in
    let prompt := build_prompt spec in
    let '(success, w) := generate_image env prompt output_path default_retries w in
    if success then
      let c := {| generated := S (generated c); skipped := skipped c;
                  failed := failed c; processed := processed |} in
      let w :=
        if negb (no_post args) then
          let dims := physical_properties (subject (marketing_image spec)) in
          post_process env output_path (width_px dims) (height_px dims) w
        else w in
      match raised w with
      | Some _ => (c, w)
      | None => (c, time_sleep env (delay args) w)
      end
    else
      ({| generated := generated c; skipped := skipped c;
          failed := S (failed c); processed := processed |}, w).

Definition process_category (env : Env) (args : Args) (total : nat)
    (st : Counters * World) (entry : string * list (string * Spec))
    : Counters * World :=
  let '(cat_name, assets) := entry in
  let '(c, w) := st in
  let w := print (MsgCategory cat_name (length assets)) w in
  for_each snd (process_asset env args total) assets (c, w).

(** The generation mode of [main], from the banner to the summary.  A run
    that an exception ends prints no summary. *)
Definition run_generation (env : Env) (args : Args)
    (categories : list (string * list (string * Spec))) (w : World)
    : Counters * World :=
  let w := print MsgBanner w in
  let total := total_assets categories in
  let c0 := {| generated := 0; skipped := 0; failed := 0; processed := 0 |} in
  let '(c, w) :=
    for_each snd (process_category env args total) categories (c0, w) in
  match raised w with
  | Some _ => (c, w)
  | None =>
      let w := print (MsgSummary (generated c) (skipped c) (failed c) total) w in
      let w :=
        if (0 <? failed c)%nat then print (MsgFailedHint (failed c)) w else w in
      (c, w)
  end.

Definition dry_run_listing (env : Env) (args : Args)
    (categories : list (string * list (string * Spec))) (w : World) : World :=
  let w := print MsgDryRunHeader w in
  let '(count, w) :=
    fold_left
      (fun st '(cat_name, assets) =>
         fold_left
           (fun '(count, w) '(filepath, spec) =>
              let output_path := Py.path_join (ASSETS_DIR env) filepath in
              if (file_exists output_path w && negb (force args))%bool
              then (count, w)
              else (S count, print (MsgWouldGenerate filepath) w))
           assets st)
      categories (0%nat, w) in
  print (MsgWouldGenerateCount count) w.

(** How the process ends: [main] returns (status 0), calls [sys.exit], or
    is ended by an exception that nothing catches (status 1). *)
Inductive Exit :=
  | Returned
  | SysExit (code : Z)
  | Uncaught (e : Exn).

Definition exit_status (e : Exit) : Z :=
  match e with
  | Returned => 0
  | SysExit code => code
  | Uncaught _ => 1
  end.

(** "Filter categories if specified": the selected categories, or the name
    that is not in the registry. *)
Definition select_categories (cat : Catalog) (args : Args)
    : string + list (string * list (string * Spec)) :=
  if Py.truthy (category args) then
    match category args with
    | Some c =>
        match dict_get (ALL_CATEGORIES cat) c with
        | Some assets => inr [(c, assets)]
        | None => inl c
        end
    | None => inr (ALL_CATEGORIES cat)
    end
  else inr (ALL_CATEGORIES cat).

Definition main (env : Env) (cat : Catalog) (args : Args) (w : World)
    : Exit * World :=
  match select_categories cat args with
  | inl c =>
      let w := print (MsgUnknownCategory c (map fst (ALL_CATEGORIES cat))) w in
      (SysExit 1, w)
  | inr categories =>
      if list_ args then (Returned, list_assets env categories w)
      else if Py.truthy (export_specs_dir args) then
        match export_specs_dir args with
        | Some dir => (Returned, export_specs categories (Py.normalize dir) w)
        | None => (Returned, w)
        end
      else if dry_run args then (Returned, dry_run_listing env args categories w)
      else if negb (Py.truthy (API_KEY env)) then
        (SysExit 1, print MsgNoKey w)
      else
        let w := snd (run_generation env args categories w) in
        match raised w with
        | Some e => (Uncaught e, w)
        | None => (Returned, w)
        end
  end.

(** ** [generate-new-tiles.py]: its post-processor *)

Module NewTiles.

Definition remove_white_background (data : Image) : Image :=
  let r := Np.channel R data in
  let g := Np.channel G data in
  let b := Np.channel B data in
  let white_mask := Np.and_ (Np.and_ (Np.gt r 230) (Np.gt g 230)) (Np.gt b 230) in
  let near_white :=
    Np.and_ (Np.and_ (Np.and_ (Np.gt r 200) (Np.gt g 200)) (Np.gt b 200))
            (Np.not_ white_mask) in
  let data := Np.set_alpha_where white_mask (fun _ => 0) data in
  let data := Np.set_alpha_where near_white (fun _ => 100) data in
  data.

(** Always resized, to 128x128. *)
Definition post_process_image (resize : Image -> Z * Z -> Image)
    (img : Image) : Image :=
  let img := resize img (128, 128) in
  let data := img in
  let result := remove_white_background data in
  result.

End NewTiles.

(** ** Vocabulary of the statements *)

(** All three colour channels above a threshold. *)
Definition all_above (t : Z) (p : Pixel) : bool :=
  ((t <? R p) && (t <? G p) && (t <? B p))%bool.

(** The mask program read pixel by pixel: [white] and [near] are the two
    thresholds, [f] is what happens to the alpha of a near-white pixel. *)
Definition alpha_rule (white near : Z) (f : Z -> Z) (p : Pixel) : Pixel :=
  if all_above white p then set_alpha p 0
  else if all_above near p then set_alpha p (f (A p))
  else p.

(** Projections of a trace. *)
Definition sleeps (evs : list Event) : list Q :=
  omap (fun e => match e with EvSleep s => Some s | _ => None end) evs.

Definition requests_of (evs : list Event) : list string :=
  omap (fun e => match e with EvRequest p => Some p | _ => None end) evs.

Definition writes_of (evs : list Event) : list string :=
  omap (fun e => match e with EvWrite p => Some p | _ => None end) evs.

(** A response that carries a picture. *)
Definition has_image (r : Response) : bool :=
  match r with
  | Raises => false
  | Parts parts => bool_decide (is_Some (first_inline_data parts))
  end.

(** The wait that follows a failed attempt which is not the last one. *)
Definition wait_after (r : Response) : Q :=
  match r with
  | Raises => inject_Z 3
  | Parts _ => inject_Z 2
  end.

(** A new process on the same disk and the same service: the trace starts
    empty. *)
Definition new_process (w : World) : World :=
  {| fs := fs w; requests := requests w; trace := [];
     raised := None |}.

(** Number of assets whose output path is not in a set of paths. *)
Fixpoint missing (env : Env) (paths : gset string)
    (assets : list (string * Spec)) : nat :=
  match assets with
  | [] => 0
  | a :: rest =>
      (if decide (Py.path_join (ASSETS_DIR env) (fst a) ∈ paths) then 0 else 1)
      + missing env paths rest
  end.

Definition missing_all (env : Env) (paths : gset string)
    (categories : list (string * list (string * Spec))) : nat :=
  list_sum (map (fun c => missing env paths (snd c)) categories).

(** All assets of a selection, in processing order. *)
Definition all_assets (categories : list (string * list (string * Spec)))
    : list (string * Spec) :=
  concat (map snd categories).

(** What processing the assets [assets] without [--force] does to the
    counters and the world: files are only added; nothing is written to a path
    that existed before; only missing assets are attempted; an asset still
    missing afterwards has been counted as failed; every asset is counted
    once; and when nothing was missing, nothing was requested or written. *)
Definition skips_existing (env : Env) (assets : list (string * Spec))
    (st st' : Counters * World) : Prop :=
  let '(c, w) := st in
  let '(c', w') := st' in
  dom (fs w) ⊆ dom (fs w') /\
  (exists ws, writes_of (trace w') = writes_of (trace w) ++ ws /\
              Forall (fun p => p ∉ dom (fs w)) ws) /\
  (generated c' + failed c'
   <= generated c + failed c + missing env (dom (fs w)) assets)%nat /\
  (missing env (dom (fs w')) assets + failed c <= failed c')%nat /\
  (generated c' + skipped c' + failed c'
   = generated c + skipped c + failed c + length assets)%nat /\
  (missing env (dom (fs w)) assets = 0%nat ->
     fs w' = fs w /\ requests w' = requests w /\
     requests_of (trace w') = requests_of (trace w) /\
     writes_of (trace w') = writes_of (trace w) /\
     sleeps (trace w') = sleeps (trace w) /\
     generated c' = generated c /\ failed c' = failed c /\
     raised w' = raised w).

(** What follows a successful [generate_image] for a record: the optional
    post-processing, then the configured delay unless post-processing
    raised. *)
Definition after_generated (env : Env) (args : Args) (path : string)
    (spec : Spec) (w : World) : World :=
  let dims := physical_properties (subject (marketing_image spec)) in
  let w :=
    if negb (no_post args)
    then post_process env path (width_px dims) (height_px dims) w
    else w in
  match raised w with
  | Some _ => w
  | None => time_sleep env (delay args) w
  end.

(** The failed answers that one call of [generate_image] meets before its
    first picture, when it starts at request [k] and may make [n] attempts. *)
Fixpoint failed_answers (env : Env) (prompt : string) (k n : nat)
    : list Response :=
  match n with
  | O => []
  | S n' =>
      let r := generate_content env k prompt in
      if has_image r then [] else r :: failed_answers env prompt (S k) n'
  end.

(** The picture of an answer, if it has one. *)
Definition payload (r : Response) : option Image :=
  match r with
  | Raises => None
  | Parts parts => first_inline_data parts
  end.

(** A spec whose target size Pillow's resize refuses. *)
Definition bad_size (spec : Spec) : Prop :=
  let dims := physical_properties (subject (marketing_image spec)) in
  width_px dims < 1 \/ height_px dims < 1.

Definition good_size (spec : Spec) : Prop :=
  let dims := physical_properties (subject (marketing_image spec)) in
  0 < width_px dims /\ 0 < height_px dims.

(** What can end a run over the records [assets] with an exception: a
    delay that [time.sleep] refuses, or post-processing, with Pillow at
    hand, of a record with such a size. *)
Definition may_raise (env : Env) (args : Args)
    (assets : list (string * Spec)) : Prop :=
  (delay args < 0)%Q \/ (sleep_max env < delay args)%Q \/
  (no_post args = false /\ pil_available env = true /\
   Exists (fun a => bad_size (snd a)) assets).

(** An exception ends a run only after a record has been generated, and for
    one of the two reasons. *)
Definition raises_for_cause (env : Env) (args : Args)
    (l : list (string * Spec)) (st st' : Counters * World) : Prop :=
  (generated (fst st) <= generated (fst st'))%nat /\
  (raised (snd st') = raised (snd st) \/
   ((generated (fst st) < generated (fst st'))%nat /\ may_raise env args l)).


(** The conditions of the exit status. *)
Definition category_names : list string :=
  ["tiles"; "buildings"; "resources"; "items"; "characters"; "ui"]%string.



(** ** Concrete surroundings for the examples *)

Definition opaque_grey : Pixel := {| R := 225; G := 225; B := 225; A := 255 |}.
Definition opaque_white : Pixel := {| R := 255; G := 255; B := 255; A := 255 |}.
Definition opaque_black : Pixel := {| R := 0; G := 0; B := 0; A := 255 |}.

Definition sample_image : Image :=
  [ [opaque_white; opaque_grey; opaque_black];
    [opaque_black; opaque_grey; opaque_white] ].

(** A stand-in for Pillow's resampling: the requested size, filled with the
    top-left pixel. *)
Definition resize_flat (img : Image) (sz : Z * Z) : Image :=
  let p := hd opaque_black (hd [] img) in
  repeat (repeat p (Z.to_nat (fst sz))) (Z.to_nat (snd sz)).

Definition svc_ok : nat -> string -> Response :=
  fun _ _ => Parts [None; Some sample_image].

Definition svc_raises : nat -> string -> Response :=
  fun _ _ => Raises.


(** Fails twice (once by raising, once with no picture), then succeeds. *)
Definition svc_third_time : nat -> string -> Response :=
  fun k _ =>
    match k with
    | O => Raises
    | S O => Parts [None]
    | _ => Parts [Some sample_image]
    end.

Definition demo_env (svc : nat -> string -> Response) (key : option string) : Env :=
  {| ASSETS_DIR := "assets";
     API_KEY := key;
     pil_available := true;
     Image_resize := resize_flat;
     sleep_max := inject_Z 9223372036;
     generate_content := svc |}.

Definition demo_catalog : Catalog :=
  {| TERRAIN_TILES := [grass_plains; grass_flowers];
     POI_BUILDINGS := [];
     RESOURCE_OBJECTS := [];
     ITEM_ICONS := [];
     CHARACTER_SPRITES := [];
     UI_ELEMENTS := [] |}.

Definition empty_world : World := {| fs := ∅; requests := 0; trace := []; raised := None |}.

Definition default_args : Args :=
  {| list_ := false; category := None; force := false; dry_run := false;
     no_post := false; export_specs_dir := None; delay := inject_Z 1 |}.

Definition zero_counters : Counters :=
  {| generated := 0; skipped := 0; failed := 0; processed := 0 |}.

(** A catalog entry with an empty description and non-positive dimensions. *)
Definition malformed_entry : string * Spec :=
  ("tiles/broken.png"%string,
   make_spec "Broken" "" {| width := 0; height := -1 |} "terrain" "").


Definition no_post_args : Args :=
  {| list_ := false; category := None; force := false; dry_run := false;
     no_post := true; export_specs_dir := None; delay := inject_Z 1 |}.

(** ** Vocabulary of the further properties *)

(** The first picture among the answers to the requests [k], ..., [k+n-1]. *)
Fixpoint first_picture (env : Env) (prompt : string) (k n : nat)
    : option Image :=
  match n with
  | O => None
  | S n' =>
      match payload (generate_content env k prompt) with
      | Some img => Some img
      | None => first_picture env prompt (S k) n'
      end
  end.

(** Whether a record is attempted rather than skipped. *)
Definition needs_generation (env : Env) (args : Args) (w : World)
    (a : string * Spec) : bool :=
  negb (file_exists (Py.path_join (ASSETS_DIR env) (fst a)) w
        && negb (force args)).

(** Where [export_specs] puts the spec of each asset, in writing order. *)
Definition export_targets (categories : list (string * list (string * Spec)))
    (output_dir : string) : list (string * Spec) :=
  flat_map
    (fun c =>
       map (fun a =>
              (Py.path_join (Py.path_join output_dir (fst c))
                 (path_stem (fst a) +:+ ".json"),
               snd a))
           (snd c))
    categories.

(** All channels of all pixels are bytes. *)
Definition byte_pixel (p : Pixel) : Prop :=
  uint8 (R p) /\ uint8 (G p) /\ uint8 (B p) /\ uint8 (A p).

Definition byte_image (data : Image) : Prop :=
  Forall (Forall byte_pixel) data.

(** Book-keeping of the generation loop over [n] records: every record is
    counted once, counters only grow, every attempted record costs between
    one and three requests, and with [--force] nothing is skipped. *)
Definition accounts_for (n : nat) (args : Args)
    (st st' : Counters * World) : Prop :=
  let '(c, w) := st in
  let '(c', w') := st' in
  processed c' = (processed c + n)%nat /\
  (generated c' + skipped c' + failed c'
   = generated c + skipped c + failed c + n)%nat /\
  (generated c <= generated c')%nat /\
  (skipped c <= skipped c')%nat /\
  (failed c <= failed c')%nat /\
  (requests w + (generated c' + failed c')
   <= requests w' + (generated c + failed c))%nat /\
  (requests w' + 3 * (generated c + failed c)
   <= requests w + 3 * (generated c' + failed c'))%nat /\
  (force args = true -> skipped c' = skipped c).

(** Over records with pairwise different output paths: a record is
    attempted exactly when its file was missing at the start, and the files
    at other paths stay as they were. *)
Definition attempts_missing (env : Env) (args : Args)
    (l : list (string * Spec)) (st st' : Counters * World) : Prop :=
  List.NoDup (map (fun a => Py.path_join (ASSETS_DIR env) (fst a)) l) ->
  (generated (fst st') + failed (fst st')
   = generated (fst st) + failed (fst st)
     + length (List.filter (needs_generation env args (snd st)) l))%nat /\
  (forall q : string,
      ~ In q (map (fun a => Py.path_join (ASSETS_DIR env) (fst a)) l) ->
      fs (snd st') !! q = fs (snd st) !! q).

(** The prompts of the assets [assets], the [i]-th one repeated as often as
    the [i]-th number says. *)
Definition prompts_sent (assets : list (string * Spec)) (ns : list nat)
    : list string :=
  concat (zip_with (fun a n => repeat (build_prompt (snd a)) n) assets ns).

(** The lines of [--dry-run] and of [--list], as they should come out. *)
Definition dry_run_lines (env : Env) (args : Args) (w : World)
    (categories : list (string * list (string * Spec))) : list Event :=
  let wanted := List.filter (needs_generation env args w) (all_assets categories) in
  EvPrint MsgDryRunHeader
  :: map (fun a => EvPrint (MsgWouldGenerate (fst a))) wanted
  ++ [EvPrint (MsgWouldGenerateCount (length wanted))].

Definition list_entry (env : Env) (w : World) (a : string * Spec) : Event :=
  let dims := physical_properties (subject (marketing_image (snd a))) in
  EvPrint (MsgListEntry (file_exists (Py.path_join (ASSETS_DIR env) (fst a)) w)
             (fst a) (width_px dims) (height_px dims)).

Definition list_lines (env : Env) (w : World)
    (categories : list (string * list (string * Spec))) : list Event :=
  flat_map (fun c => EvPrint (MsgListCategory (fst c) (length (snd c)))
                     :: map (list_entry env w) (snd c))
           categories
  ++ [EvPrint (MsgListTotal (total_assets categories)
                 (count_existing env w (all_assets categories)))].

(** Whether a character occurs in a string. *)
Fixpoint has_char (c : ascii) (s : string) : bool :=
  match s with
  | EmptyString => false
  | String x rest => (Ascii.eqb x c || has_char c rest)%bool
  end.

(** A relative path written the way [pathlib] shows it: at least one part,
    the parts joined by single slashes, none of them empty or ["."]. *)
Definition is_plain (rel : string) : bool :=
  (String.eqb (Py.join "/" (Py.path_parts rel)) rel
   && negb (String.eqb rel ""))%bool.

(** No [..] among the parts of a path, and a path written the way [pathlib]
    shows it and free of [..]: two such paths that differ name different
    directory entries. *)
Definition no_dotdot (p : string) : bool :=
  forallb (fun x => negb (String.eqb x "..")) (Py.path_parts p).

Definition canonical (p : string) : bool :=
  (String.eqb (Py.normalize p) p && no_dotdot p)%bool.

(** A part that can stand between slashes. *)
Definition good_part (x : string) : Prop :=
  has_char "/" x = false /\ Py.is_part x = true.

(** The files after writing the specs of [targets] in order. *)
Definition write_all (targets : list (string * Spec))
    (files : gmap string FileData) : gmap string FileData :=
  fold_left (fun m t => <[fst t := JsonData (snd t)]> m) targets files.

(** ** API setup of [generate-world-assets.py]

    The credential is taken from the environment and, when that gives
    nothing, from the [.env] file next to the scripts.  A [str] is held
    with one [ascii] per character (characters below U+0100); the file is
    given as its lines, [None] when it does not exist. *)

Module ApiSetup.

(** [c.isspace()] for a character below U+0100. *)
Definition is_space (c : ascii) : bool :=
  let n := nat_of_ascii c in
  ((9 <=? n) && (n <=? 13) || (28 <=? n) && (n <=? 32)
   || (n =? 133) || (n =? 160))%nat.

Fixpoint lstrip_chars (f : ascii -> bool) (l : list ascii) : list ascii :=
  match l with
  | [] => []
  | c :: rest => if f c then lstrip_chars f rest else l
  end.

Definition strip_chars (f : ascii -> bool) (l : list ascii) : list ascii :=
  rev (lstrip_chars f (rev (lstrip_chars f l))).

(** [s.strip()]. *)
Definition strip (s : string) : string :=
  string_of_list_ascii (strip_chars is_space (list_ascii_of_string s)).

(** [s.strip(c)] for a one-character argument. *)
Definition strip_char (c : ascii) (s : string) : string :=
  string_of_list_ascii (strip_chars (Ascii.eqb c) (list_ascii_of_string s)).

(** The double-quote character. *)
Definition dquote : ascii := "034"%char.

(** [s.split(c, 1)[1]]: what follows the first [c]; [None] stands for the
    [IndexError] of a string without [c]. *)
Fixpoint after_first (c : ascii) (s : string) : option string :=
  match s with
  | EmptyString => None
  | String x rest => if Ascii.eqb x c then Some rest else after_first c rest
  end.

Definition is_key_line (line : string) : bool :=
  String.prefix "GEMINI_API_KEY=" line.

Definition load_api_key (environ : option string)
    (env_file : option (list string)) : option string :=
  if Py.truthy environ then environ
  else
    match env_file with
    | Some lines =>
        match List.find is_key_line lines with
        | Some line =>
            match after_first "=" line with
            | Some value =>
                Some (strip_char "'" (strip_char dquote (strip value)))
            | None => environ
            end
        | None => environ
        end
    | None => environ
    end.

End ApiSetup.

(** First and last character of a string are outside a set of characters
    (an empty string qualifies). *)
Definition edges_outside (f : ascii -> bool) (l : list ascii) : bool :=
  match l, rev l with
  | c :: _, c' :: _ => negb (f c) && negb (f c')
  | _, _ => true
  end.

Definition quote_or_space (c : ascii) : bool :=
  (ApiSetup.is_space c || Ascii.eqb ApiSetup.dquote c || Ascii.eqb "'" c)%bool.

(** ** [generate-new-tiles.py]: the script around its post-processor

    The lines it prints are kept beside the world, in printing order. *)

Module NewTilesScript.

Inductive Line :=
  | LNoKey
  | LHeader
  | LSkip (filename : string)
  | LOk (name : string)
  | LWarnNoImage (name : string)
  | LError (name : string)
  | LPost (name : string)
  | LWarnNoPIL
  | LDone.

(** The credential: as in the main script, but the value from the file is
    only stripped of white space. *)
Definition load_api_key (environ : option string)
    (env_file : option (list string)) : option string :=
  if Py.truthy environ then environ
  else
    match env_file with
    | Some lines =>
        match List.find ApiSetup.is_key_line lines with
        | Some line =>
            match ApiSetup.after_first "=" line with
            | Some value => Some (ApiSetup.strip value)
            | None => environ
            end
        | None => environ
        end
    | None => environ
    end.

Definition ASSETS_DIR (env : Env) : string :=
  Py.path_join (ASSETS_DIR env) "tiles".

Definition STYLE : string :=
  "Pixel art style, warm and charming aesthetic, cozy village simulation game. Clean, crisp edges. Transparent background (PNG with alpha). Consistent lighting from top-left. Isometric diamond-shaped tile, top-down isometric view (2:1 ratio). The tile is a 3D isometric block with visible top face and two darker side faces for depth. 64 pixels wide, 40 pixels tall. Small and detailed. ".

Definition NEW_TILES : list (string * string) :=
  [ ("tile_deep_water.png"%string,
     STYLE +:+ "Deep dark ocean water tile with dark navy blue color, subtle deep wave patterns, no land visible. Very dark blue compared to regular water.");
    ("tile_dense_forest.png"%string,
     STYLE +:+ "Very thick, ancient dense forest tile with overlapping dark green tree canopies, almost no ground visible. Much darker and thicker than regular forest. Deep dark emerald green.");
    ("tile_snow.png"%string,
     STYLE +:+ "Snow-covered tile with pristine white snow, small ice crystal sparkles, gentle blue shadows. Cool white and light blue.");
    ("tile_swamp.png"%string,
     STYLE +:+ "Murky swamp tile with dark greenish-brown muddy water, small cattails or reeds growing, mossy texture. Dark olive green and brown mix.") ].

Definition say (l : Line) (st : World * list Line) : World * list Line :=
  (fst st, snd st ++ [l]).

(** One request, no retry. *)
Definition generate_image (env : Env) (prompt output_path : string)
    (st : World * list Line) : bool * (World * list Line) :=
  let '(w, out) := st in
  let contents := "Generate a single game asset image: " +:+ prompt in
  let response := generate_content env (requests w) contents in
  let w := {| fs := fs w; requests := S (requests w);
              trace := trace w ++ [EvRequest contents];
              raised := raised w |} in
  match response with
  | Parts parts =>
      match first_inline_data parts with
      | Some image_data =>
          (true, (write_file output_path (ImageData image_data) w,
                  out ++ [LOk (Py.path_name output_path)]))
      | None => (false, (w, out ++ [LWarnNoImage (Py.path_name output_path)]))
      end
  | Raises => (false, (w, out ++ [LError (Py.path_name output_path)]))
  end.

(** [post_process(image_path)]; as in the main script, on a path that holds
    no picture the model leaves the state as it is. *)
Definition post_process (env : Env) (image_path : string)
    (st : World * list Line) : World * list Line :=
  let '(w, out) := st in
  if pil_available env then
    match fs w !! image_path with
    | Some (ImageData img) =>
        let result := NewTiles.post_process_image (Image_resize env) img in
        (write_file image_path (ImageData result) w,
         out ++ [LPost (Py.path_name image_path)])
    | _ => st
    end
  else (w, out ++ [LWarnNoPIL]).

(** One turn of the loop of [main]. *)
Definition process_tile (env : Env) (st : World * list Line)
    (tile : string * string) : World * list Line :=
  let '(filename, prompt) := tile in
  let output_path := Py.path_join (ASSETS_DIR env) filename in
  if file_exists output_path (fst st) then say (LSkip filename) st
  else
    let '(success, st) := generate_image env prompt output_path st in
    if success then post_process env output_path st else st.

Definition run (env : Env) (tiles : list (string * string))
    (st : World * list Line) : World * list Line :=
  fold_left (process_tile env) tiles st.

Definition main (env : Env) (w : World) : World * list Line :=
  say LDone (run env NEW_TILES (say LHeader (w, []))).

(** The whole script: the credential is checked when the module is loaded. *)
Definition script (env : Env) (environ : option string)
    (env_file : option (list string)) (w : World)
    : Exit * (World * list Line) :=
  if negb (Py.truthy (load_api_key environ env_file))
  then (SysExit 1, (w, [LNoKey]))
  else (Returned, main env w).

End NewTilesScript.

(** ** [generate-assets.py] *)

Module AssetsScript.

Inductive Line :=
  | LNoKey
  | LHeader
  | LCategory (category : string) (n : nat)
  | LSkip (filename : string)
  | LOk (name : string)
  | LWarnNoImage (name : string)
  | LError (name : string)
  | LDone (done total failed : nat)
  | LRerun.

Definition load_api_key (environ : option string)
    (env_file : option (list string)) : option string :=
  if Py.truthy environ then environ
  else
    match env_file with
    | Some lines =>
        match List.find ApiSetup.is_key_line lines with
        | Some line =>
            match ApiSetup.after_first "=" line with
            | Some value => Some (ApiSetup.strip value)
            | None => environ
            end
        | None => environ
        end
    | None => environ
    end.

Definition STYLE_BASE : string :=
  "Pixel art style, warm and charming aesthetic, cozy village simulation game. Clean, crisp edges. Transparent background (PNG with alpha). Consistent lighting from top-left. ".

Definition ISO_TILE_STYLE : string :=
  STYLE_BASE +:+
  "Isometric diamond-shaped tile, top-down isometric view (2:1 ratio). The tile is a 3D isometric block with visible top face and two darker side faces for depth. 64 pixels wide, 40 pixels tall. Small and detailed. ".

Definition AGENT_STYLE : string :=
  STYLE_BASE +:+
  "Chibi/super-deformed character with large head (40% of body height), big expressive eyes with highlights, small body, stubby limbs. Cute and charming. Front-facing view. 48 pixels wide, 64 pixels tall. Transparent background. ".

Definition ICON_STYLE : string :=
  STYLE_BASE +:+
  "Game UI icon, clean and recognizable at small size. 24x24 pixels. Transparent background. Simple but charming pixel art. ".

Definition ASSETS : list (string * list (string * string)) :=
  [ ("tiles"%string,
     [ ("tile_grass.png"%string,
        ISO_TILE_STYLE +:+ "Lush green grass tile with small grass blade details and tiny wildflowers. Vibrant spring green.");
       ("tile_water.png"%string,
        ISO_TILE_STYLE +:+ "Clear blue water tile with gentle wave ripples and small white sparkle highlights. Serene blue.");
       ("tile_forest.png"%string,
        ISO_TILE_STYLE +:+ "Dense forest tile with tiny cute trees on top, dark green canopy, visible small trunks. Deep emerald green.");
       ("tile_sand.png"%string,
        ISO_TILE_STYLE +:+ "Warm sandy beach tile with grainy texture and tiny shell details. Golden warm sand color.");
       ("tile_mountain.png"%string,
        ISO_TILE_STYLE +:+ "Rocky mountain tile with grey stone peaks and a small snow cap on top. Cool grey with white peak.");
       ("tile_road.png"%string,
        ISO_TILE_STYLE +:+ "Earthy dirt road tile with subtle worn path marks and tiny pebble details. Warm brown earth tone.");
       ("tile_building.png"%string,
        ISO_TILE_STYLE +:+ "Small cozy cottage on the tile with a red/orange roof, cream walls, a tiny yellow-lit window, and a small door. Warm inviting colors.");
       ("tile_farmland.png"%string,
        ISO_TILE_STYLE +:+ "Plowed farmland tile with neat parallel furrow lines and small green crop seedlings growing in rows. Rich brown soil with green sprouts.") ]);
    ("agents"%string,
     [ ("agent_0.png"%string,
        AGENT_STYLE +:+ "Female character named Aria wearing a red dress/outfit with pink accents. Light skin, dark reddish-brown long hair. Warm and friendly expression.");
       ("agent_1.png"%string,
        AGENT_STYLE +:+ "Male character named Bolt wearing a blue jacket/outfit with light blue accents. Light skin, dark navy short hair. Energetic and confident expression.");
       ("agent_2.png"%string,
        AGENT_STYLE +:+ "Female character named Cleo wearing a golden/amber outfit with warm yellow accents. Light skin, medium brown hair in a ponytail. Clever and curious expression.");
       ("agent_3.png"%string,
        AGENT_STYLE +:+ "Male character named Drake wearing a purple robe/outfit with lavender accents. Light skin, dark purple hair. Mysterious and thoughtful expression.");
       ("agent_4.png"%string,
        AGENT_STYLE +:+ "Non-binary character named Echo wearing a teal/cyan outfit with mint green accents. Light skin, dark green short wavy hair. Calm and observant expression.") ]);
    ("resources"%string,
     [ ("resource_wood.png"%string,
        ICON_STYLE +:+ "A small cute wooden log or bundle of wood planks. Brown wood grain visible.");
       ("resource_stone.png"%string,
        ICON_STYLE +:+ "A small grey stone or rock with subtle crack lines. Cool grey.");
       ("resource_food.png"%string,
        ICON_STYLE +:+ "A cute red apple with a small green leaf on top. Bright red and green.");
       ("resource_iron.png"%string,
        ICON_STYLE +:+ "A small silver/steel ingot bar with metallic sheen. Cool silver grey.");
       ("resource_gold.png"%string,
        ICON_STYLE +:+ "A shiny golden gem or coin. Bright warm gold with sparkle.");
       ("resource_herb.png"%string,
        ICON_STYLE +:+ "A small green herb or plant sprig with leaves. Fresh bright green.") ]);
    ("actions"%string,
     [ ("action_gather.png"%string,
        ICON_STYLE +:+ "A small pickaxe tool icon. Brown wooden handle, grey metal head.");
       ("action_talk.png"%string,
        ICON_STYLE +:+ "A speech bubble icon with three dots inside. Blue bubble, white dots.");
       ("action_craft.png"%string,
        ICON_STYLE +:+ "A small hammer tool icon. Brown wooden handle, grey metal head.");
       ("action_rest.png"%string,
        ICON_STYLE +:+ "A sleep/rest icon with 'Zzz' letters or a crescent moon. Purple/blue.");
       ("action_trade.png"%string,
        ICON_STYLE +:+ "Two overlapping coins icon suggesting trade/exchange. Gold coins.") ]) ].

Definition say (l : Line) (st : World * list Line) : World * list Line :=
  (fst st, snd st ++ [l]).

Definition generate_image (env : Env) (prompt output_path : string)
    (st : World * list Line) : bool * (World * list Line) :=
  let '(w, out) := st in
  let response := generate_content env (requests w) prompt in
  let w := {| fs := fs w; requests := S (requests w);
              trace := trace w ++ [EvRequest prompt];
              raised := raised w |} in
  match response with
  | Parts parts =>
      match first_inline_data parts with
      | Some image_data =>
          (true, (write_file output_path (ImageData image_data) w,
                  out ++ [LOk (Py.path_name output_path)]))
      | None => (false, (w, out ++ [LWarnNoImage (Py.path_name output_path)]))
      end
  | Raises => (false, (w, out ++ [LError (Py.path_name output_path)]))
  end.

(** The state of the loops of [main]: the two counters, the world and the
    printed lines. *)
Record Progress := {
  done : nat;
  failed_count : nat;
  state : World * list Line }.

Definition process_item (env : Env) (category_dir : string) (p : Progress)
    (item : string * string) : Progress :=
  let '(filename, prompt) := item in
  let output_path := Py.path_join category_dir filename in
  if file_exists output_path (fst (state p)) then
    {| done := S (done p); failed_count := failed_count p;
       state := say (LSkip filename) (state p) |}
  else
    let full_prompt := "Generate a single game asset image: " +:+ prompt in
    let '(success, st) := generate_image env full_prompt output_path (state p) in
    if success
    then {| done := S (done p); failed_count := failed_count p; state := st |}
    else {| done := done p; failed_count := S (failed_count p); state := st |}.

Definition process_category (env : Env) (p : Progress)
    (entry : string * list (string * string)) : Progress :=
  let '(category, items) := entry in
  let p := {| done := done p; failed_count := failed_count p;
              state := say (LCategory category (length items)) (state p) |} in
  let category_dir := Py.path_join (ASSETS_DIR env) category in
  fold_left (process_item env category_dir) items p.

Definition run (env : Env) (assets : list (string * list (string * string)))
    (w : World) : Progress :=
  let p := {| done := 0; failed_count := 0; state := say LHeader (w, []) |} in
  let total := list_sum (map (fun c => length (snd c)) assets) in
  let p := fold_left (process_category env) assets p in
  let st := say (LDone (done p) total (failed_count p)) (state p) in
  let st := if (0 <? failed_count p)%nat then say LRerun st else st in
  {| done := done p; failed_count := failed_count p; state := st |}.

Definition main (env : Env) (w : World) : Progress := run env ASSETS w.

Definition script (env : Env) (environ : option string)
    (env_file : option (list string)) (w : World) : Exit * (World * list Line) :=
  if negb (Py.truthy (load_api_key environ env_file))
  then (SysExit 1, (w, [LNoKey]))
  else (Returned, state (main env w)).

End AssetsScript.

(** Vocabulary for the two small scripts. *)
Definition tile_path (env : Env) (tile : string * string) : string :=
  Py.path_join (NewTilesScript.ASSETS_DIR env) (fst tile).

Definition tile_missing (env : Env) (w : World) (tile : string * string) : bool :=
  negb (file_exists (tile_path env tile) w).

Definition tile_request (tile : string * string) : string :=
  "Generate a single game asset image: " +:+ snd tile.

(** What the tile script leaves of a delivered picture. *)
Definition tile_result (env : Env) (img : Image) : Image :=
  if pil_available env
  then NewTiles.post_process_image (Image_resize env) img
  else img.

(** The items of [generate-assets.py] with their output paths. *)
Definition item_paths (env : Env)
    (assets : list (string * list (string * string)))
    : list (string * string) :=
  flat_map
    (fun c => map (fun item =>
                     (Py.path_join (Py.path_join (ASSETS_DIR env) (fst c))
                        (fst item),
                      snd item))
                  (snd c))
    assets.

Definition item_missing (w : World) (item : string * string) : bool :=
  negb (file_exists (fst item) w).

Definition item_request (item : string * string) : string :=
  "Generate a single game asset image: " +:+ snd item.

(** What [generate-assets.py] does over the items [items] (output path and
    prompt): every item is counted as done or failed; one request goes out
    for each item whose file was missing at the start, and never a second
    one; existing files and other paths are left alone; a file that appears
    holds a picture as the service delivered it. *)
Definition items_done (env : Env) (items : list (string * string))
    (p p' : AssetsScript.Progress) : Prop :=
  let w := fst (AssetsScript.state p) in
  let w' := fst (AssetsScript.state p') in
  let wanted := List.filter (item_missing w) items in
  (AssetsScript.done p' + AssetsScript.failed_count p'
   = AssetsScript.done p + AssetsScript.failed_count p + length items)%nat /\
  (AssetsScript.failed_count p <= AssetsScript.failed_count p')%nat /\
  (AssetsScript.failed_count p'
   <= AssetsScript.failed_count p + length wanted)%nat /\
  requests w' = (requests w + length wanted)%nat /\
  requests_of (trace w') = requests_of (trace w) ++ map item_request wanted /\
  sleeps (trace w') = sleeps (trace w) /\
  (forall q : string,
      ~ In q (map fst items) \/ is_Some (fs w !! q) -> fs w' !! q = fs w !! q) /\
  (forall q : string,
      fs w !! q = None ->
      fs w' !! q = None \/
      exists (img : Image) (k : nat) (prompt : string),
        payload (generate_content env k prompt) = Some img /\
        fs w' !! q = Some (ImageData img)).

(** ** The static catalog of [generate-world-assets.py]

    The six asset tables as the script declares them, with the dimension and
    style constants they use. *)

Module StaticCatalog.

Definition TERRAIN_TILES : list (string * Spec) :=
  [ ("tiles/grass_plains.png"%string,
     make_spec "Grass Plains"
       "Lush green grassland tile with small grass blade details and subtle ground texture. Vibrant spring green color."
       TILE_DIM "terrain" TILE_STYLE);
    ("tiles/grass_flowers.png"%string,
     make_spec "Grass with Flowers"
       "Green grass tile decorated with colorful small wildflowers - red, yellow, purple dots scattered naturally across the surface."
       TILE_DIM "terrain" TILE_STYLE);
    ("tiles/forest_light.png"%string,
     make_spec "Light Forest"
       "Sparse forest tile with a few small deciduous trees on green grass, dappled sunlight visible on ground. Light green canopy."
       TILE_DIM "terrain" TILE_STYLE);
    ("tiles/forest_dense.png"%string,
     make_spec "Dense Forest"
       "Thick dense forest tile with overlapping dark green tree canopies, almost no ground visible. Deep emerald green, ancient trees."
       TILE_DIM "terrain" TILE_STYLE);
    ("tiles/forest_autumn.png"%string,
     make_spec "Autumn Forest"
       "Forest tile with beautiful autumn-colored trees - orange, red, golden yellow foliage. Fallen leaves on ground."
       TILE_DIM "terrain" TILE_STYLE);
    ("tiles/mountain_low.png"%string,
     make_spec "Low Mountain"
       "Rocky low mountain/hill tile with grey-brown rocks, some grass patches, rough terrain. Not snow-capped."
       TILE_DIM "terrain" TILE_STYLE);
    ("tiles/mountain_high.png"%string,
     make_spec "High Mountain"
       "Tall snow-capped mountain peak tile. White snow on top, grey rock below, imposing and majestic."
       TILE_DIM "terrain" TILE_STYLE);
    ("tiles/mountain_rocky.png"%string,
     make_spec "Rocky Mountain"
       "Bare rocky mountain tile with exposed grey and brown stone, jagged edges, no vegetation. Raw stone texture."
       TILE_DIM "terrain" TILE_STYLE);
    ("tiles/water_shallow.png"%string,
     make_spec "Shallow Water"
       "Clear shallow water tile with light blue color, visible sandy bottom, gentle small wave ripples, white sparkle highlights."
       TILE_DIM "terrain" TILE_STYLE);
    ("tiles/water_deep.png"%string,
     make_spec "Deep Water"
       "Deep dark ocean water tile with dark navy blue color, subtle deep wave patterns. Very dark blue, no land visible."
       TILE_DIM "terrain" TILE_STYLE);
    ("tiles/water_river.png"%string,
     make_spec "River"
       "Flowing river water tile with medium blue color, visible current flow lines, small white foam details on surface."
       TILE_DIM "terrain" TILE_STYLE);
    ("tiles/desert_sand.png"%string,
     make_spec "Sand Desert"
       "Hot sandy desert tile with golden-tan sand, subtle wind-blown ripple patterns, warm dry feeling."
       TILE_DIM "terrain" TILE_STYLE);
    ("tiles/desert_oasis.png"%string,
     make_spec "Desert Oasis"
       "Desert oasis tile with a small pool of clear blue water surrounded by sand, with one or two small palm trees and green vegetation."
       TILE_DIM "terrain" TILE_STYLE);
    ("tiles/swamp.png"%string,
     make_spec "Swamp"
       "Murky swamp tile with dark greenish-brown muddy water, small cattails or reeds, mossy texture. Dark olive green and brown."
       TILE_DIM "terrain" TILE_STYLE);
    ("tiles/snow_field.png"%string,
     make_spec "Snow Field"
       "Pristine white snow-covered flat tile with ice crystal sparkles, gentle blue shadows. Cool white and light blue."
       TILE_DIM "terrain" TILE_STYLE);
    ("tiles/snow_forest.png"%string,
     make_spec "Snow Forest"
       "Snow-covered forest tile with evergreen pine trees dusted in white snow, frozen ground. Winter wonderland look."
       TILE_DIM "terrain" TILE_STYLE);
    ("tiles/farmland.png"%string,
     make_spec "Farmland"
       "Plowed farmland tile with neat parallel furrow lines in rich brown soil, small green crop seedlings growing in rows."
       TILE_DIM "terrain" TILE_STYLE);
    ("tiles/road_dirt.png"%string,
     make_spec "Dirt Road"
       "Earthy brown dirt road tile with worn path marks, small pebble details, lighter center where foot traffic goes."
       TILE_DIM "terrain" TILE_STYLE);
    ("tiles/road_stone.png"%string,
     make_spec "Stone Road"
       "Cobblestone paved road tile with grey stone blocks arranged in a pattern, mortar lines between stones, well-maintained look."
       TILE_DIM "terrain" TILE_STYLE);
    ("tiles/beach.png"%string,
     make_spec "Beach"
       "Sandy beach tile at the water's edge with golden sand, tiny seashell details, wet darker sand near water line."
       TILE_DIM "terrain" TILE_STYLE) ].

Definition BUILDING_DIM : Dimensions := {| width := 96; height := 128 |}.

Definition BUILDING_STYLE : string :=
  "isometric building structure, detailed architectural pixel art, slightly larger than terrain tiles, sits on ground".

Definition POI_BUILDINGS : list (string * Spec) :=
  [ ("buildings/tavern.png"%string,
     make_spec "Tavern"
       "Cozy wooden tavern building with timber frame walls, orange-brown thatched roof, a hanging wooden sign with a mug icon, warm yellow light glowing from windows, small chimney with smoke."
       BUILDING_DIM "building" BUILDING_STYLE);
    ("buildings/marketplace.png"%string,
     make_spec "Marketplace"
       "Open-air marketplace with colorful striped canvas tent/awning (red and white stripes), wooden market stalls displaying goods - barrels, crates, hanging items. Busy trading atmosphere."
       BUILDING_DIM "building" BUILDING_STYLE);
    ("buildings/blacksmith.png"%string,
     make_spec "Blacksmith"
       "Stone and wood blacksmith workshop with a glowing orange forge/furnace visible inside, an anvil outside, hanging tools, dark metal roof. Smoke rising from chimney."
       BUILDING_DIM "building" BUILDING_STYLE);
    ("buildings/library.png"%string,
     make_spec "Library"
       "Large stone library building with tall arched windows, through which bookshelves are visible. Ornate entrance with columns, slate blue roof, scholarly and grand appearance."
       BUILDING_DIM "building" BUILDING_STYLE);
    ("buildings/temple.png"%string,
     make_spec "Temple"
       "Majestic stone temple with tall spire/dome, golden ornamental details, grand stone steps leading to entrance, stained glass window, holy and serene atmosphere."
       BUILDING_DIM "building" BUILDING_STYLE);
    ("buildings/farm.png"%string,
     make_spec "Farm"
       "Rustic farm building with red barn, wooden fence enclosure, visible crop rows or hay bales nearby, a small windmill or silo. Pastoral and peaceful."
       BUILDING_DIM "building" BUILDING_STYLE);
    ("buildings/mine_entrance.png"%string,
     make_spec "Mine Entrance"
       "Dark cave mine entrance carved into rock face, supported by wooden timber beams, small rail track leading inside, mining cart, a lantern hanging at entrance."
       BUILDING_DIM "building" BUILDING_STYLE);
    ("buildings/fishing_hut.png"%string,
     make_spec "Fishing Hut"
       "Small wooden hut on stilts at water's edge, thatched roof, fishing nets hanging to dry, a small dock/pier extending out, a fishing rod leaning against the wall."
       BUILDING_DIM "building" BUILDING_STYLE);
    ("buildings/watchtower.png"%string,
     make_spec "Watchtower"
       "Tall stone watchtower/guard tower with a pointed roof, wooden observation platform at top with railing, narrow slit windows, a flag or banner at the peak."
       BUILDING_DIM "building" BUILDING_STYLE);
    ("buildings/guild_hall.png"%string,
     make_spec "Guild Hall"
       "Large impressive guild hall building with grand wooden double doors, stone foundation, timber frame upper floors, colorful guild banner/flags hanging from facade, ornate roof."
       BUILDING_DIM "building" BUILDING_STYLE);
    ("buildings/inn.png"%string,
     make_spec "Inn"
       "Two-story wooden inn building with a warm welcoming appearance, balcony on second floor, flower boxes in windows, cozy yellow-lit windows, a hanging sign with a bed icon."
       BUILDING_DIM "building" BUILDING_STYLE);
    ("buildings/fountain.png"%string,
     make_spec "Fountain"
       "Ornamental stone fountain in a small plaza/square, circular basin with water flowing, decorative statue or pillar in center, stone tiles around base."
       BUILDING_DIM "building" BUILDING_STYLE);
    ("buildings/ruins.png"%string,
     make_spec "Ruins"
       "Ancient crumbling stone ruins - broken walls, fallen pillars, overgrown with vines and moss, mysterious and abandoned atmosphere, weathered grey stone."
       BUILDING_DIM "building" BUILDING_STYLE);
    ("buildings/witch_hut.png"%string,
     make_spec "Witch Hut"
       "Crooked mysterious witch's hut deep in the forest, tilted structure on chicken legs or stilts, glowing purple/green window, hanging herbs, cauldron outside, spooky but charming."
       BUILDING_DIM "building" BUILDING_STYLE);
    ("buildings/port.png"%string,
     make_spec "Port"
       "Wooden harbor port with a long dock/pier extending over water, moored sailing ship, cargo crates and barrels on dock, rope coils, a small harbormaster's office building."
       BUILDING_DIM "building" BUILDING_STYLE) ].

Definition RESOURCE_DIM : Dimensions := {| width := 32; height := 32 |}.

Definition RESOURCE_STYLE : string :=
  "small game resource object sprite, clear silhouette, recognizable at small size".

Definition RESOURCE_OBJECTS : list (string * Spec) :=
  [ ("resources/tree_oak.png"%string,
     make_spec "Oak Tree"
       "Deciduous oak tree with rounded green canopy, brown trunk, full and leafy."
       RESOURCE_DIM "resource" RESOURCE_STYLE);
    ("resources/tree_pine.png"%string,
     make_spec "Pine Tree"
       "Tall conifer/pine tree with triangular dark green shape, brown trunk, pointed top."
       RESOURCE_DIM "resource" RESOURCE_STYLE);
    ("resources/tree_palm.png"%string,
     make_spec "Palm Tree"
       "Tropical palm tree with curved brown trunk and large green fronds/leaves at top."
       RESOURCE_DIM "resource" RESOURCE_STYLE);
    ("resources/rock_small.png"%string,
     make_spec "Small Rock"
       "Small grey stone rock with subtle crack lines. Simple round-ish boulder."
       RESOURCE_DIM "resource" RESOURCE_STYLE);
    ("resources/rock_large.png"%string,
     make_spec "Large Rock"
       "Larger grey-brown rock formation, more angular and imposing than small rock, with visible geological layers."
       RESOURCE_DIM "resource" RESOURCE_STYLE);
    ("resources/bush_berry.png"%string,
     make_spec "Berry Bush"
       "Green bush with bright red/purple berries visible among the leaves. Round shrub shape."
       RESOURCE_DIM "resource" RESOURCE_STYLE);
    ("resources/mushroom.png"%string,
     make_spec "Mushroom"
       "Cute red-capped mushroom with white spots (amanita-style), small white stem. Fantasy-looking."
       RESOURCE_DIM "resource" RESOURCE_STYLE);
    ("resources/herb_green.png"%string,
     make_spec "Green Herb"
       "Small green herb plant with distinctive medicinal-looking leaves, fresh and vibrant green."
       RESOURCE_DIM "resource" RESOURCE_STYLE);
    ("resources/herb_rare.png"%string,
     make_spec "Rare Herb"
       "Magical glowing rare herb with blue-purple leaves emitting a soft luminescent glow/sparkle effect. Mystical and valuable."
       RESOURCE_DIM "resource" RESOURCE_STYLE);
    ("resources/flower_red.png"%string,
     make_spec "Red Flower"
       "Beautiful red flower with green stem and leaves, blooming petals. Simple and recognizable."
       RESOURCE_DIM "resource" RESOURCE_STYLE);
    ("resources/flower_blue.png"%string,
     make_spec "Blue Flower"
       "Delicate blue flower with green stem and leaves, blooming petals. Cool blue color."
       RESOURCE_DIM "resource" RESOURCE_STYLE);
    ("resources/wheat.png"%string,
     make_spec "Wheat"
       "Golden wheat stalks bundled together, ripe grain heads drooping. Harvest-ready golden color."
       RESOURCE_DIM "resource" RESOURCE_STYLE);
    ("resources/vegetable.png"%string,
     make_spec "Vegetable"
       "Fresh garden vegetables - a few carrots and cabbages together, orange and green colors."
       RESOURCE_DIM "resource" RESOURCE_STYLE);
    ("resources/fish_spot.png"%string,
     make_spec "Fish Spot"
       "Water surface ripple/splash effect indicating fish activity below, concentric circles on blue water, small fish shadow visible."
       RESOURCE_DIM "resource" RESOURCE_STYLE);
    ("resources/ore_iron.png"%string,
     make_spec "Iron Ore"
       "Rock with visible iron ore veins, dark grey stone with reddish-brown metallic streaks/deposits."
       RESOURCE_DIM "resource" RESOURCE_STYLE);
    ("resources/ore_gold.png"%string,
     make_spec "Gold Ore"
       "Rock with gleaming gold veins, grey stone with bright golden metallic streaks that sparkle."
       RESOURCE_DIM "resource" RESOURCE_STYLE);
    ("resources/ore_crystal.png"%string,
     make_spec "Crystal Ore"
       "Rock with protruding crystal formations, translucent purple/blue crystals growing from grey stone, magical glow."
       RESOURCE_DIM "resource" RESOURCE_STYLE) ].

Definition ITEM_DIM : Dimensions := {| width := 24; height := 24 |}.

Definition ITEM_STYLE : string :=
  "game inventory icon, clean and recognizable at very small size, simple but charming pixel art, item on transparent background".

Definition ITEM_ICONS : list (string * Spec) :=
  [ ("items/sword.png"%string,
     make_spec "Sword"
       "Steel sword with silver blade, brown leather-wrapped handle, cross-guard. Classic RPG weapon."
       ITEM_DIM "item" ITEM_STYLE);
    ("items/axe.png"%string,
     make_spec "Battle Axe"
       "Iron battle axe with dark metal head, wooden handle. Heavy and powerful looking."
       ITEM_DIM "item" ITEM_STYLE);
    ("items/bow.png"%string,
     make_spec "Bow"
       "Wooden longbow with taut string, elegant curved shape. Brown wood with white string."
       ITEM_DIM "item" ITEM_STYLE);
    ("items/staff.png"%string,
     make_spec "Magic Staff"
       "Wooden magic staff with glowing crystal/orb at the top emitting blue-purple magical energy. Wizard weapon."
       ITEM_DIM "item" ITEM_STYLE);
    ("items/dagger.png"%string,
     make_spec "Dagger"
       "Short dagger with thin pointed blade, small cross-guard, compact handle. Quick weapon."
       ITEM_DIM "item" ITEM_STYLE);
    ("items/shield.png"%string,
     make_spec "Shield"
       "Round metal shield with an emblem/crest in center, rivets around edge. Defensive equipment."
       ITEM_DIM "item" ITEM_STYLE);
    ("items/helmet.png"%string,
     make_spec "Helmet"
       "Iron knight's helmet with visor, protective and sturdy looking. Grey metal."
       ITEM_DIM "item" ITEM_STYLE);
    ("items/armor_leather.png"%string,
     make_spec "Leather Armor"
       "Brown leather armor chest piece with stitching details, buckles. Light armor."
       ITEM_DIM "item" ITEM_STYLE);
    ("items/armor_plate.png"%string,
     make_spec "Plate Armor"
       "Heavy steel plate armor chest piece, polished silver metal, sturdy protection. Heavy armor."
       ITEM_DIM "item" ITEM_STYLE);
    ("items/potion_red.png"%string,
     make_spec "Health Potion"
       "Red health potion in a round glass bottle/flask with cork stopper. Bright red glowing liquid."
       ITEM_DIM "item" ITEM_STYLE);
    ("items/potion_blue.png"%string,
     make_spec "Mana Potion"
       "Blue mana potion in a round glass bottle/flask with cork stopper. Bright blue glowing liquid."
       ITEM_DIM "item" ITEM_STYLE);
    ("items/bread.png"%string,
     make_spec "Bread"
       "Freshly baked bread loaf, golden brown crust, warm and appetizing. Simple food item."
       ITEM_DIM "item" ITEM_STYLE);
    ("items/meat.png"%string,
     make_spec "Cooked Meat"
       "Cooked meat on a bone (drumstick style), brown and appetizing. Hearty food."
       ITEM_DIM "item" ITEM_STYLE);
    ("items/fish_cooked.png"%string,
     make_spec "Cooked Fish"
       "Grilled whole fish on a plate, golden-brown cooked fish. Food item."
       ITEM_DIM "item" ITEM_STYLE);
    ("items/wood.png"%string,
     make_spec "Wood"
       "Bundle of wooden logs/planks tied together, brown wood grain visible. Crafting material."
       ITEM_DIM "item" ITEM_STYLE);
    ("items/stone.png"%string,
     make_spec "Stone"
       "Grey stone block or chunk, rough hewn surface. Basic building material."
       ITEM_DIM "item" ITEM_STYLE);
    ("items/iron_ingot.png"%string,
     make_spec "Iron Ingot"
       "Silver-grey iron ingot bar, metallic sheen, trapezoidal shape. Smelted metal."
       ITEM_DIM "item" ITEM_STYLE);
    ("items/gold_ingot.png"%string,
     make_spec "Gold Ingot"
       "Shiny golden ingot bar, bright warm gold with sparkle. Precious metal."
       ITEM_DIM "item" ITEM_STYLE);
    ("items/crystal.png"%string,
     make_spec "Crystal"
       "Translucent purple crystal gem, faceted and sparkling with magical energy."
       ITEM_DIM "item" ITEM_STYLE);
    ("items/leather.png"%string,
     make_spec "Leather"
       "Rolled piece of brown leather hide, tanned and ready for crafting."
       ITEM_DIM "item" ITEM_STYLE);
    ("items/cloth.png"%string,
     make_spec "Cloth"
       "Folded piece of white/cream cloth fabric, soft textile material."
       ITEM_DIM "item" ITEM_STYLE);
    ("items/gem_red.png"%string,
     make_spec "Red Gem"
       "Brilliant cut red ruby gemstone, faceted and sparkling with deep red color."
       ITEM_DIM "item" ITEM_STYLE);
    ("items/gem_blue.png"%string,
     make_spec "Blue Gem"
       "Brilliant cut blue sapphire gemstone, faceted and sparkling with deep blue color."
       ITEM_DIM "item" ITEM_STYLE);
    ("items/scroll.png"%string,
     make_spec "Scroll"
       "Rolled parchment scroll with a red wax seal, aged paper color, arcane knowledge."
       ITEM_DIM "item" ITEM_STYLE);
    ("items/key.png"%string,
     make_spec "Key"
       "Ornate golden key with decorative bow/handle, classic fantasy key design."
       ITEM_DIM "item" ITEM_STYLE);
    ("items/map.png"%string,
     make_spec "Map"
       "Partially unrolled treasure/world map showing coastlines and an X mark, aged parchment."
       ITEM_DIM "item" ITEM_STYLE) ].

Definition CHAR_DIM : Dimensions := {| width := 48; height := 64 |}.

Definition CHAR_STYLE : string :=
  "chibi/super-deformed RPG character sprite, large head (40% of body), big expressive eyes, small body, front-facing view".

Definition CHARACTER_SPRITES : list (string * Spec) :=
  [ ("characters/human_base.png"%string,
     make_spec "Human Base"
       "Human RPG character with fair skin, brown hair, wearing simple brown tunic and pants. Average build, friendly and approachable."
       CHAR_DIM "character" CHAR_STYLE);
    ("characters/elf_base.png"%string,
     make_spec "Elf Base"
       "Elegant elf character with pointed ears, light skin, long silver-blonde hair, wearing green forest clothing. Slender and graceful."
       CHAR_DIM "character" CHAR_STYLE);
    ("characters/dwarf_base.png"%string,
     make_spec "Dwarf Base"
       "Stout dwarf character with thick brown beard, ruddy complexion, wearing heavy leather and metal vest. Short and stocky build."
       CHAR_DIM "character" CHAR_STYLE);
    ("characters/orc_base.png"%string,
     make_spec "Orc Base"
       "Green-skinned orc character with small tusks, muscular build, wearing tribal leather armor with bone accessories. Strong and fierce."
       CHAR_DIM "character" CHAR_STYLE);
    ("characters/beastkin_base.png"%string,
     make_spec "Beastkin Base"
       "Fox-like beastkin character with orange fur, pointy ears, bushy tail, wearing simple cloth outfit. Agile and alert expression."
       CHAR_DIM "character" CHAR_STYLE);
    ("characters/undead_base.png"%string,
     make_spec "Undead Base"
       "Pale undead/skeleton character with ghostly blue-white skin, glowing blue eyes, tattered dark robes. Eerie but not scary, RPG-cute style."
       CHAR_DIM "character" CHAR_STYLE);
    ("characters/fairy_base.png"%string,
     make_spec "Fairy Base"
       "Tiny fairy character with translucent iridescent wings, light purple skin, wearing flower-petal clothing, sparkling aura. Magical and delicate."
       CHAR_DIM "character" CHAR_STYLE);
    ("characters/dragonkin_base.png"%string,
     make_spec "Dragonkin Base"
       "Dragon-humanoid character with red scales, small horns, reptilian eyes, tail, wearing metal and leather armor. Powerful and noble."
       CHAR_DIM "character" CHAR_STYLE) ].

Definition MINIMAP_DIM : Dimensions := {| width := 12; height := 12 |}.

Definition EMOTION_DIM : Dimensions := {| width := 16; height := 16 |}.

Definition ACTION_DIM : Dimensions := {| width := 16; height := 16 |}.

Definition BUBBLE_DIM : Dimensions := {| width := 64; height := 48 |}.

Definition MINIMAP_STYLE : string :=
  "tiny minimap marker icon, extremely simple, 2-3 colors max, must be recognizable at 12x12 pixels".

Definition EMOTION_STYLE : string :=
  "small emoji-style emotion bubble icon, expressive face, simple shapes, cute".

Definition ACTION_STYLE : string :=
  "small action indicator icon, simple and clear silhouette, game HUD style".

Definition BUBBLE_STYLE : string :=
  "speech bubble UI frame element, clean rounded shape with tail/pointer".

Definition UI_ELEMENTS : list (string * Spec) :=
  [ ("ui/minimap_icons/tavern.png"%string,
     make_spec "Minimap Tavern"
       "Tiny mug/cup icon for tavern location marker."
       MINIMAP_DIM "ui_minimap" MINIMAP_STYLE);
    ("ui/minimap_icons/market.png"%string,
     make_spec "Minimap Market"
       "Tiny shopping bag/cart icon for market location."
       MINIMAP_DIM "ui_minimap" MINIMAP_STYLE);
    ("ui/minimap_icons/blacksmith.png"%string,
     make_spec "Minimap Blacksmith"
       "Tiny anvil/hammer icon for blacksmith location."
       MINIMAP_DIM "ui_minimap" MINIMAP_STYLE);
    ("ui/minimap_icons/library.png"%string,
     make_spec "Minimap Library"
       "Tiny book icon for library location."
       MINIMAP_DIM "ui_minimap" MINIMAP_STYLE);
    ("ui/minimap_icons/temple.png"%string,
     make_spec "Minimap Temple"
       "Tiny cross/star icon for temple location."
       MINIMAP_DIM "ui_minimap" MINIMAP_STYLE);
    ("ui/minimap_icons/farm.png"%string,
     make_spec "Minimap Farm"
       "Tiny wheat/plant icon for farm location."
       MINIMAP_DIM "ui_minimap" MINIMAP_STYLE);
    ("ui/minimap_icons/mine.png"%string,
     make_spec "Minimap Mine"
       "Tiny pickaxe icon for mine location."
       MINIMAP_DIM "ui_minimap" MINIMAP_STYLE);
    ("ui/minimap_icons/port.png"%string,
     make_spec "Minimap Port"
       "Tiny anchor/boat icon for port location."
       MINIMAP_DIM "ui_minimap" MINIMAP_STYLE);
    ("ui/emotion_bubbles/happy.png"%string,
     make_spec "Happy Emotion"
       "Happy smiling face emoji with closed eyes smile. Yellow, joyful."
       EMOTION_DIM "ui_emotion" EMOTION_STYLE);
    ("ui/emotion_bubbles/sad.png"%string,
     make_spec "Sad Emotion"
       "Sad face emoji with downturned mouth and teardrop. Blue, melancholy."
       EMOTION_DIM "ui_emotion" EMOTION_STYLE);
    ("ui/emotion_bubbles/angry.png"%string,
     make_spec "Angry Emotion"
       "Angry face emoji with furrowed brows and frown. Red, frustrated."
       EMOTION_DIM "ui_emotion" EMOTION_STYLE);
    ("ui/emotion_bubbles/surprised.png"%string,
     make_spec "Surprised Emotion"
       "Surprised face emoji with wide open mouth and eyes. Yellow, shocked."
       EMOTION_DIM "ui_emotion" EMOTION_STYLE);
    ("ui/emotion_bubbles/scared.png"%string,
     make_spec "Scared Emotion"
       "Fearful face emoji with wide eyes, trembling expression. Pale/blue, frightened."
       EMOTION_DIM "ui_emotion" EMOTION_STYLE);
    ("ui/emotion_bubbles/love.png"%string,
     make_spec "Love Emotion"
       "Love emoji with heart eyes or hearts floating around. Pink/red, affectionate."
       EMOTION_DIM "ui_emotion" EMOTION_STYLE);
    ("ui/emotion_bubbles/thinking.png"%string,
     make_spec "Thinking Emotion"
       "Thinking face emoji with hand on chin, raised eyebrow. Yellow, contemplative."
       EMOTION_DIM "ui_emotion" EMOTION_STYLE);
    ("ui/emotion_bubbles/sleepy.png"%string,
     make_spec "Sleepy Emotion"
       "Sleepy face emoji with closed eyes and Zzz letters floating. Purple/blue, drowsy."
       EMOTION_DIM "ui_emotion" EMOTION_STYLE);
    ("ui/speech_bubble.png"%string,
     make_spec "Speech Bubble"
       "White speech bubble frame with rounded corners, thin dark outline, small triangular tail/pointer at bottom. Clean UI element."
       BUBBLE_DIM "ui_bubble" BUBBLE_STYLE);
    ("ui/action_icons/gathering.png"%string,
     make_spec "Gathering Action"
       "Small pickaxe/hand gathering icon. Resource collection activity indicator."
       ACTION_DIM "ui_action" ACTION_STYLE);
    ("ui/action_icons/crafting.png"%string,
     make_spec "Crafting Action"
       "Small hammer and anvil icon. Crafting/smithing activity indicator."
       ACTION_DIM "ui_action" ACTION_STYLE);
    ("ui/action_icons/fighting.png"%string,
     make_spec "Fighting Action"
       "Small crossed swords icon. Combat/battle activity indicator."
       ACTION_DIM "ui_action" ACTION_STYLE);
    ("ui/action_icons/resting.png"%string,
     make_spec "Resting Action"
       "Small crescent moon with Zzz icon. Sleeping/resting activity indicator."
       ACTION_DIM "ui_action" ACTION_STYLE);
    ("ui/action_icons/trading.png"%string,
     make_spec "Trading Action"
       "Small handshake or coin exchange icon. Trading activity indicator."
       ACTION_DIM "ui_action" ACTION_STYLE);
    ("ui/action_icons/walking.png"%string,
     make_spec "Walking Action"
       "Small footprints or walking person silhouette icon. Movement activity indicator."
       ACTION_DIM "ui_action" ACTION_STYLE);
    ("ui/action_icons/eating.png"%string,
     make_spec "Eating Action"
       "Small fork and knife or apple icon. Eating/consuming activity indicator."
       ACTION_DIM "ui_action" ACTION_STYLE);
    ("ui/action_icons/exploring.png"%string,
     make_spec "Exploring Action"
       "Small compass or magnifying glass icon. Exploration activity indicator."
       ACTION_DIM "ui_action" ACTION_STYLE) ].

Definition catalog : Catalog :=
  Build_Catalog TERRAIN_TILES POI_BUILDINGS RESOURCE_OBJECTS
    ITEM_ICONS CHARACTER_SPRITES UI_ELEMENTS.

End StaticCatalog.

(** A spec as the data model wants it: title and description not empty,
    width and height positive, the subject named like the title. *)
Definition well_formed_spec (spec : Spec) : bool :=
  let img := marketing_image spec in
  let dims := physical_properties (subject img) in
  (negb (String.eqb (title (meta img)) "")
   && negb (String.eqb (description (style img)) "")
   && (0 <? width_px dims) && (0 <? height_px dims)
   && String.eqb (name (subject img)) (title (meta img)))%bool.

(** ** Facts about the helpers *)

Lemma append_cons (x : ascii) (a b : string) :
  String x a +:+ b = String x (a +:+ b).
Proof. reflexivity. Qed.

Lemma append_assoc (a b c : string) : (a +:+ b) +:+ c = a +:+ (b +:+ c).
Proof.
  induction a as [|x a IH]; [reflexivity |].
  rewrite !append_cons. f_equal. exact IH.
Qed.

Lemma append_empty_r (s : string) : s +:+ "" = s.
Proof.
  induction s as [|x s IH]; [reflexivity |].
  rewrite append_cons. f_equal. exact IH.
Qed.

Lemma Substring_here (sub post : string) : Py.Substring sub (sub +:+ post).
Proof. exists ""%string, post. reflexivity. Qed.

Lemma Substring_app_r (sub s t : string) :
  Py.Substring sub t -> Py.Substring sub (s +:+ t).
Proof.
  intros (pre & post & ->). exists (s +:+ pre), post.
  now rewrite append_assoc.
Qed.

Lemma Substring_app_l (sub s t : string) :
  Py.Substring sub s -> Py.Substring sub (s +:+ t).
Proof.
  intros (pre & post & ->). exists pre, (post +:+ t).
  now rewrite !append_assoc.
Qed.

Lemma Substring_refl (s : string) : Py.Substring s s.
Proof.
  exists ""%string, ""%string. now rewrite append_empty_r.
Qed.

Create HintDb substr.

#[local] Hint Resolve Substring_here Substring_app_r Substring_app_l
  Substring_refl : substr.

(** ** Prompt synthesis *)

Lemma build_prompt_unfold (s : Spec) :
  build_prompt s =
  "Generate a single game asset image." +:+ " " +:+
  ("Art style: " +:+ art_direction (style (marketing_image s)) +:+ ".") +:+ " " +:+
  ("Type: " +:+ extra (style (marketing_image s)) +:+ ".") +:+ " " +:+
  ("Subject: " +:+ title (meta (marketing_image s)) +:+ ".") +:+ " " +:+
  ("Description: " +:+ description (style (marketing_image s)) +:+ ".") +:+ " " +:+
  ("Dimensions: " +:+
     Py.str (width_px (physical_properties (subject (marketing_image s)))) +:+
     "x" +:+
     Py.str (height_px (physical_properties (subject (marketing_image s)))) +:+
     " pixels.") +:+ " " +:+
  "Must have transparent background (PNG with alpha channel)." +:+ " " +:+
  "No text, no labels, no watermarks. Just the game asset sprite.".
Proof. reflexivity. Qed.

(** C9. [build_prompt] is a function of the spec alone, and in fact of the
    six fields it reads: two specs that agree on art direction, extra style,
    title, description, width and height give the same string.  For every
    spec the string contains the title, the text "<width>x<height> pixels"
    printed from the spec's dimensions, and the sentence that requires a
    transparent background. *)
Theorem build_prompt_deterministic_and_complete (s : Spec) :
  (forall s' : Spec,
      art_direction (style (marketing_image s')) =
        art_direction (style (marketing_image s)) ->
      extra (style (marketing_image s')) = extra (style (marketing_image s)) ->
      title (meta (marketing_image s')) = title (meta (marketing_image s)) ->
      description (style (marketing_image s')) =
        description (style (marketing_image s)) ->
      physical_properties (subject (marketing_image s')) =
        physical_properties (subject (marketing_image s)) ->
      build_prompt s' = build_prompt s) /\
  Py.Substring (title (meta (marketing_image s))) (build_prompt s) /\
  Py.Substring
    (Py.str (width_px (physical_properties (subject (marketing_image s)))) +:+
     "x" +:+
     Py.str (height_px (physical_properties (subject (marketing_image s)))) +:+
     " pixels")
    (build_prompt s) /\
  Py.Substring "Must have transparent background (PNG with alpha channel)."
    (build_prompt s).
Proof.
  split; [| split; [| split]].
  - intros s' Ha He Ht Hd Hp. rewrite !build_prompt_unfold.
    now rewrite Ha, He, Ht, Hd, Hp.
  - rewrite build_prompt_unfold. eauto 12 with substr.
  - rewrite build_prompt_unfold.
    do 10 apply Substring_app_r. apply Substring_app_l.
    apply Substring_app_r.
    replace (" pixels.")%string with (" pixels" +:+ ".")%string by reflexivity.
    rewrite <- !append_assoc. apply Substring_app_l.
    rewrite !append_assoc. apply Substring_refl.
  - rewrite build_prompt_unfold. eauto 20 with substr.
Qed.

Lemma build_prompt_deterministic_and_complete_witness :
  build_prompt
    (make_spec "Grass Plains" (description (style (marketing_image (snd grass_plains))))
       TILE_DIM "tile" TILE_STYLE)
  = build_prompt (snd grass_plains).
Proof.
  apply (build_prompt_deterministic_and_complete (snd grass_plains));
    reflexivity.
Defined.

Example build_prompt_grass_plains :
  build_prompt (snd grass_plains) =
  ("Generate a single game asset image. Art style: 2D pixel art, isometric view, fantasy RPG style, warm color palette, soft shadows, 16-bit era aesthetic, transparent background, game asset, consistent top-left lighting, clean crisp pixel edges. Type: isometric diamond-shaped terrain tile, top-down 2:1 ratio, 3D block with visible top face and two darker side faces for depth. Subject: Grass Plains. Description: Lush green grassland tile with small grass blade details and subtle ground texture. Vibrant spring green color.. Dimensions: 48x48 pixels. Must have transparent background (PNG with alpha channel). No text, no labels, no watermarks. Just the game asset sprite.")%string.
Proof. vm_compute. reflexivity. Qed.

(** ** The mask program, pixel by pixel *)

Section Masks.

Context {X Y Z' : Type}.

Lemma zip_with_map_map (F : X -> Y -> Z') {T} (f : T -> X) (g : T -> Y)
    (l : list T) :
  zip_with F (map f l) (map g l) = map (fun x => F (f x) (g x)) l.
Proof. induction l as [|x l IH]; simpl; [reflexivity | now rewrite IH]. Qed.

Lemma zip_with2_map_map (F : X -> Y -> Z') {T} (f : T -> X) (g : T -> Y)
    (d : list (list T)) :
  zip_with (zip_with F) (map (map f) d) (map (map g) d)
  = map (map (fun x => F (f x) (g x))) d.
Proof.
  induction d as [|row d IH]; simpl; [reflexivity |].
  now rewrite zip_with_map_map, IH.
Qed.

End Masks.

Lemma gt_channel (c : Pixel -> Z) (t : Z) (data : Image) :
  Np.gt (Np.channel c data) t = map (map (fun p => t <? c p)) data.
Proof.
  unfold Np.gt, Np.channel. rewrite map_map.
  apply map_ext. intros row. now rewrite map_map.
Qed.

Lemma and_pixelwise (f g : Pixel -> bool) (data : Image) :
  Np.and_ (map (map f) data) (map (map g) data)
  = map (map (fun p => (f p && g p)%bool)) data.
Proof. apply zip_with2_map_map. Qed.

Lemma not_pixelwise (f : Pixel -> bool) (data : Image) :
  Np.not_ (map (map f) data) = map (map (fun p => negb (f p))) data.
Proof.
  unfold Np.not_. rewrite map_map.
  apply map_ext. intros row. now rewrite map_map.
Qed.

Lemma set_alpha_where_pixelwise (m : Pixel -> bool) (f : Z -> Z)
    (h : Pixel -> Pixel) (data : Image) :
  Np.set_alpha_where (map (map m) data) f (map (map h) data)
  = map (map (fun p => if m p then set_alpha (h p) (f (A (h p))) else h p)) data.
Proof. apply zip_with2_map_map. Qed.

Lemma all_above_masks (t : Z) (data : Image) :
  Np.and_ (Np.and_ (Np.gt (Np.channel R data) t) (Np.gt (Np.channel G data) t))
          (Np.gt (Np.channel B data) t)
  = map (map (all_above t)) data.
Proof. rewrite !gt_channel, !and_pixelwise. reflexivity. Qed.

Lemma map_map_id {T} (d : list (list T)) : map (map (fun x => x)) d = d.
Proof.
  induction d as [|row d IH]; simpl; [reflexivity |].
  now rewrite map_id, IH.
Qed.

(** The two masked assignments amount to one rule applied to every pixel. *)
Lemma masked_assignments (white near : Z) (f : Z -> Z) (data : Image) :
  let white_mask := map (map (all_above white)) data in
  let near_white :=
    Np.and_ (map (map (all_above near)) data) (Np.not_ white_mask) in
  Np.set_alpha_where near_white f
    (Np.set_alpha_where white_mask (fun _ => 0) data)
  = map (map (alpha_rule white near f)) data.
Proof.
  cbv zeta. rewrite not_pixelwise, and_pixelwise.
  pose proof (set_alpha_where_pixelwise (all_above white) (fun _ => 0)
                (fun p => p) data) as Hwhite.
  rewrite map_map_id in Hwhite. rewrite Hwhite.
  rewrite set_alpha_where_pixelwise.
  apply map_ext. intros row. apply map_ext. intros p.
  unfold alpha_rule. destruct (all_above white p), (all_above near p); reflexivity.
Qed.

Lemma remove_white_background_pixelwise (data : Image) :
  remove_white_background data = map (map (alpha_rule 240 220 scale_alpha)) data.
Proof.
  unfold remove_white_background. cbv zeta.
  rewrite !all_above_masks. apply masked_assignments.
Qed.

Lemma NewTiles_remove_white_background_pixelwise (data : Image) :
  NewTiles.remove_white_background data
  = map (map (alpha_rule 230 200 (fun _ => 100))) data.
Proof.
  unfold NewTiles.remove_white_background. cbv zeta.
  rewrite !all_above_masks. apply masked_assignments.
Qed.

(** The float product, truncated, is the integer part of three tenths. *)
Lemma scale_alpha_table :
  forallb (fun a => scale_alpha a =? 3 * a / 10) (Py.range 256) = true.
Proof. vm_compute. reflexivity. Qed.

Lemma scale_alpha_floor (a : Z) : uint8 a -> scale_alpha a = 3 * a / 10.
Proof.
  intros [Hlo Hhi].
  pose proof scale_alpha_table as T.
  rewrite forallb_forall in T.
  apply Z.eqb_eq, T. unfold Py.range.
  apply in_map_iff. exists (Z.to_nat a). split; [lia |].
  apply in_seq. lia.
Qed.

Lemma all_above_spec (t : Z) (p : Pixel) :
  all_above t p = true <-> t < R p /\ t < G p /\ t < B p.
Proof. unfold all_above. rewrite !andb_true_iff, !Z.ltb_lt. tauto. Qed.

Lemma all_above_false (t : Z) (p : Pixel) :
  all_above t p = false <-> ~ (t < R p /\ t < G p /\ t < B p).
Proof. rewrite <- all_above_spec. destruct (all_above t p); split; congruence. Qed.

Lemma img_size_map (f : Pixel -> Pixel) (data : Image) :
  img_size (map (map f) data) = img_size data.
Proof.
  unfold img_size. destruct data as [|row data]; simpl; [reflexivity |].
  now rewrite !length_map.
Qed.

Lemma rgb_alpha_rule (white near : Z) (f : Z -> Z) (p : Pixel) :
  rgb (alpha_rule white near f p) = rgb p.
Proof.
  unfold alpha_rule.
  destruct (all_above white p); [reflexivity |].
  destruct (all_above near p); reflexivity.
Qed.

Lemma rgb_map_alpha_rule (white near : Z) (f : Z -> Z) (data : Image) :
  map (map rgb) (map (map (alpha_rule white near f)) data) = map (map rgb) data.
Proof.
  rewrite map_map. apply map_ext. intros row. rewrite map_map.
  apply map_ext. intros p. apply rgb_alpha_rule.
Qed.

(** ** Post-processing *)

(** C10. The background step writes the alpha channel only: at every
    position the red, green and blue values of the result are those of the
    array it started from, which is the picture after the resize step.  This
    holds in both scripts. *)
Theorem post_process_keeps_rgb (resize : Image -> Z * Z -> Image)
    (img : Image) (target_width target_height : Z) :
  map (map rgb) (remove_white_background img) = map (map rgb) img /\
  map (map rgb) (post_process_image resize img target_width target_height)
    = map (map rgb) (resize_to_target resize img target_width target_height) /\
  map (map rgb) (NewTiles.remove_white_background img) = map (map rgb) img /\
  map (map rgb) (NewTiles.post_process_image resize img)
    = map (map rgb) (resize img (128, 128)).
Proof.
  unfold post_process_image, NewTiles.post_process_image. cbv zeta.
  rewrite !remove_white_background_pixelwise,
    !NewTiles_remove_white_background_pixelwise.
  rewrite !rgb_map_alpha_rule. auto.
Qed.

Lemma resize_raises_positive (img : Image) (tw th : Z) :
  0 < tw -> 0 < th -> resize_raises img tw th = false.
Proof.
  intros Hw Hh. unfold resize_raises.
  destruct (decide (img_size img = (tw, th))); [reflexivity |].
  apply orb_false_intro; apply Z.ltb_ge; lia.
Qed.

Lemma post_process_saves (env : Env) (path : string) (img : Image)
    (tw th : Z) (w : World) :
  pil_available env = true ->
  fs w !! path = Some (ImageData img) ->
  resize_raises img tw th = false ->
  fs (post_process env path tw th w) !! path
  = Some (ImageData (post_process_image (Image_resize env) img tw th)).
Proof.
  intros Hpil Hfile Hok. unfold post_process. rewrite Hpil, Hfile, Hok.
  simpl. apply lookup_insert_eq.
Qed.

Section Resampling.

Variable resize : Image -> Z * Z -> Image.

(** What Pillow's [resize] promises for a positive size. *)
Hypothesis resize_exact : forall (img : Image) (tw th : Z),
  0 < tw -> 0 < th -> img_size (resize img (tw, th)) = (tw, th).

Lemma resize_to_target_size (img : Image) (tw th : Z) :
  0 < tw -> 0 < th -> img_size (resize_to_target resize img tw th) = (tw, th).
Proof.
  intros Hw Hh. unfold resize_to_target.
  destruct (decide (img_size img = (tw, th))) as [Heq | Hne];
    [exact Heq | now apply resize_exact].
Qed.

(** C5. With a resampler that delivers the size it is asked for, the
    picture that [post_process] produces for a positive target
    [(W, H)] has width [W] and height [H], whatever the size of the input;
    that picture is what is saved at the path when Pillow is available.  The
    post-processor of the tile script always ends at 128x128. *)
Theorem post_process_dimensions (img : Image) (tw th : Z) :
  0 < tw -> 0 < th ->
  img_size (post_process_image resize img tw th) = (tw, th) /\
  (forall (env : Env) (path : string) (w : World),
      Image_resize env = resize ->
      pil_available env = true ->
      fs w !! path = Some (ImageData img) ->
      exists result,
        fs (post_process env path tw th w) !! path = Some (ImageData result) /\
        img_size result = (tw, th)) /\
  img_size (NewTiles.post_process_image resize img) = (128, 128).
Proof.
  intros Hw Hh.
  assert (Hsize : img_size (post_process_image resize img tw th) = (tw, th)).
  { unfold post_process_image. cbv zeta.
    rewrite remove_white_background_pixelwise, img_size_map.
    now apply resize_to_target_size. }
  split; [exact Hsize | split].
  - intros env path w Hres Hpil Hfile.
    exists (post_process_image resize img tw th). split; [| exact Hsize].
    rewrite <- Hres. apply post_process_saves; [exact Hpil | exact Hfile |].
    now apply resize_raises_positive.
  - unfold NewTiles.post_process_image. cbv zeta.
    rewrite NewTiles_remove_white_background_pixelwise, img_size_map.
    apply resize_exact; lia.
Qed.

End Resampling.

Lemma resize_flat_exact (img : Image) (tw th : Z) :
  0 < tw -> 0 < th -> img_size (resize_flat img (tw, th)) = (tw, th).
Proof.
  intros Hw Hh. unfold resize_flat, img_size. simpl fst. simpl snd.
  destruct (Z.to_nat th) as [|n] eqn:E; [lia |].
  simpl. rewrite !repeat_length. f_equal; lia.
Qed.

Lemma post_process_dimensions_witness :
  img_size (post_process_image resize_flat sample_image 48 48) = (48, 48).
Proof.
  apply (post_process_dimensions resize_flat resize_flat_exact sample_image 48 48);
    lia.
Defined.

(** ** The alpha rule *)

(** C3, as first stated, fails: a pixel between the two thresholds whose alpha
    is 3 ends with alpha 0. *)
Lemma near_white_faint_pixel_is_zeroed :
  all_above 240 {| R := 225; G := 225; B := 225; A := 3 |} = false /\
  all_above 220 {| R := 225; G := 225; B := 225; A := 3 |} = true /\
  remove_white_background [[ {| R := 225; G := 225; B := 225; A := 3 |} ]]
  = [[ {| R := 225; G := 225; B := 225; A := 0 |} ]].
Proof. vm_compute. auto. Qed.

(** C3, amended.  [remove_white_background] applies one rule to every pixel
    [p] of the array, giving [q]:
    - all of R, G, B above 240: the alpha of [q] is 0;
    - otherwise, all of R, G, B above 220: the alpha of [q] is the integer part
      of three tenths of the alpha of [p]; it is smaller than the old alpha
      when that is positive, and it is positive exactly from an old alpha of 4
      on (an opaque pixel ends at 76);
    - otherwise [q] is [p].
    So (255,255,255) goes to alpha 0, (225,225,225) to three tenths of its
    alpha and (0,0,0) stays as it is.  The tile script follows the same
    rule with thresholds 230 and 200 and the constant alpha 100 for the
    near-white pixels. *)
Theorem alpha_rule_of_post_process (data : Image) (p : Pixel) :
  uint8 (A p) ->
  remove_white_background data = map (map (alpha_rule 240 220 scale_alpha)) data /\
  (240 < R p /\ 240 < G p /\ 240 < B p ->
     alpha_rule 240 220 scale_alpha p = set_alpha p 0) /\
  (~ (240 < R p /\ 240 < G p /\ 240 < B p) ->
   220 < R p /\ 220 < G p /\ 220 < B p ->
     alpha_rule 240 220 scale_alpha p = set_alpha p (3 * A p / 10) /\
     (0 < A p -> 3 * A p / 10 < A p) /\
     (0 < 3 * A p / 10 <-> 4 <= A p) /\
     (A p = 255 -> 3 * A p / 10 = 76)) /\
  (~ (220 < R p /\ 220 < G p /\ 220 < B p) ->
     alpha_rule 240 220 scale_alpha p = p) /\
  alpha_rule 240 220 scale_alpha {| R := 255; G := 255; B := 255; A := A p |}
    = {| R := 255; G := 255; B := 255; A := 0 |} /\
  alpha_rule 240 220 scale_alpha {| R := 225; G := 225; B := 225; A := A p |}
    = {| R := 225; G := 225; B := 225; A := 3 * A p / 10 |} /\
  alpha_rule 240 220 scale_alpha {| R := 0; G := 0; B := 0; A := A p |}
    = {| R := 0; G := 0; B := 0; A := A p |} /\
  NewTiles.remove_white_background data
    = map (map (alpha_rule 230 200 (fun _ => 100))) data.
Proof.
  intros Ha.
  split; [apply remove_white_background_pixelwise |].
  split.
  { intros Hw. unfold alpha_rule.
    now rewrite (proj2 (all_above_spec 240 p) Hw). }
  split.
  { intros Hnw Hn. split; [| split; [| split]].
    - unfold alpha_rule.
      rewrite (proj2 (all_above_false 240 p) Hnw).
      rewrite (proj2 (all_above_spec 220 p) Hn).
      now rewrite scale_alpha_floor.
    - intros Hpos. apply Z.div_lt_upper_bound; lia.
    - unfold uint8 in Ha. split; intros H.
      + destruct (Z_lt_le_dec (A p) 4) as [Hlt | Hge]; [| exact Hge].
        assert (3 * A p / 10 = 0) by (apply Z.div_small; lia). lia.
      + assert (1 <= 3 * A p / 10) by (apply Z.div_le_lower_bound; lia). lia.
    - intros ->. reflexivity. }
  split.
  { intros Hnn. unfold alpha_rule.
    assert (Hnw : ~ (240 < R p /\ 240 < G p /\ 240 < B p)) by lia.
    rewrite (proj2 (all_above_false 240 p) Hnw).
    now rewrite (proj2 (all_above_false 220 p) Hnn). }
  split; [reflexivity |].
  split.
  { unfold alpha_rule, set_alpha. simpl. now rewrite scale_alpha_floor. }
  split; [reflexivity |].
  apply NewTiles_remove_white_background_pixelwise.
Qed.

Lemma alpha_rule_of_post_process_witness :
  remove_white_background sample_image
  = map (map (alpha_rule 240 220 scale_alpha)) sample_image.
Proof.
  apply (alpha_rule_of_post_process sample_image opaque_grey).
  unfold uint8. simpl. lia.
Defined.

Example remove_white_background_sample :
  remove_white_background sample_image =
  [ [ {| R := 255; G := 255; B := 255; A := 0 |};
      {| R := 225; G := 225; B := 225; A := 76 |};
      opaque_black ];
    [ opaque_black;
      {| R := 225; G := 225; B := 225; A := 76 |};
      {| R := 255; G := 255; B := 255; A := 0 |} ] ].
Proof. vm_compute. reflexivity. Qed.

(** ** Reading traces *)

Lemma sleeps_app (l1 l2 : list Event) : sleeps (l1 ++ l2) = sleeps l1 ++ sleeps l2.
Proof. apply omap_app. Qed.

Lemma requests_of_app (l1 l2 : list Event) :
  requests_of (l1 ++ l2) = requests_of l1 ++ requests_of l2.
Proof. apply omap_app. Qed.

Lemma writes_of_app (l1 l2 : list Event) :
  writes_of (l1 ++ l2) = writes_of l1 ++ writes_of l2.
Proof. apply omap_app. Qed.

Lemma has_image_payload (r : Response) :
  has_image r = true <-> is_Some (payload r).
Proof.
  destruct r as [|parts]; simpl.
  - split; [discriminate | intros [x Hx]; discriminate].
  - apply bool_decide_eq_true.
Qed.

Lemma has_image_parts (parts : list (option Image)) :
  has_image (Parts parts) = match first_inline_data parts with
                            | Some _ => true
                            | None => false
                            end.
Proof.
  simpl. destruct (first_inline_data parts) as [img|].
  - apply bool_decide_eq_true. eauto.
  - apply bool_decide_eq_false. intros [x Hx]. discriminate.
Qed.

(** ** One call of [generate_image] *)

Section GenerateImage.

Variable env : Env.
Variables prompt output_path : string.
Variable retries : Z.

Abbreviation loop := (generate_image_loop env prompt output_path retries).

(** Requests are counted one per attempt, and never more than the attempts
    that are left. *)
Lemma loop_requests (attempts : list Z) (w : World) :
  (requests w <= requests (snd (loop attempts w))
     <= requests w + length attempts)%nat.
Proof.
  revert w. induction attempts as [|attempt rest IH]; intros w; simpl; [lia |].
  destruct (generate_content env (requests w) prompt) as [|parts].
  - destruct (attempt <? retries);
      match goal with |- context [loop rest ?w1] =>
        specialize (IH w1); simpl in IH; lia end.
  - destruct (first_inline_data parts) as [img|]; [simpl; lia |].
    destruct (attempt <? retries);
      match goal with |- context [loop rest ?w1] =>
        specialize (IH w1); simpl in IH; lia end.
Qed.

(** The call succeeds exactly when one of the answers it may ask for
    carries a picture. *)
Lemma loop_success (attempts : list Z) (w : World) :
  fst (loop attempts w) = true <->
  exists i : nat, (i < length attempts)%nat /\
    has_image (generate_content env (requests w + i) prompt) = true.
Proof.
  revert w. induction attempts as [|attempt rest IH]; intros w; simpl.
  - split; [discriminate | intros (i & Hi & _); lia].
  - assert (Hshift : forall w1 : World, requests w1 = S (requests w) ->
              (fst (loop rest w1) = true <->
               exists i : nat, (0 < i < S (length rest))%nat /\
                 has_image (generate_content env (requests w + i) prompt) = true)).
    { intros w1 Hw1. rewrite IH, Hw1. split.
      - intros (i & Hi & H). exists (S i). split; [lia |].
        now replace (requests w + S i)%nat with (S (requests w) + i)%nat by lia.
      - intros (i & Hi & H). exists (i - 1)%nat. split; [lia |].
        now replace (S (requests w) + (i - 1))%nat with (requests w + i)%nat by lia. }
    destruct (generate_content env (requests w) prompt) as [|parts] eqn:Hr.
    + assert (H0 : has_image (generate_content env (requests w + 0) prompt) = false)
        by (rewrite Nat.add_0_r, Hr; reflexivity).
      destruct (attempt <? retries);
        (rewrite Hshift by reflexivity; split;
         [ intros (i & Hi & H); exists i; split; [lia | exact H]
         | intros (i & Hi & H); exists i; split; [| exact H];
           destruct i; [congruence | lia] ]).
    + pose proof (has_image_parts parts) as Hp.
      destruct (first_inline_data parts) as [img|].
      * simpl. split; [intros _ | reflexivity].
        exists 0%nat. split; [lia |]. now rewrite Nat.add_0_r, Hr.
      * assert (H0 : has_image (generate_content env (requests w + 0) prompt) = false)
          by (rewrite Nat.add_0_r, Hr; exact Hp).
        destruct (attempt <? retries);
          (rewrite Hshift by reflexivity; split;
           [ intros (i & Hi & H); exists i; split; [lia | exact H]
           | intros (i & Hi & H); exists i; split; [| exact H];
             destruct i; [congruence | lia] ]).
Qed.

(** Unfolding a world built by the loop body. *)
Ltac trace_simpl :=
  cbn [trace fs requests emit print sleep write_file fst snd] in *;
  rewrite ?writes_of_app, ?requests_of_app, ?sleeps_app in *;
  cbn [writes_of requests_of sleeps omap list_omap] in *;
  rewrite ?app_nil_r, <- ?app_assoc in *.

(** A failed call leaves the files alone; a successful one writes the
    output path, once, and nothing else. *)
Lemma loop_files (attempts : list Z) (w : World) :
  (fst (loop attempts w) = false ->
     fs (snd (loop attempts w)) = fs w /\
     writes_of (trace (snd (loop attempts w))) = writes_of (trace w)) /\
  (fst (loop attempts w) = true ->
     (exists img, fs (snd (loop attempts w))
                  = <[output_path := ImageData img]> (fs w)) /\
     writes_of (trace (snd (loop attempts w)))
     = writes_of (trace w) ++ [output_path]).
Proof.
  revert w. induction attempts as [|attempt rest IH]; intros w; simpl.
  - split; [auto | discriminate].
  - destruct (generate_content env (requests w) prompt) as [|parts].
    + destruct (attempt <? retries);
        match goal with |- context [loop rest ?w1] =>
          specialize (IH w1); trace_simpl; exact IH end.
    + destruct (first_inline_data parts) as [img|].
      * trace_simpl. split; [discriminate |]. intros _. split; eauto.
      * destruct (attempt <? retries);
          match goal with |- context [loop rest ?w1] =>
            specialize (IH w1); trace_simpl; exact IH end.
Qed.

(** Every request of the call carries the prompt it was given. *)
Lemma loop_prompts (attempts : list Z) (w : World) :
  requests_of (trace (snd (loop attempts w)))
  = requests_of (trace w)
    ++ repeat prompt (requests (snd (loop attempts w)) - requests w).
Proof.
  revert w. induction attempts as [|attempt rest IH]; intros w; simpl.
  - now rewrite Nat.sub_diag, app_nil_r.
  - assert (Hstep : forall w1 : World,
              requests w1 = S (requests w) ->
              requests_of (trace w1) = requests_of (trace w) ++ [prompt] ->
              requests_of (trace (snd (loop rest w1)))
              = requests_of (trace w)
                ++ repeat prompt (requests (snd (loop rest w1)) - requests w)).
    { intros w1 Hreq Htr. rewrite IH, Htr, <- app_assoc. f_equal.
      pose proof (loop_requests rest w1) as Hb. rewrite Hreq in *.
      replace (requests (snd (loop rest w1)) - requests w)%nat
        with (S (requests (snd (loop rest w1)) - S (requests w))) by lia.
      reflexivity. }
    destruct (generate_content env (requests w) prompt) as [|parts].
    + destruct (attempt <? retries); apply Hstep; trace_simpl; reflexivity.
    + destruct (first_inline_data parts) as [img|].
      * trace_simpl.
        replace (S (requests w) - requests w)%nat with 1%nat by lia.
        reflexivity.
      * destruct (attempt <? retries); apply Hstep; trace_simpl; reflexivity.
Qed.


Lemma range_length (n : Z) : length (Py.range n) = Z.to_nat n.
Proof. unfold Py.range. now rewrite length_map, length_seq. Qed.

(** The waits of the loop over the attempts [a, a+1, ..., retries]. *)
Lemma loop_sleeps (n a : nat) (w : World) :
  Z.of_nat (a + n) = retries + 1 ->
  sleeps (trace (snd (loop (map Z.of_nat (seq a n)) w)))
  = sleeps (trace w)
    ++ map wait_after
         (take (n - 1) (failed_answers env prompt (requests w) n)).
Proof.
  revert a w. induction n as [|n IH]; intros a w Hlast; simpl.
  - now rewrite app_nil_r.
  - rewrite ?Nat.sub_0_r.
    assert (Hlt : (Z.of_nat a <? retries) = (0 <? n)%nat).
    { destruct (Z.ltb_spec (Z.of_nat a) retries), (Nat.ltb_spec 0 n);
        try reflexivity; lia. }
    rewrite Hlt.
    assert (Hnext : Z.of_nat (S a + n) = retries + 1) by lia.
    destruct (generate_content env (requests w) prompt) as [|parts] eqn:Hr.
    + cbn [has_image]. destruct n as [|n'].
      * simpl. trace_simpl. reflexivity.
      * cbn [Nat.ltb Nat.leb].
        rewrite (IH (S a) _ Hnext). trace_simpl.
        replace (S n' - 1)%nat with n' by lia. reflexivity.
    + rewrite has_image_parts. destruct (first_inline_data parts) as [img|].
      * trace_simpl. rewrite take_nil. simpl. now rewrite app_nil_r.
      * destruct n as [|n'].
        -- simpl. trace_simpl. reflexivity.
        -- cbn [Nat.ltb Nat.leb].
           rewrite (IH (S a) _ Hnext). trace_simpl.
           replace (S n' - 1)%nat with n' by lia. reflexivity.
Qed.

End GenerateImage.

Lemma generate_image_sleeps (env : Env) (prompt output_path : string)
    (retries : Z) (w : World) :
  sleeps (trace (snd (generate_image env prompt output_path retries w)))
  = sleeps (trace w)
    ++ map wait_after
         (take (Z.to_nat retries)
               (failed_answers env prompt (requests w) (Z.to_nat (retries + 1)))).
Proof.
  unfold generate_image, Py.range.
  destruct (Z_lt_le_dec retries 0) as [Hneg | Hpos].
  - replace (Z.to_nat retries) with 0%nat by lia.
    destruct (Z.to_nat (retries + 1)) as [|n] eqn:E.
    + simpl. now rewrite app_nil_r.
    + assert (n = 0%nat) by lia. subst n.
      rewrite (loop_sleeps env prompt output_path retries 1 0 w) by lia.
      reflexivity.
  - rewrite (loop_sleeps env prompt output_path retries _ 0 w) by lia.
    do 3 f_equal. lia.
Qed.

(** ** Backoff *)

(** C6, as first stated, fails: against a service that raises, then answers
    without a picture, then delivers, the first wait is 3 seconds and the
    second is 2. *)
Lemma backoff_is_not_increasing :
  fst (generate_image (demo_env svc_third_time (Some "key"%string))
         "prompt" "assets/x.png" default_retries empty_world) = true /\
  sleeps (trace (snd (generate_image (demo_env svc_third_time (Some "key"%string))
                        "prompt" "assets/x.png" default_retries empty_world)))
  = [inject_Z 3; inject_Z 2] /\
  ~ (inject_Z 3 < inject_Z 2)%Q.
Proof.
  split; [vm_compute; reflexivity |].
  split; [vm_compute; reflexivity |].
  intros H. vm_compute in H. discriminate.
Qed.

(** C6, amended.  The waits of one call of [generate_image] are fixed by the
    kind of failure, not by the number of the attempt: 2 seconds after an
    answer without a picture, 3 seconds after a raised error.  One wait follows
    each failed attempt except the last one allowed, so there are at most
    [retries] of them. *)
Theorem backoff_schedule (env : Env) (prompt output_path : string)
    (retries : Z) (w : World) :
  sleeps (trace (snd (generate_image env prompt output_path retries w)))
  = sleeps (trace w)
    ++ map wait_after
         (take (Z.to_nat retries)
               (failed_answers env prompt (requests w) (Z.to_nat (retries + 1)))) /\
  (forall parts, wait_after (Parts parts) = inject_Z 2) /\
  wait_after Raises = inject_Z 3 /\
  (length (sleeps (trace (snd (generate_image env prompt output_path retries w))))
   <= length (sleeps (trace w)) + Z.to_nat retries)%nat.
Proof.
  split; [apply generate_image_sleeps |].
  split; [reflexivity |]. split; [reflexivity |].
  rewrite generate_image_sleeps, length_app, length_map, length_take. lia.
Qed.

Example backoff_all_raise :
  sleeps (trace (snd (generate_image (demo_env svc_raises (Some "key"%string))
                        "prompt" "assets/x.png" 4 empty_world)))
  = [inject_Z 3; inject_Z 3; inject_Z 3; inject_Z 3].
Proof. vm_compute. reflexivity. Qed.

(** ** Retry budget *)




Example three_attempts_then_failed :
  requests (snd (generate_image (demo_env svc_raises (Some "key"%string))
                   "prompt" "assets/x.png" default_retries empty_world)) = 3%nat /\
  fst (generate_image (demo_env svc_raises (Some "key"%string))
         "prompt" "assets/x.png" default_retries empty_world) = false.
Proof. vm_compute. auto. Qed.

(** ** One record of the generation mode *)

Lemma file_exists_dom (path : string) (w : World) :
  file_exists path w = true <-> path ∈ dom (fs w).
Proof. unfold file_exists. rewrite bool_decide_eq_true. symmetry. apply elem_of_dom. Qed.

Lemma loop_requests_first (env : Env) (prompt output_path : string)
    (retries attempt : Z) (rest : list Z) (w : World) :
  (S (requests w)
   <= requests (snd (generate_image_loop env prompt output_path retries
                       (attempt :: rest) w)))%nat.
Proof.
  simpl.
  destruct (generate_content env (requests w) prompt) as [|parts].
  - destruct (attempt <? retries);
      match goal with |- context [generate_image_loop _ _ _ _ rest ?w1] =>
        pose proof (loop_requests env prompt output_path retries rest w1) as H;
        simpl in H; lia end.
  - destruct (first_inline_data parts) as [img|]; [simpl; lia |].
    destruct (attempt <? retries);
      match goal with |- context [generate_image_loop _ _ _ _ rest ?w1] =>
        pose proof (loop_requests env prompt output_path retries rest w1) as H;
        simpl in H; lia end.
Qed.

(** What one call of [generate_image] does to the world. *)
Lemma generate_image_effects (env : Env) (prompt output_path : string)
    (retries : Z) (w w1 : World) (ok : bool) :
  generate_image env prompt output_path retries w = (ok, w1) ->
  (requests w <= requests w1 <= requests w + Z.to_nat (retries + 1))%nat /\
  (0 <= retries -> (S (requests w) <= requests w1)%nat) /\
  requests_of (trace w1)
  = requests_of (trace w) ++ repeat prompt (requests w1 - requests w) /\
  (ok = false -> fs w1 = fs w /\ writes_of (trace w1) = writes_of (trace w)) /\
  (ok = true ->
     (exists img, fs w1 = <[output_path := ImageData img]> (fs w)) /\
     writes_of (trace w1) = writes_of (trace w) ++ [output_path]).
Proof.
  unfold generate_image. intros Hg.
  pose proof (loop_requests env prompt output_path retries (Py.range (retries + 1)) w) as Hreq.
  pose proof (loop_prompts env prompt output_path retries (Py.range (retries + 1)) w) as Hpr.
  pose proof (loop_files env prompt output_path retries (Py.range (retries + 1)) w) as Hfiles.
  assert (Hfirst : 0 <= retries ->
            (S (requests w) <= requests (snd (generate_image_loop env prompt
               output_path retries (Py.range (retries + 1)) w)))%nat).
  { intros Hpos. unfold Py.range.
    destruct (Z.to_nat (retries + 1)) as [|n] eqn:E; [lia |].
    simpl. apply loop_requests_first. }
  rewrite range_length in Hreq. rewrite Hg in *. simpl in *.
  repeat split; try tauto; try lia; try (now apply Hfirst); apply Hfiles; assumption.
Qed.

(** Raising and sleeping leave the files and the counted requests alone. *)
Lemma time_sleep_effects (env : Env) (seconds : Q) (w : World) :
  fs (time_sleep env seconds w) = fs w /\
  requests (time_sleep env seconds w) = requests w /\
  requests_of (trace (time_sleep env seconds w)) = requests_of (trace w) /\
  writes_of (trace (time_sleep env seconds w)) = writes_of (trace w).
Proof.
  unfold time_sleep.
  destruct (Qle_bool 0 seconds); [destruct (Qle_bool seconds (sleep_max env)) |];
    cbn [fs requests trace raised sleep emit raise];
    rewrite ?requests_of_app, ?writes_of_app; simpl;
    rewrite ?app_nil_r; auto.
Qed.

Lemma Qle_bool_false (x y : Q) : Qle_bool x y = false <-> (y < x)%Q.
Proof.
  split.
  - intros H. apply Qnot_le_lt. intros Hle. apply Qle_bool_iff in Hle.
    congruence.
  - intros H. destruct (Qle_bool x y) eqn:E; [| reflexivity].
    apply Qle_bool_iff in E. exfalso. exact (Qlt_not_le _ _ H E).
Qed.

(** [time.sleep] takes a delay between 0 and the longest one, and raises on
    any other. *)
Lemma time_sleep_accepts (env : Env) (seconds : Q) (w : World) :
  (0 <= seconds)%Q -> (seconds <= sleep_max env)%Q ->
  time_sleep env seconds w = emit (EvSleep seconds) w.
Proof.
  intros H0 H1. unfold time_sleep.
  apply Qle_bool_iff in H0. apply Qle_bool_iff in H1. now rewrite H0, H1.
Qed.

Lemma time_sleep_raised (env : Env) (seconds : Q) (w : World) :
  raised (time_sleep env seconds w) = raised w \/
  (seconds < 0)%Q \/ (sleep_max env < seconds)%Q.
Proof.
  unfold time_sleep. destruct (Qle_bool 0 seconds) eqn:H0.
  - destruct (Qle_bool seconds (sleep_max env)) eqn:H1; [now left |].
    right. right. now apply Qle_bool_false.
  - right. left. now apply Qle_bool_false.
Qed.

(** Post-processing rewrites the file in place, or raises, and does nothing
    else. *)
Lemma post_process_effects (env : Env) (path : string) (tw th : Z) (w : World) :
  dom (fs (post_process env path tw th w)) = dom (fs w) /\
  requests (post_process env path tw th w) = requests w /\
  sleeps (trace (post_process env path tw th w)) = sleeps (trace w) /\
  requests_of (trace (post_process env path tw th w)) = requests_of (trace w) /\
  exists ws, writes_of (trace (post_process env path tw th w))
             = writes_of (trace w) ++ ws /\
             Forall (fun p => p = path) ws.
Proof.
  unfold post_process.
  destruct (pil_available env).
  - destruct (fs w !! path) as [[img | spec]|] eqn:Hfile.
    + destruct (resize_raises img tw th).
      { cbn [fs requests trace raise]. repeat split.
        exists []. now rewrite app_nil_r. }
      cbn [fs requests trace print emit write_file].
      rewrite !sleeps_app, !requests_of_app, !writes_of_app. simpl.
      rewrite !app_nil_r. repeat split.
      * rewrite dom_insert_L.
        assert (Hin : path ∈ dom (fs w)) by (apply elem_of_dom; eauto).
        apply set_eq. intros x. rewrite elem_of_union, elem_of_singleton.
        split; [intros [-> | Hx]; assumption | auto].
      * exists [path]. split; [reflexivity | repeat constructor].
    + repeat split. exists []. now rewrite app_nil_r.
    + repeat split. exists []. now rewrite app_nil_r.
  - cbn [fs requests trace print emit].
    rewrite !sleeps_app, !requests_of_app, !writes_of_app. simpl.
    rewrite !app_nil_r. repeat split. exists []. now rewrite app_nil_r.
Qed.

(** When post-processing raises: Pillow is there, the file holds a picture of
    another size than the target, and a side of the target is below 1.
    Otherwise the exception state is as before. *)
Lemma post_process_raised (env : Env) (path : string) (tw th : Z) (w : World) :
  raised (post_process env path tw th w)
  = match fs w !! path with
    | Some (ImageData img) =>
        if (pil_available env && resize_raises img tw th)%bool
        then Some ValueError else raised w
    | _ => raised w
    end.
Proof.
  unfold post_process. destruct (pil_available env).
  - destruct (fs w !! path) as [[img | spec]|]; try reflexivity.
    cbn [andb]. destruct (resize_raises img tw th); reflexivity.
  - destruct (fs w !! path) as [[img | spec]|]; reflexivity.
Qed.

(** What follows a successful [generate_image] touches no other file, sends
    nothing, and writes at most to the record's own path. *)
Lemma after_generated_effects (env : Env) (args : Args) (path : string)
    (spec : Spec) (w : World) :
  dom (fs (after_generated env args path spec w)) = dom (fs w) /\
  requests (after_generated env args path spec w) = requests w /\
  requests_of (trace (after_generated env args path spec w))
  = requests_of (trace w) /\
  exists ws, writes_of (trace (after_generated env args path spec w))
             = writes_of (trace w) ++ ws /\
             Forall (fun p => p = path) ws.
Proof.
  unfold after_generated. cbv zeta.
  set (dims := physical_properties (subject (marketing_image spec))).
  set (w2 := if negb (no_post args)
             then post_process env path (width_px dims) (height_px dims) w
             else w).
  assert (H2 : dom (fs w2) = dom (fs w) /\ requests w2 = requests w /\
               requests_of (trace w2) = requests_of (trace w) /\
               exists ws, writes_of (trace w2) = writes_of (trace w) ++ ws /\
                          Forall (fun p => p = path) ws).
  { subst w2. destruct (negb (no_post args)).
    - destruct (post_process_effects env path (width_px dims) (height_px dims) w)
        as (H1 & H2 & _ & H4 & H5). auto.
    - repeat split. exists []. now rewrite app_nil_r. }
  destruct (raised w2); [exact H2 |].
  destruct (time_sleep_effects env (delay args) w2) as (S1 & S2 & S3 & S4).
  rewrite S1, S2, S3, S4. exact H2.
Qed.

(** The three ways a record can go. *)
Lemma process_asset_cases (env : Env) (args : Args) (total : nat)
    (c : Counters) (w : World) (filepath : string) (spec : Spec) :
  let path := Py.path_join (ASSETS_DIR env) filepath in
  let g := generate_image env (build_prompt spec) path default_retries
             (print (MsgGenerating (S (processed c)) total filepath) w) in
  let r := process_asset env args total (c, w) (filepath, spec) in
  ((file_exists path w && negb (force args))%bool = true /\
   r = ({| generated := generated c; skipped := S (skipped c);
           failed := failed c; processed := S (processed c) |},
        print (MsgSkip (S (processed c)) total filepath) w)) \/
  ((file_exists path w && negb (force args))%bool = false /\
   fst g = true /\
   r = ({| generated := S (generated c); skipped := skipped c;
           failed := failed c; processed := S (processed c) |},
        after_generated env args path spec (snd g))) \/
  ((file_exists path w && negb (force args))%bool = false /\
   fst g = false /\
   r = ({| generated := generated c; skipped := skipped c;
           failed := S (failed c); processed := S (processed c) |},
        snd g)).
Proof.
  cbv zeta. unfold process_asset, after_generated.
  destruct (file_exists _ w && negb (force args))%bool; [left; auto | right].
  destruct (generate_image env (build_prompt spec) _ default_retries _)
    as [[|] w1]; [left | right]; auto.
  cbn [fst snd]. split; [reflexivity |]. split; [reflexivity |].
  match goal with |- context [raised ?x] => destruct (raised x) end;
    reflexivity.
Qed.

(** ** Loops that an exception may end *)

Lemma for_each_cons {S A : Type} (world : S -> World) (body : S -> A -> S)
    (a : A) (l : list A) (st : S) :
  for_each world body (a :: l) st
  = for_each world body l
      (match raised (world st) with Some _ => st | None => body st a end).
Proof. reflexivity. Qed.

Lemma for_each_raised {S A : Type} (world : S -> World) (body : S -> A -> S)
    (l : list A) (st : S) (e : Exn) :
  raised (world st) = Some e -> for_each world body l st = st.
Proof.
  intros H. induction l as [|a l IH]; [reflexivity |].
  rewrite for_each_cons, H. exact IH.
Qed.

(** A run of the generation loops processes a first part of the records,
    all of them unless an exception ends it.  [P done st st'] is any property
    of the records processed and the states before and after that composes
    and that one record and one printed line have. *)
Section Runs.

Variables (env : Env) (args : Args).
Variable P : list (string * Spec) -> Counters * World -> Counters * World -> Prop.

Hypothesis P_nil : forall st, P [] st st.
Hypothesis P_app : forall l1 l2 st1 st2 st3,
  P l1 st1 st2 -> P l2 st2 st3 -> P (l1 ++ l2) st1 st3.
Hypothesis P_print : forall m c w, P [] (c, w) (c, print m w).
Hypothesis P_asset : forall total st a,
  P [a] st (process_asset env args total st a).

Lemma assets_run (total : nat) (assets : list (string * Spec))
    (st : Counters * World) :
  exists done rest,
    assets = done ++ rest /\
    P done st (for_each snd (process_asset env args total) assets st) /\
    (raised (snd (for_each snd (process_asset env args total) assets st)) = None ->
     rest = []).
Proof.
  revert st. induction assets as [|a assets IH]; intros st.
  - exists [], []. repeat split. apply P_nil.
  - rewrite for_each_cons. destruct (raised (snd st)) as [e|] eqn:Hr.
    + rewrite (for_each_raised _ _ _ _ e Hr).
      exists [], (a :: assets). split; [reflexivity |].
      split; [apply P_nil | congruence].
    + destruct (IH (process_asset env args total st a))
        as (done & rest & -> & HP & Hrest).
      exists (a :: done), rest. split; [reflexivity |].
      split; [| exact Hrest].
      apply (P_app [a] done st (process_asset env args total st a)); auto.
Qed.

Lemma category_run (total : nat) (entry : string * list (string * Spec))
    (st : Counters * World) :
  exists done rest,
    snd entry = done ++ rest /\
    P done st (process_category env args total st entry) /\
    (raised (snd (process_category env args total st entry)) = None ->
     rest = []).
Proof.
  destruct entry as [cat_name assets], st as [c w].
  unfold process_category. cbn [snd].
  destruct (assets_run total assets
              (c, print (MsgCategory cat_name (length assets)) w))
    as (done & rest & Hsplit & HP & Hrest).
  exists done, rest. split; [exact Hsplit |]. split; [| exact Hrest].
  apply (P_app [] done (c, w)
           (c, print (MsgCategory cat_name (length assets)) w)); auto.
Qed.

Lemma categories_run (total : nat)
    (categories : list (string * list (string * Spec)))
    (st : Counters * World) :
  exists done rest,
    all_assets categories = done ++ rest /\
    P done st (for_each snd (process_category env args total) categories st) /\
    (raised (snd (for_each snd (process_category env args total) categories st))
     = None -> rest = []).
Proof.
  revert st. induction categories as [|entry categories IH]; intros st.
  - exists [], []. repeat split. apply P_nil.
  - rewrite for_each_cons. unfold all_assets. cbn [map concat].
    fold (all_assets categories).
    destruct (raised (snd st)) as [e|] eqn:Hr.
    + rewrite (for_each_raised _ _ _ _ e Hr).
      exists [], (snd entry ++ all_assets categories). split; [reflexivity |].
      split; [apply P_nil | congruence].
    + destruct (category_run total entry st)
        as (done1 & rest1 & Hsplit1 & HP1 & Hrest1).
      set (st1 := process_category env args total st entry) in *.
      destruct (raised (snd st1)) as [e|] eqn:Hr1.
      * rewrite (for_each_raised _ _ _ _ e Hr1).
        exists done1, (rest1 ++ all_assets categories).
        split; [rewrite Hsplit1; now rewrite <- app_assoc |].
        split; [exact HP1 | congruence].
      * specialize (Hrest1 eq_refl). subst rest1.
        rewrite app_nil_r in Hsplit1.
        destruct (IH st1) as (done2 & rest2 & Hsplit2 & HP2 & Hrest2).
        exists (done1 ++ done2), rest2.
        split; [rewrite Hsplit1, Hsplit2; now rewrite <- app_assoc |].
        split; [| exact Hrest2].
        now apply (P_app done1 done2 st st1).
Qed.

Lemma run_generation_run
    (categories : list (string * list (string * Spec))) (w : World) :
  exists done rest,
    all_assets categories = done ++ rest /\
    P done
      ({| generated := 0; skipped := 0; failed := 0; processed := 0 |}, w)
      (run_generation env args categories w) /\
    (raised (snd (run_generation env args categories w)) = None -> rest = []).
Proof.
  unfold run_generation.
  set (c0 := {| generated := 0; skipped := 0; failed := 0; processed := 0 |}).
  destruct (categories_run (total_assets categories) categories
              (c0, print MsgBanner w))
    as (done & rest & Hsplit & HP & Hrest).
  assert (HP0 : P done (c0, w)
                  (for_each snd
                     (process_category env args (total_assets categories))
                     categories (c0, print MsgBanner w))).
  { apply (P_app [] done (c0, w) (c0, print MsgBanner w)); auto. }
  clear HP.
  destruct (for_each snd _ categories _) as [c w'].
  cbn [snd] in Hrest.
  exists done, rest. split; [exact Hsplit |].
  destruct (raised w') as [e|] eqn:Hr.
  - cbn [snd]. rewrite Hr. split; [exact HP0 | congruence].
  - assert (Hfin : forall m, P done (c0, w) (c, print m w')).
    { intros m. rewrite <- (app_nil_r done).
      apply (P_app done [] (c0, w) (c, w')); auto. }
    destruct (0 <? failed c)%nat; cbn [snd].
    + split; [| intros _; now apply Hrest].
      rewrite <- (app_nil_r done).
      apply (P_app done [] (c0, w)
               (c, print (MsgSummary (generated c) (skipped c) (failed c)
                            (total_assets categories)) w')); auto.
    + split; [apply Hfin | intros _; now apply Hrest].
Qed.

End Runs.

Lemma missing_app (env : Env) (paths : gset string)
    (l1 l2 : list (string * Spec)) :
  missing env paths (l1 ++ l2)
  = (missing env paths l1 + missing env paths l2)%nat.
Proof. induction l1 as [|a l1 IH]; simpl; [reflexivity | rewrite IH; lia]. Qed.

Lemma missing_antitone (env : Env) (paths1 paths2 : gset string)
    (l : list (string * Spec)) :
  paths1 ⊆ paths2 -> (missing env paths2 l <= missing env paths1 l)%nat.
Proof.
  intros Hsub. induction l as [|a l IH]; simpl; [lia |].
  destruct (decide (_ ∈ paths2)), (decide (_ ∈ paths1)); try lia.
  exfalso. auto.
Qed.

Lemma skips_existing_nil (env : Env) (st : Counters * World) :
  skips_existing env [] st st.
Proof.
  destruct st as [c w]. unfold skips_existing. simpl.
  repeat split; try lia; try reflexivity.
  exists []. now rewrite app_nil_r.
Qed.

Lemma skips_existing_app (env : Env) (l1 l2 : list (string * Spec))
    (st st1 st2 : Counters * World) :
  skips_existing env l1 st st1 -> skips_existing env l2 st1 st2 ->
  skips_existing env (l1 ++ l2) st st2.
Proof.
  destruct st as [c w], st1 as [c1 w1], st2 as [c2 w2]. unfold skips_existing.
  intros (Hd1 & (ws1 & Hw1 & Hf1) & Ha1 & Hm1 & Ht1 & Hz1)
         (Hd2 & (ws2 & Hw2 & Hf2) & Ha2 & Hm2 & Ht2 & Hz2).
  rewrite !missing_app, length_app.
  pose proof (missing_antitone env _ _ l2 Hd1) as Hanti2.
  pose proof (missing_antitone env _ _ l1 Hd2) as Hanti1.
  split; [etransitivity; eassumption |].
  split.
  { exists (ws1 ++ ws2). split.
    - rewrite Hw2, Hw1. now rewrite app_assoc.
    - apply Forall_app. split; [assumption |].
      eapply Forall_impl; [exact Hf2 |]. intros p Hp Hin. apply Hp. auto. }
  split; [lia |]. split; [lia |]. split; [lia |].
  intros Hzero.
  assert (Hz1' : missing env (dom (fs w)) l1 = 0%nat) by lia.
  destruct (Hz1 Hz1') as (E1 & E2 & E3 & E4 & E5 & E6 & E7 & E8).
  assert (Hz2' : missing env (dom (fs w1)) l2 = 0%nat) by (rewrite E1; lia).
  destruct (Hz2 Hz2') as (F1 & F2 & F3 & F4 & F5 & F6 & F7 & F8).
  repeat split; congruence.
Qed.

(** A printed line in front changes nothing of this. *)
Lemma skips_existing_print (env : Env) (l : list (string * Spec)) (m : Msg)
    (c : Counters) (w : World) (st' : Counters * World) :
  skips_existing env l (c, print m w) st' -> skips_existing env l (c, w) st'.
Proof.
  destruct st' as [c' w']. unfold skips_existing.
  cbn [fs requests trace print emit].
  rewrite !writes_of_app, !requests_of_app, !sleeps_app. simpl.
  now rewrite !app_nil_r.
Qed.

Lemma missing_one (env : Env) (paths : gset string) (a : string * Spec) :
  missing env paths [a]
  = if decide (Py.path_join (ASSETS_DIR env) (fst a) ∈ paths) then 0%nat else 1%nat.
Proof. simpl. destruct (decide _); reflexivity. Qed.

Lemma process_asset_skips_existing (env : Env) (args : Args) (total : nat)
    (st : Counters * World) (a : string * Spec) :
  force args = false ->
  skips_existing env [a] st (process_asset env args total st a).
Proof.
  intros Hforce. destruct st as [c w], a as [filepath spec].
  pose proof (process_asset_cases env args total c w filepath spec) as Hcases.
  cbv zeta in Hcases. rewrite Hforce, andb_true_r in Hcases.
  set (path := Py.path_join (ASSETS_DIR env) filepath) in *.
  destruct Hcases as [(Hex & ->) | [(Hex & Hok & ->) | (Hex & Hok & ->)]].
  - (* skipped *)
    apply file_exists_dom in Hex.
    unfold skips_existing. rewrite !missing_one. cbn [fst].
    fold path.
    cbn [fs requests trace print emit generated skipped failed].
    destruct (decide (path ∈ dom (fs w))); [| contradiction].
    rewrite !writes_of_app, !requests_of_app, !sleeps_app. simpl.
    rewrite !app_nil_r.
    repeat split; try lia; try reflexivity.
    exists []. now rewrite app_nil_r.
  - (* generated *)
    assert (Hnot : path ∉ dom (fs w)).
    { intros Hin. apply file_exists_dom in Hin. congruence. }
    destruct (generate_image env (build_prompt spec) path default_retries
                (print (MsgGenerating (S (processed c)) total filepath) w))
      as [ok w1] eqn:Hg.
    cbn [fst snd] in *. subst ok.
    destruct (generate_image_effects _ _ _ _ _ _ _ Hg)
      as (_ & _ & _ & _ & Htrue).
    destruct (Htrue eq_refl) as ((img & Hfs) & Hwr). clear Htrue.
    cbn [fs trace print emit] in Hfs, Hwr.
    rewrite writes_of_app in Hwr. simpl in Hwr. rewrite app_nil_r in Hwr.
    set (w2 := after_generated env args path spec w1).
    destruct (after_generated_effects env args path spec w1)
      as (Hd2 & _ & _ & ws & Hws & Hall).
    fold w2 in Hd2, Hws.
    assert (Hin : path ∈ dom (fs w2)).
    { rewrite Hd2, Hfs, dom_insert_L. apply elem_of_union_l.
      now apply elem_of_singleton. }
    unfold skips_existing. rewrite !missing_one. cbn [fst snd]. fold path.
    cbn [generated skipped failed].
    destruct (decide (path ∈ dom (fs w))); [contradiction |].
    destruct (decide (path ∈ dom (fs w2))); [| contradiction].
    split.
    { rewrite Hd2, Hfs, dom_insert_L. apply union_subseteq_r. }
    split.
    { exists (path :: ws). split.
      - rewrite Hws, Hwr. now rewrite <- app_assoc.
      - constructor; [assumption |].
        eapply Forall_impl; [exact Hall |]. intros p ->. assumption. }
    repeat split; try lia. simpl. lia.
  - (* failed *)
    assert (Hnot : path ∉ dom (fs w)).
    { intros Hin. apply file_exists_dom in Hin. congruence. }
    destruct (generate_image env (build_prompt spec) path default_retries
                (print (MsgGenerating (S (processed c)) total filepath) w))
      as [ok w1] eqn:Hg.
    cbn [fst snd] in *. subst ok.
    destruct (generate_image_effects _ _ _ _ _ _ _ Hg)
      as (_ & _ & _ & Hfalse & _).
    destruct (Hfalse eq_refl) as (Hfs & Hwr). clear Hfalse.
    cbn [fs trace print emit] in Hfs, Hwr.
    rewrite writes_of_app in Hwr. simpl in Hwr. rewrite app_nil_r in Hwr.
    unfold skips_existing. rewrite !missing_one. cbn [fst snd]. fold path.
    cbn [generated skipped failed]. rewrite Hfs.
    destruct (decide (path ∈ dom (fs w))); [contradiction |].
    split; [reflexivity |].
    split; [exists []; now rewrite app_nil_r |].
    repeat split; try lia. simpl. lia.
Qed.

Lemma skips_existing_print_after (env : Env) (l : list (string * Spec))
    (m : Msg) (st : Counters * World) (c' : Counters) (w' : World) :
  skips_existing env l st (c', w') -> skips_existing env l st (c', print m w').
Proof.
  destruct st as [c w]. unfold skips_existing.
  cbn [fs requests trace print emit].
  rewrite !writes_of_app, !requests_of_app, !sleeps_app. simpl.
  now rewrite !app_nil_r.
Qed.

Lemma total_assets_all (categories : list (string * list (string * Spec))) :
  total_assets categories = length (all_assets categories).
Proof.
  unfold total_assets, all_assets.
  induction categories as [|[cat_name assets] categories IH]; simpl;
    [reflexivity |].
  rewrite length_app. now rewrite IH.
Qed.

Lemma missing_le_length (env : Env) (paths : gset string)
    (l : list (string * Spec)) :
  (missing env paths l <= length l)%nat.
Proof.
  induction l as [|a l IH]; simpl; [lia |].
  destruct (decide _); lia.
Qed.

(** Without [--force] a run deals this way with the records it gets to,
    which are all of them unless an exception ends it. *)
Lemma run_generation_skips_existing (env : Env) (args : Args)
    (categories : list (string * list (string * Spec))) (w : World) :
  force args = false ->
  exists done rest,
    all_assets categories = done ++ rest /\
    skips_existing env done
      ({| generated := 0; skipped := 0; failed := 0; processed := 0 |}, w)
      (run_generation env args categories w) /\
    (raised (snd (run_generation env args categories w)) = None -> rest = []).
Proof.
  intros Hforce.
  apply (run_generation_run env args (skips_existing env)).
  - apply skips_existing_nil.
  - apply skips_existing_app.
  - intros m c w0. apply skips_existing_print_after. apply skips_existing_nil.
  - intros total st a. now apply process_asset_skips_existing.
Qed.

(** ** Idempotent skip *)

(** C1. Without [--force], a record whose output path exists is counted as
    skipped and the only effect is the printed SKIP line: no request, no
    write, no sleep.  Hence for two runs in a row with the same options, the
    second starting on the disk the first one left: when the first run came
    to its end, the second attempts no more records than the first left
    failed; when the second comes to its end, it skips at least every record
    the first run generated or skipped; and it writes to no path that existed
    after the first run.  If the first run came to its end with no failure,
    the second generates nothing, skips everything, sends no request, writes
    no file and comes to its end as well.  (A run does not come to its end
    when an exception that nothing catches ends it.) *)
Theorem idempotent_skip (env : Env) (args : Args) :
  force args = false ->
  (forall (total : nat) (c : Counters) (w : World) (filepath : string)
          (spec : Spec),
      file_exists (Py.path_join (ASSETS_DIR env) filepath) w = true ->
      process_asset env args total (c, w) (filepath, spec)
      = ({| generated := generated c; skipped := S (skipped c);
            failed := failed c; processed := S (processed c) |},
         print (MsgSkip (S (processed c)) total filepath) w)) /\
  (forall (categories : list (string * list (string * Spec))) (w0 : World),
      let first := run_generation env args categories w0 in
      let second :=
        run_generation env args categories (new_process (snd first)) in
      (raised (snd first) = None ->
         (generated (fst second) + failed (fst second)
          <= failed (fst first))%nat) /\
      (raised (snd second) = None ->
         (generated (fst first) + skipped (fst first)
          <= skipped (fst second))%nat) /\
      Forall (fun p => p ∉ dom (fs (snd first)))
             (writes_of (trace (snd second))) /\
      (raised (snd first) = None -> failed (fst first) = 0%nat ->
         generated (fst second) = 0%nat /\
         failed (fst second) = 0%nat /\
         skipped (fst second) = total_assets categories /\
         fs (snd second) = fs (snd first) /\
         requests (snd second) = requests (snd first) /\
         requests_of (trace (snd second)) = [] /\
         writes_of (trace (snd second)) = [] /\
         sleeps (trace (snd second)) = [] /\
         raised (snd second) = None)).
Proof.
  intros Hforce. split.
  - intros total c w filepath spec Hex.
    destruct (process_asset_cases env args total c w filepath spec)
      as [(_ & ->) | [(Hno & _) | (Hno & _)]];
      [reflexivity | |]; rewrite Hex, Hforce in Hno; discriminate.
  - intros categories w0 first second.
    destruct (run_generation_skips_existing env args categories w0 Hforce)
      as (done1 & rest1 & Hsplit1 & H1 & Hend1).
    destruct (run_generation_skips_existing env args categories
                (new_process (snd first)) Hforce)
      as (done2 & rest2 & Hsplit2 & H2 & Hend2).
    fold first in H1, Hend1. fold second in H2, Hend2.
    destruct first as [c1 w1], second as [c2 w2].
    unfold skips_existing in H1, H2.
    cbn [fst snd generated skipped failed fs requests trace raised
         new_process] in *.
    destruct H1 as (_ & _ & _ & Hm1 & Ht1 & _).
    destruct H2 as (_ & (ws & Hws & Hall) & Ha2 & _ & Ht2 & Hz2).
    rewrite total_assets_all.
    cbn [writes_of requests_of sleeps omap list_omap app] in *.
    pose proof (missing_app env (dom (fs w1)) done1 rest1) as Hsum1.
    pose proof (missing_app env (dom (fs w1)) done2 rest2) as Hsum2.
    rewrite <- Hsplit1 in Hsum1. rewrite <- Hsplit2 in Hsum2.
    pose proof (missing_le_length env (dom (fs w1)) rest1) as Hle1.
    pose proof (missing_le_length env (dom (fs w1)) done1) as Hle1'.
    pose proof (f_equal (@length _) Hsplit1) as Hlen1.
    pose proof (f_equal (@length _) Hsplit2) as Hlen2.
    rewrite length_app in Hlen1, Hlen2.
    split.
    { intros Hfin1. specialize (Hend1 Hfin1). subst rest1.
      rewrite app_nil_r in Hsplit1. subst done1. lia. }
    split.
    { intros Hfin2. specialize (Hend2 Hfin2). subst rest2.
      simpl in Hlen2. lia. }
    split; [now rewrite Hws |].
    intros Hfin1 Hnone.
    specialize (Hend1 Hfin1). subst rest1.
    rewrite app_nil_r in Hsplit1. subst done1.
    assert (Hzero : missing env (dom (fs w1)) done2 = 0%nat) by lia.
    destruct (Hz2 Hzero) as (E1 & E2 & E3 & E4 & E5 & E6 & E7 & E8).
    specialize (Hend2 E8). subst rest2. simpl in Hlen2.
    repeat split; try assumption; lia.
Qed.

Lemma idempotent_skip_witness :
  process_asset (demo_env svc_ok (Some "key"%string)) default_args 2
    ({| generated := 0; skipped := 0; failed := 0; processed := 0 |},
     {| fs := {[ "assets/tiles/grass_plains.png"%string := ImageData sample_image ]};
        requests := 0; trace := []; raised := None |})
    grass_plains
  = ({| generated := 0; skipped := 1; failed := 0; processed := 1 |},
     print (MsgSkip 1 2 "tiles/grass_plains.png")
       {| fs := {[ "assets/tiles/grass_plains.png"%string := ImageData sample_image ]};
          requests := 0; trace := []; raised := None |}).
Proof.
  apply (idempotent_skip (demo_env svc_ok (Some "key"%string)) default_args);
    [reflexivity |].
  vm_compute. reflexivity.
Defined.

(** ** Pacing *)

(** C2.  The configured delay is slept only after a record whose generation
    succeeded.  When every attempt for a record fails, the only sleeps are the
    two waits between its attempts; the record ends with the last error line
    and the next record's request follows with no sleep of the configured
    delay: over the two records of the example the service is called six times
    and the sleeps are the four retry waits. *)
Lemma no_pause_after_failure :
  failed (fst (process_asset (demo_env svc_raises (Some "key"%string))
                 default_args 2 (zero_counters, empty_world) grass_plains))
  = 1%nat /\
  sleeps (trace (snd (process_asset (demo_env svc_raises (Some "key"%string))
                        default_args 2 (zero_counters, empty_world) grass_plains)))
  = [inject_Z 3; inject_Z 3] /\
  last (trace (snd (process_asset (demo_env svc_raises (Some "key"%string))
                      default_args 2 (zero_counters, empty_world) grass_plains)))
  = Some (EvPrint (MsgError "grass_plains.png")) /\
  delay default_args = inject_Z 1 /\
  failed (fst (run_generation (demo_env svc_raises (Some "key"%string))
                 default_args (ALL_CATEGORIES demo_catalog) empty_world))
  = 2%nat /\
  requests (snd (run_generation (demo_env svc_raises (Some "key"%string))
                   default_args (ALL_CATEGORIES demo_catalog) empty_world))
  = 6%nat /\
  sleeps (trace (snd (run_generation (demo_env svc_raises (Some "key"%string))
                        default_args (ALL_CATEGORIES demo_catalog) empty_world)))
  = [inject_Z 3; inject_Z 3; inject_Z 3; inject_Z 3].
Proof. vm_compute. auto 10. Qed.

(** ** Malformed specs *)

(** C7, as first stated, fails: an entry with an empty description, width 0
    and height -1 is turned into a prompt like any other, the prompt is sent,
    and the record is counted as generated. *)
Lemma malformed_spec_is_synthesized :
  description (style (marketing_image (snd malformed_entry))) = ""%string /\
  width_px (physical_properties (subject (marketing_image (snd malformed_entry))))
  = 0 /\
  height_px (physical_properties (subject (marketing_image (snd malformed_entry))))
  = -1 /\
  build_prompt (snd malformed_entry)
  = ("Generate a single game asset image. Art style: 2D pixel art, isometric view, fantasy RPG style, warm color palette, soft shadows, 16-bit era aesthetic, transparent background, game asset, consistent top-left lighting, clean crisp pixel edges. Type: . Subject: Broken. Description: . Dimensions: 0x-1 pixels. Must have transparent background (PNG with alpha channel). No text, no labels, no watermarks. Just the game asset sprite.")%string /\
  generated (fst (process_asset (demo_env svc_ok (Some "key"%string))
                    no_post_args 1 (zero_counters, empty_world) malformed_entry))
  = 1%nat /\
  requests_of
    (trace (snd (process_asset (demo_env svc_ok (Some "key"%string))
                   no_post_args 1 (zero_counters, empty_world) malformed_entry)))
  = [build_prompt (snd malformed_entry)].
Proof. vm_compute. auto 10. Qed.

(** C7, amended.  Nothing checks a spec before or during prompt synthesis and
    no error for an invalid spec exists: for every spec, whatever its
    description and dimensions, a record that is not skipped has its prompt
    built by [build_prompt] and sent to the service, between one and three
    times, and is then counted as generated or failed, never skipped. *)
Theorem prompt_synthesis_is_unguarded (env : Env) (args : Args) (total : nat)
    (c : Counters) (w : World) (filepath : string) (spec : Spec) :
  (file_exists (Py.path_join (ASSETS_DIR env) filepath) w
   && negb (force args))%bool = false ->
  let r := process_asset env args total (c, w) (filepath, spec) in
  (exists n : nat, (1 <= n <= 3)%nat /\
     requests_of (trace (snd r))
     = requests_of (trace w) ++ repeat (build_prompt spec) n) /\
  skipped (fst r) = skipped c /\
  (generated (fst r) + failed (fst r) = S (generated c + failed c))%nat.
Proof.
  intros Hno. cbv zeta.
  set (path := Py.path_join (ASSETS_DIR env) filepath) in *.
  pose proof (process_asset_cases env args total c w filepath spec) as Hcases.
  cbv zeta in Hcases. fold path in Hcases.
  destruct (generate_image env (build_prompt spec) path default_retries
              (print (MsgGenerating (S (processed c)) total filepath) w))
    as [ok w1] eqn:Hg.
  destruct (generate_image_effects _ _ _ _ _ _ _ Hg)
    as (Hreq & Hfirst & Hprompts & _).
  cbn [requests trace print emit] in Hreq, Hfirst, Hprompts.
  rewrite requests_of_app in Hprompts. simpl in Hprompts.
  rewrite app_nil_r in Hprompts.
  assert (Hn : (1 <= requests w1 - requests w <= 3)%nat).
  { unfold default_retries in *. specialize (Hfirst ltac:(lia)).
    change (Z.to_nat (2 + 1)) with 3%nat in Hreq. lia. }
  destruct Hcases as [(Hex & _) | [(_ & _ & ->) | (_ & _ & ->)]];
    [congruence | |]; cbn [fst snd generated skipped failed].
  - split; [| split; [reflexivity | lia]].
    exists (requests w1 - requests w)%nat. split; [exact Hn |].
    rewrite <- Hprompts. apply after_generated_effects.
  - split; [| split; [reflexivity | lia]].
    exists (requests w1 - requests w)%nat. split; [exact Hn | exact Hprompts].
Qed.

Lemma prompt_synthesis_is_unguarded_witness :
  skipped (fst (process_asset (demo_env svc_ok (Some "key"%string))
                  no_post_args 1 (zero_counters, empty_world) malformed_entry))
  = skipped zero_counters.
Proof.
  apply (prompt_synthesis_is_unguarded (demo_env svc_ok (Some "key"%string))
           no_post_args 1 zero_counters empty_world
           "tiles/broken.png" (snd malformed_entry)).
  vm_compute. reflexivity.
Defined.

(** ** Book-keeping and exceptions of a run *)

Lemma accounts_for_nil (args : Args) (st : Counters * World) :
  accounts_for 0 args st st.
Proof. destruct st as [c w]. unfold accounts_for. repeat split; lia. Qed.

Lemma accounts_for_app (n1 n2 : nat) (args : Args)
    (st st1 st2 : Counters * World) :
  accounts_for n1 args st st1 -> accounts_for n2 args st1 st2 ->
  accounts_for (n1 + n2) args st st2.
Proof.
  destruct st as [c w], st1 as [c1 w1], st2 as [c2 w2]. unfold accounts_for.
  intros (A1 & A2 & A3 & A4 & A5 & A6 & A7 & A8)
         (B1 & B2 & B3 & B4 & B5 & B6 & B7 & B8).
  repeat split; try lia.
  intros Hf. rewrite (B8 Hf). apply (A8 Hf).
Qed.

Lemma process_asset_accounts (env : Env) (args : Args) (total : nat)
    (st : Counters * World) (a : string * Spec) :
  accounts_for 1 args st (process_asset env args total st a).
Proof.
  destruct st as [c w], a as [filepath spec].
  pose proof (process_asset_cases env args total c w filepath spec) as Hcases.
  cbv zeta in Hcases.
  set (path := Py.path_join (ASSETS_DIR env) filepath) in *.
  destruct (generate_image env (build_prompt spec) path default_retries
              (print (MsgGenerating (S (processed c)) total filepath) w))
    as [ok w1] eqn:Hg.
  destruct (generate_image_effects _ _ _ _ _ _ _ Hg) as (Hreq & Hfirst & _).
  cbn [requests print emit] in Hreq, Hfirst.
  unfold default_retries in *. specialize (Hfirst ltac:(lia)).
  change (Z.to_nat (2 + 1)) with 3%nat in Hreq.
  destruct Hcases as [(Hex & ->) | [(Hex & _ & ->) | (Hex & _ & ->)]];
    unfold accounts_for;
    cbn [fst snd generated skipped failed processed requests print emit].
  - repeat split; try lia. intros Hf. rewrite Hf, andb_false_r in Hex.
    discriminate.
  - destruct (after_generated_effects env args path spec w1) as (_ & Hpp & _).
    rewrite Hpp. repeat split; lia.
  - repeat split; lia.
Qed.

(** The book-keeping of a run, over the records it gets to. *)
Lemma run_generation_accounts (env : Env) (args : Args)
    (categories : list (string * list (string * Spec))) (w : World) :
  exists n : nat,
    (n <= total_assets categories)%nat /\
    accounts_for n args (zero_counters, w)
      (run_generation env args categories w) /\
    (raised (snd (run_generation env args categories w)) = None ->
     n = total_assets categories).
Proof.
  destruct (run_generation_run env args
              (fun l st st' => accounts_for (length l) args st st'))
    with (categories := categories) (w := w)
    as (done & rest & Hsplit & HP & Hrest).
  - intros st. apply accounts_for_nil.
  - intros l1 l2 st1 st2 st3 H1 H2. rewrite length_app.
    now apply (accounts_for_app _ _ args st1 st2).
  - intros m c w0. unfold accounts_for. cbn [length requests print emit].
    repeat split; lia.
  - intros total st a. apply process_asset_accounts.
  - exists (length done). rewrite total_assets_all, Hsplit, length_app.
    split; [lia |]. split; [exact HP |].
    intros Hfin. rewrite (Hrest Hfin). simpl. lia.
Qed.

(** [generate_image] raises nothing that it does not catch. *)
Lemma generate_image_raised (env : Env) (prompt output_path : string)
    (retries : Z) (w : World) :
  raised (snd (generate_image env prompt output_path retries w)) = raised w.
Proof.
  unfold generate_image. generalize (Py.range (retries + 1)) as attempts.
  intros attempts. revert w.
  induction attempts as [|attempt rest IH]; intros w; simpl; [reflexivity |].
  destruct (generate_content env (requests w) prompt) as [|parts].
  - destruct (attempt <? retries); rewrite IH; reflexivity.
  - destruct (first_inline_data parts) as [img|]; [reflexivity |].
    destruct (attempt <? retries); rewrite IH; reflexivity.
Qed.

Lemma resize_raises_bad (img : Image) (tw th : Z) :
  resize_raises img tw th = true -> tw < 1 \/ th < 1.
Proof.
  unfold resize_raises. destruct (decide _); [discriminate |].
  intros H. apply orb_prop in H as [H | H]; apply Z.ltb_lt in H; auto.
Qed.

(** What follows a successful [generate_image] raises only for one of the
    two reasons. *)
Lemma after_generated_raised (env : Env) (args : Args) (path : string)
    (spec : Spec) (w : World) :
  raised (after_generated env args path spec w) = raised w \/
  may_raise env args [(path, spec)].
Proof.
  unfold after_generated. cbv zeta.
  set (dims := physical_properties (subject (marketing_image spec))).
  set (w2 := if negb (no_post args)
             then post_process env path (width_px dims) (height_px dims) w
             else w).
  assert (H2 : raised w2 = raised w \/ may_raise env args [(path, spec)]).
  { subst w2. destruct (negb (no_post args)) eqn:Hpost; [| now left].
    rewrite post_process_raised.
    destruct (fs w !! path) as [[img | spec']|]; try now left.
    destruct (pil_available env) eqn:Hpil; cbn [andb]; [| now left].
    destruct (resize_raises img (width_px dims) (height_px dims)) eqn:Hrr;
      [| now left].
    right. right. right. apply negb_true_iff in Hpost.
    split; [exact Hpost |]. split; [exact Hpil |].
    apply Exists_cons_hd. apply (resize_raises_bad _ _ _ Hrr). }
  destruct H2 as [H2 | H2]; [| now right].
  destruct (raised w2) eqn:Hr2; [left; congruence |].
  destruct (time_sleep_raised env (delay args) w2) as [Hs | [Hs | Hs]].
  - left. congruence.
  - right. now left.
  - right. right. now left.
Qed.

Lemma may_raise_app (env : Env) (args : Args) (l1 l2 : list (string * Spec)) :
  may_raise env args l1 \/ may_raise env args l2 ->
  may_raise env args (l1 ++ l2).
Proof.
  unfold may_raise. rewrite Exists_app. tauto.
Qed.

Lemma may_raise_spec (env : Env) (args : Args) (p q : string) (spec : Spec) :
  may_raise env args [(p, spec)] -> may_raise env args [(q, spec)].
Proof.
  unfold may_raise. rewrite !Exists_cons, !Exists_nil. tauto.
Qed.

Lemma raises_for_cause_app (env : Env) (args : Args)
    (l1 l2 : list (string * Spec)) (st1 st2 st3 : Counters * World) :
  raises_for_cause env args l1 st1 st2 ->
  raises_for_cause env args l2 st2 st3 ->
  raises_for_cause env args (l1 ++ l2) st1 st3.
Proof.
  unfold raises_for_cause. intros (G1 & [R1 | (L1 & M1)]) (G2 & [R2 | (L2 & M2)]);
    (split; [lia |]).
  - left. congruence.
  - right. split; [lia |]. apply may_raise_app. now right.
  - right. split; [lia |]. apply may_raise_app. now left.
  - right. split; [lia |]. apply may_raise_app. now left.
Qed.

Lemma process_asset_raises (env : Env) (args : Args) (total : nat)
    (st : Counters * World) (a : string * Spec) :
  raises_for_cause env args [a] st (process_asset env args total st a).
Proof.
  destruct st as [c w], a as [filepath spec].
  pose proof (process_asset_cases env args total c w filepath spec) as Hcases.
  cbv zeta in Hcases.
  set (path := Py.path_join (ASSETS_DIR env) filepath) in *.
  pose proof (generate_image_raised env (build_prompt spec) path default_retries
                (print (MsgGenerating (S (processed c)) total filepath) w)) as Hg.
  cbn [raised print emit] in Hg.
  unfold raises_for_cause.
  destruct Hcases as [(_ & ->) | [(_ & _ & ->) | (_ & _ & ->)]];
    cbn [fst snd generated raised print emit].
  - split; [lia | now left].
  - split; [lia |].
    destruct (after_generated_raised env args path spec
                (snd (generate_image env (build_prompt spec) path default_retries
                        (print (MsgGenerating (S (processed c)) total filepath) w))))
      as [Hsame | Hcause].
    + left. now rewrite Hsame.
    + right. split; [lia |]. exact (may_raise_spec env args _ _ _ Hcause).
  - split; [lia | now left].
Qed.

Lemma run_generation_raises (env : Env) (args : Args)
    (categories : list (string * list (string * Spec))) (w : World) :
  raised (snd (run_generation env args categories w)) = raised w \/
  ((1 <= generated (fst (run_generation env args categories w)))%nat /\
   may_raise env args (all_assets categories)).
Proof.
  destruct (run_generation_run env args (raises_for_cause env args))
    with (categories := categories) (w := w)
    as (done & rest & Hsplit & (HG & HP) & _).
  - intros st. split; [lia | now left].
  - apply raises_for_cause_app.
  - intros m c w0. split; [cbn; lia | now left].
  - intros total st a. apply process_asset_raises.
  - cbn [fst snd generated] in HG, HP.
    destruct HP as [Hsame | (Hlt & Hcause)]; [now left | right].
    split; [lia |]. rewrite Hsplit. apply may_raise_app. now left.
Qed.

(** ** Exit status *)

Lemma dict_get_registry (cat : Catalog) (c : string) :
  dict_get (ALL_CATEGORIES cat) c = None
  <-> existsb (String.eqb c) category_names = false.
Proof.
  unfold ALL_CATEGORIES, category_names.
  cbn [dict_get existsb].
  rewrite !(String.eqb_sym c).
  repeat match goal with
         | |- context [String.eqb ?k c] => destruct (String.eqb k c)
         end; cbn [orb]; split; congruence.
Qed.












Example failed_assets_exit_zero :
  exit_status (fst (main (demo_env svc_raises (Some "key"%string)) demo_catalog
                      default_args empty_world)) = 0 /\
  last (trace (snd (main (demo_env svc_raises (Some "key"%string)) demo_catalog
                      default_args empty_world)))
  = Some (EvPrint (MsgFailedHint 2)) /\
  In (EvPrint (MsgSummary 0 0 2 2))
     (trace (snd (main (demo_env svc_raises (Some "key"%string)) demo_catalog
                    default_args empty_world))).
Proof.
  split; [vm_compute; reflexivity |].
  split; [vm_compute; reflexivity |].
  vm_compute. repeat (first [left; reflexivity | right]).
Qed.

(** A target size with a side below 1 ends the run as well, once the asset
    has been generated: the file stays as the service delivered it. *)
Example bad_size_exits_nonzero :
  fst (main (demo_env svc_ok (Some "key"%string))
         {| TERRAIN_TILES := [malformed_entry]; POI_BUILDINGS := [];
            RESOURCE_OBJECTS := []; ITEM_ICONS := []; CHARACTER_SPRITES := [];
            UI_ELEMENTS := [] |}
         default_args empty_world)
  = Uncaught ValueError /\
  fs (snd (main (demo_env svc_ok (Some "key"%string))
             {| TERRAIN_TILES := [malformed_entry]; POI_BUILDINGS := [];
                RESOURCE_OBJECTS := []; ITEM_ICONS := []; CHARACTER_SPRITES := [];
                UI_ELEMENTS := [] |}
             default_args empty_world))
    !! "assets/tiles/broken.png"%string
  = Some (ImageData sample_image).
Proof. split; vm_compute; reflexivity. Qed.

Example missing_key_exit_one :
  main (demo_env svc_ok None) demo_catalog default_args empty_world
  = (SysExit 1, print MsgNoKey empty_world).
Proof. vm_compute. reflexivity. Qed.

(** ** Scenarios *)

(** One missing terrain tile, default options: one generated asset, and the
    file at its path is 48x48. *)
Example end_to_end_generated :
  fst (run_generation (demo_env svc_ok (Some "key"%string)) default_args
         [("tiles"%string, [grass_plains])] empty_world)
  = {| generated := 1; skipped := 0; failed := 0; processed := 1 |} /\
  (img_size <$>
     (match fs (snd (run_generation (demo_env svc_ok (Some "key"%string))
                       default_args [("tiles"%string, [grass_plains])]
                       empty_world))
            !! "assets/tiles/grass_plains.png"%string with
      | Some (ImageData img) => Some img
      | _ => None
      end))
  = Some (48, 48).
Proof. split; vm_compute; reflexivity. Qed.

(** Two runs in a row: the second skips what the first generated and sends no
    request. *)
Example second_run_skips :
  fst (run_generation (demo_env svc_ok (Some "key"%string)) default_args
         (ALL_CATEGORIES demo_catalog) empty_world)
  = {| generated := 2; skipped := 0; failed := 0; processed := 2 |} /\
  fst (run_generation (demo_env svc_ok (Some "key"%string)) default_args
         (ALL_CATEGORIES demo_catalog)
         (new_process
            (snd (run_generation (demo_env svc_ok (Some "key"%string))
                    default_args (ALL_CATEGORIES demo_catalog) empty_world))))
  = {| generated := 0; skipped := 2; failed := 0; processed := 2 |} /\
  requests_of
    (trace
       (snd (run_generation (demo_env svc_ok (Some "key"%string)) default_args
               (ALL_CATEGORIES demo_catalog)
               (new_process
                  (snd (run_generation (demo_env svc_ok (Some "key"%string))
                          default_args (ALL_CATEGORIES demo_catalog)
                          empty_world))))))
  = [].
Proof. repeat split; vm_compute; reflexivity. Qed.

(** The trace of one record that succeeds at the third attempt. *)
Example third_time_trace :
  trace (snd (process_asset (demo_env svc_third_time (Some "key"%string))
                no_post_args 1 (zero_counters, empty_world) grass_plains))
  = [ EvPrint (MsgGenerating 1 1 "tiles/grass_plains.png");
      EvRequest (build_prompt (snd grass_plains));
      EvPrint (MsgError "grass_plains.png");
      EvPrint (MsgRetrying 1 2);
      EvSleep (inject_Z 3);
      EvRequest (build_prompt (snd grass_plains));
      EvPrint (MsgWarnNoImage "grass_plains.png");
      EvPrint (MsgRetrying 2 2);
      EvSleep (inject_Z 2);
      EvRequest (build_prompt (snd grass_plains));
      EvWrite "assets/tiles/grass_plains.png";
      EvPrint (MsgOk "grass_plains.png");
      EvSleep (inject_Z 1) ].
Proof. vm_compute. reflexivity. Qed.

(** ** Further properties of [generate_image] *)

Lemma payload_has_image (r : Response) :
  payload r = None <-> has_image r = false.
Proof.
  destruct r as [|parts]; simpl; [tauto |].
  destruct (first_inline_data parts) as [img|].
  - split; [discriminate |]. intros H.
    apply bool_decide_eq_false in H. exfalso. apply H. eauto.
  - split; [| reflexivity]. intros _.
    apply bool_decide_eq_false. intros [x Hx]. discriminate.
Qed.

Lemma bool_decide_is_Some {T} (o : option T) :
  bool_decide (is_Some o) = match o with Some _ => true | None => false end.
Proof.
  destruct o as [x|].
  - apply bool_decide_eq_true. eauto.
  - apply bool_decide_eq_false. intros [x Hx]. discriminate.
Qed.

(** The loop stops at the first picture: what it returns, what it writes and
    how many requests it sends are fixed by the answers up to that picture. *)
Lemma loop_outcome (env : Env) (prompt output_path : string) (retries : Z)
    (attempts : list Z) (w : World) :
  let n := length attempts in
  let r := generate_image_loop env prompt output_path retries attempts w in
  fs (snd r)
  = match first_picture env prompt (requests w) n with
    | Some img => <[output_path := ImageData img]> (fs w)
    | None => fs w
    end /\
  fst r = bool_decide (is_Some (first_picture env prompt (requests w) n)) /\
  requests (snd r)
  = (requests w
     + Nat.min n (S (length (failed_answers env prompt (requests w) n))))%nat.
Proof.
  cbv zeta. rewrite bool_decide_is_Some. revert w.
  induction attempts as [|attempt rest IH]; intros w.
  - cbn [generate_image_loop length first_picture failed_answers fst snd].
    split; [reflexivity |]. split; [reflexivity | simpl; lia].
  - cbn [generate_image_loop length first_picture failed_answers].
    destruct (generate_content env (requests w) prompt) as [|parts] eqn:Hr.
    + cbn [payload has_image].
      destruct (attempt <? retries);
        match goal with |- context [generate_image_loop _ _ _ _ rest ?w1] =>
          destruct (IH w1) as (H1 & H2 & H3); cbn [fs requests print sleep emit] in *;
          rewrite H1, H2, H3; cbn [length]; repeat split; lia end.
    + cbn [payload]. rewrite has_image_parts.
      destruct (first_inline_data parts) as [img|].
      * cbn [fst snd fs requests print emit write_file length].
        split; [reflexivity |]. split; [reflexivity | lia].
      * destruct (attempt <? retries);
          match goal with |- context [generate_image_loop _ _ _ _ rest ?w1] =>
            destruct (IH w1) as (H1 & H2 & H3); cbn [fs requests print sleep emit] in *;
            rewrite H1, H2, H3; cbn [length]; repeat split; lia end.
Qed.

(** X1. [generate_image] never asks again once a picture has been
    delivered: it sends one request more than the number of failed answers
    before the first picture, and exactly [retries + 1] requests when none of
    them carries a picture. *)
Theorem generate_image_stops_at_first_picture (env : Env)
    (prompt output_path : string) (retries : Z) (w : World) :
  let n := Z.to_nat (retries + 1) in
  let failures := failed_answers env prompt (requests w) n in
  let g := generate_image env prompt output_path retries w in
  requests (snd g) = (requests w + Nat.min n (S (length failures)))%nat /\
  (fst g = true -> requests (snd g) = (requests w + S (length failures))%nat) /\
  (fst g = false -> requests (snd g) = (requests w + n)%nat).
Proof.
  cbv zeta. unfold generate_image.
  destruct (loop_outcome env prompt output_path retries
              (Py.range (retries + 1)) w) as (_ & Hok & Hreq).
  pose proof (loop_requests env prompt output_path retries
                (Py.range (retries + 1)) w) as Hbound.
  pose proof (loop_files env prompt output_path retries
                (Py.range (retries + 1)) w) as [Hfail _].
  pose proof (loop_success env prompt output_path retries
                (Py.range (retries + 1)) w) as Hsucc.
  rewrite range_length in *.
  split; [exact Hreq |]. split.
  - intros Htrue. rewrite Hreq.
    assert (Hlt : (length (failed_answers env prompt (requests w)
                             (Z.to_nat (retries + 1)))
                   < Z.to_nat (retries + 1))%nat); [| lia].
    clear - Htrue Hsucc. apply Hsucc in Htrue.
    destruct Htrue as (i & Hi & Himg).
    revert Hi Himg. generalize (requests w) as k.
    generalize (Z.to_nat (retries + 1)) as n. revert i.
    induction i as [|i IHi]; intros n k Hi Himg.
    + destruct n as [|n]; [lia |]. simpl.
      rewrite Nat.add_0_r in Himg. rewrite Himg. simpl. lia.
    + destruct n as [|n]; [lia |]. simpl.
      destruct (has_image (generate_content env k prompt)); [simpl; lia |].
      simpl. apply -> Nat.succ_lt_mono. apply IHi; [lia |].
      now replace (S k + i)%nat with (k + S i)%nat by lia.
  - intros Hfalse. rewrite Hreq.
    assert (Hall : length (failed_answers env prompt (requests w)
                             (Z.to_nat (retries + 1)))
                   = Z.to_nat (retries + 1)); [| lia].
    assert (Hnone : forall i, (i < Z.to_nat (retries + 1))%nat ->
              has_image (generate_content env (requests w + i) prompt) = false).
    { intros i Hi. apply not_true_is_false. intros Himg.
      assert (fst (generate_image_loop env prompt output_path retries
                     (Py.range (retries + 1)) w) = true)
        by (apply Hsucc; eauto).
      congruence. }
    clear - Hnone. revert Hnone. generalize (requests w) as k.
    induction (Z.to_nat (retries + 1)) as [|n IHn]; intros k Hnone;
      [reflexivity |].
    simpl. pose proof (Hnone 0%nat ltac:(lia)) as H0.
    rewrite Nat.add_0_r in H0. rewrite H0. simpl. f_equal.
    apply IHn. intros i Hi.
    replace (S k + i)%nat with (k + S i)%nat by lia. apply Hnone. lia.
Qed.

(** X2. A successful call of [generate_image] leaves at the output path the
    first picture the service delivered, a failed call leaves the files as
    they were, and in both cases no other path is touched. *)
Theorem generate_image_file (env : Env) (prompt output_path : string)
    (retries : Z) (w : World) :
  let g := generate_image env prompt output_path retries w in
  let picture :=
    first_picture env prompt (requests w) (Z.to_nat (retries + 1)) in
  (fst g = true ->
     exists img, picture = Some img /\
                 fs (snd g) !! output_path = Some (ImageData img)) /\
  (fst g = false -> picture = None /\ fs (snd g) = fs w) /\
  (forall other : string,
      other <> output_path -> fs (snd g) !! other = fs w !! other).
Proof.
  cbv zeta. unfold generate_image.
  destruct (loop_outcome env prompt output_path retries
              (Py.range (retries + 1)) w) as (Hfs & Hok & _).
  rewrite range_length in *. rewrite Hfs, Hok.
  destruct (first_picture env prompt (requests w) (Z.to_nat (retries + 1)))
    as [img|].
  - split; [| split].
    + intros _. exists img. split; [reflexivity | apply lookup_insert_eq].
    + intros H. apply bool_decide_eq_false in H. exfalso. apply H. eauto.
    + intros other Hne. now apply lookup_insert_ne.
  - split; [| split].
    + intros H. apply bool_decide_eq_true in H. destruct H as [x Hx].
      discriminate.
    + auto.
    + reflexivity.
Qed.

Lemma generate_image_file_witness :
  exists img,
    first_picture (demo_env svc_third_time (Some "key"%string)) "prompt" 0 3
    = Some img /\
    fs (snd (generate_image (demo_env svc_third_time (Some "key"%string))
               "prompt" "assets/x.png" 2 empty_world))
      !! "assets/x.png"%string
    = Some (ImageData img).
Proof.
  apply (generate_image_file (demo_env svc_third_time (Some "key"%string))
           "prompt" "assets/x.png" 2 empty_world).
  vm_compute. reflexivity.
Defined.

Lemma generate_image_stops_at_first_picture_witness :
  requests (snd (generate_image (demo_env svc_third_time (Some "key"%string))
                   "prompt" "assets/x.png" 5 empty_world))
  = (0 + 3)%nat.
Proof.
  apply (generate_image_stops_at_first_picture
           (demo_env svc_third_time (Some "key"%string))
           "prompt" "assets/x.png" 5 empty_world).
  vm_compute. reflexivity.
Defined.

(** ** Further properties of the generation mode *)

Lemma good_size_not_bad (l : list (string * Spec)) :
  Forall (fun a => good_size (snd a)) l ->
  ~ Exists (fun a => bad_size (snd a)) l.
Proof.
  intros Hall Hex. apply Exists_exists in Hex as (a & Hin & Hbad).
  rewrite Forall_forall in Hall. specialize (Hall a Hin).
  unfold good_size, bad_size in *. cbv zeta in *. lia.
Qed.

(** X3. A generation run comes to its end and counts every asset, whatever
    the service answers, when [time.sleep] takes the delay (it is not
    negative and not too large) and no target size can stop post-processing
    (post-processing is off, or Pillow cannot be imported, or every asset of
    the selection has a positive width and height): no exception ends the
    run, every asset has been counted exactly once, as generated, skipped or
    failed, and the three numbers of the summary add up to the total. *)
Theorem run_generation_counts_every_asset (env : Env) (args : Args)
    (categories : list (string * list (string * Spec))) (w : World) :
  raised w = None ->
  (0 <= delay args)%Q -> (delay args <= sleep_max env)%Q ->
  (no_post args = true \/ pil_available env = false \/
   Forall (fun a => good_size (snd a)) (all_assets categories)) ->
  let r := run_generation env args categories w in
  raised (snd r) = None /\
  processed (fst r) = total_assets categories /\
  (generated (fst r) + skipped (fst r) + failed (fst r)
   = total_assets categories)%nat.
Proof.
  intros Hw Hdelay Hmax Hsizes. cbv zeta.
  assert (Hend : raised (snd (run_generation env args categories w)) = None).
  { destruct (run_generation_raises env args categories w)
      as [Hsame | (_ & [Hneg | [Hbig | (Hpost & Hpil & Hbad)]])].
    - now rewrite Hsame.
    - exfalso. exact (Qlt_not_le _ _ Hneg Hdelay).
    - exfalso. exact (Qlt_not_le _ _ Hbig Hmax).
    - exfalso. destruct Hsizes as [H | [H | H]]; [congruence | congruence |].
      exact (good_size_not_bad _ H Hbad). }
  split; [exact Hend |].
  destruct (run_generation_accounts env args categories w)
    as (n & _ & Hacc & Hn).
  specialize (Hn Hend). subst n.
  destruct (run_generation env args categories w) as [c w'].
  unfold accounts_for, zero_counters in Hacc. simpl in *. lia.
Qed.

Lemma run_generation_counts_every_asset_witness :
  processed
    (fst (run_generation (demo_env svc_third_time (Some "key"%string))
            default_args (ALL_CATEGORIES demo_catalog) empty_world))
  = total_assets (ALL_CATEGORIES demo_catalog).
Proof.
  apply (run_generation_counts_every_asset
           (demo_env svc_third_time (Some "key"%string)) default_args
           (ALL_CATEGORIES demo_catalog) empty_world eq_refl).
  - unfold Qle. simpl. lia.
  - unfold Qle. simpl. lia.
  - right. right. repeat constructor; simpl; lia.
Defined.

(** X4. A generation run sends at least one and at most three requests for
    each asset it attempts and none for the assets it skips, so never more
    than three times the number of assets. *)
Theorem run_generation_request_bounds (env : Env) (args : Args)
    (categories : list (string * list (string * Spec))) (w : World) :
  let r := run_generation env args categories w in
  (requests w + (generated (fst r) + failed (fst r)) <= requests (snd r))%nat /\
  (requests (snd r)
   <= requests w + 3 * (generated (fst r) + failed (fst r)))%nat /\
  (requests (snd r) <= requests w + 3 * total_assets categories)%nat.
Proof.
  cbv zeta.
  destruct (run_generation_accounts env args categories w)
    as (n & Hn & H & _).
  destruct (run_generation env args categories w) as [c w'].
  unfold accounts_for, zero_counters in H. simpl in *. lia.
Qed.

(** X5. With [--force] nothing is skipped: every asset the run gets to is
    attempted, existing files or not; a run that comes to its end has
    attempted every asset of the selection and has sent at least one request
    for each. *)
Theorem force_regenerates_everything (env : Env) (args : Args)
    (categories : list (string * list (string * Spec))) (w : World) :
  force args = true ->
  let r := run_generation env args categories w in
  skipped (fst r) = 0%nat /\
  (raised (snd r) = None ->
   (generated (fst r) + failed (fst r) = total_assets categories)%nat /\
   (requests w + total_assets categories <= requests (snd r))%nat).
Proof.
  intros Hforce. cbv zeta.
  destruct (run_generation_accounts env args categories w)
    as (n & _ & H & Hn).
  destruct (run_generation env args categories w) as [c w'].
  unfold accounts_for, zero_counters in H. simpl in *.
  destruct H as (_ & H2 & _ & _ & _ & H6 & _ & H8).
  specialize (H8 Hforce). split; [lia |].
  intros Hend. specialize (Hn Hend). lia.
Qed.

Lemma force_regenerates_everything_witness :
  skipped
    (fst (run_generation (demo_env svc_ok (Some "key"%string))
            {| list_ := false; category := None; force := true;
               dry_run := false; no_post := false; export_specs_dir := None;
               delay := inject_Z 1 |}
            (ALL_CATEGORIES demo_catalog)
            {| fs := {[ "assets/tiles/grass_plains.png"%string
                        := ImageData sample_image ]};
               requests := 0; trace := []; raised := None |}))
  = 0%nat.
Proof.
  apply (force_regenerates_everything (demo_env svc_ok (Some "key"%string))
           {| list_ := false; category := None; force := true;
              dry_run := false; no_post := false; export_specs_dir := None;
              delay := inject_Z 1 |}).
  reflexivity.
Defined.

Lemma prompts_sent_app (l1 l2 : list (string * Spec)) (ns1 ns2 : list nat) :
  length ns1 = length l1 ->
  prompts_sent (l1 ++ l2) (ns1 ++ ns2)
  = prompts_sent l1 ns1 ++ prompts_sent l2 ns2.
Proof.
  intros Hlen. unfold prompts_sent.
  rewrite zip_with_app by (symmetry; exact Hlen).
  apply concat_app.
Qed.

Lemma prompts_sent_nil : prompts_sent [] [] = [].
Proof. reflexivity. Qed.

Lemma prompts_sent_zero (l : list (string * Spec)) :
  prompts_sent l (repeat 0%nat (length l)) = [].
Proof.
  unfold prompts_sent. induction l as [|a l IH]; [reflexivity |].
  simpl. exact IH.
Qed.

Lemma process_asset_prompts (env : Env) (args : Args) (total : nat)
    (c : Counters) (w : World) (a : string * Spec) :
  exists n : nat, (n <= 3)%nat /\
    requests_of (trace (snd (process_asset env args total (c, w) a)))
    = requests_of (trace w) ++ repeat (build_prompt (snd a)) n.
Proof.
  destruct a as [filepath spec]. cbn [snd].
  pose proof (process_asset_cases env args total c w filepath spec) as Hcases.
  cbv zeta in Hcases.
  set (path := Py.path_join (ASSETS_DIR env) filepath) in *.
  destruct (generate_image env (build_prompt spec) path default_retries
              (print (MsgGenerating (S (processed c)) total filepath) w))
    as [ok w1] eqn:Hg.
  destruct (generate_image_effects _ _ _ _ _ _ _ Hg) as (Hreq & _ & Hpr & _).
  cbn [requests trace print emit] in Hreq, Hpr.
  rewrite requests_of_app in Hpr. simpl in Hpr. rewrite app_nil_r in Hpr.
  change (Z.to_nat (default_retries + 1)) with 3%nat in Hreq.
  destruct Hcases as [(_ & ->) | [(_ & _ & ->) | (_ & _ & ->)]]; cbn [fst snd].
  - exists 0%nat. split; [lia |]. cbn [trace print emit].
    rewrite requests_of_app. reflexivity.
  - exists (requests w1 - requests w)%nat. split; [lia |].
    rewrite <- Hpr. apply after_generated_effects.
  - exists (requests w1 - requests w)%nat. split; [lia | exact Hpr].
Qed.

(** The requests of a run, over the records it gets to. *)
Lemma run_generation_prompts (env : Env) (args : Args)
    (categories : list (string * list (string * Spec))) (w : World) :
  exists done rest ns,
    all_assets categories = done ++ rest /\
    length ns = length done /\
    Forall (fun n => (n <= 3)%nat) ns /\
    requests_of (trace (snd (run_generation env args categories w)))
    = requests_of (trace w) ++ prompts_sent done ns.
Proof.
  destruct (run_generation_run env args
              (fun l st st' =>
                 exists ns : list nat,
                   length ns = length l /\
                   Forall (fun n => (n <= 3)%nat) ns /\
                   requests_of (trace (snd st'))
                   = requests_of (trace (snd st)) ++ prompts_sent l ns))
    with (categories := categories) (w := w)
    as (done & rest & Hsplit & (ns & Hlen & Hall & Htr) & _).
  - intros st. exists []. repeat split; [constructor |].
    now rewrite prompts_sent_nil, app_nil_r.
  - intros l1 l2 st1 st2 st3 (ns1 & Hlen1 & Hall1 & Htr1)
           (ns2 & Hlen2 & Hall2 & Htr2).
    exists (ns1 ++ ns2). split; [rewrite !length_app; lia |].
    split; [apply Forall_app; auto |].
    rewrite Htr2, Htr1, <- app_assoc. f_equal.
    now rewrite prompts_sent_app.
  - intros m c w0. exists []. repeat split; [constructor |].
    cbn [snd trace print emit]. rewrite requests_of_app, prompts_sent_nil.
    reflexivity.
  - intros total [c w0] a.
    destruct (process_asset_prompts env args total c w0 a) as (n & Hn & Hone).
    exists [n]. split; [reflexivity |].
    split; [constructor; [exact Hn | constructor] |].
    rewrite Hone. cbn [snd]. f_equal.
    unfold prompts_sent. simpl. now rewrite app_nil_r.
  - exists done, rest, ns. auto.
Qed.

(** X6. The requests of a generation run follow the order of the selection:
    first those for the first asset of the first category, then those for the
    next asset, and so on; each asset's prompt, as [build_prompt] gives it, is
    sent zero to three times in a row (zero when the asset is skipped). *)
Theorem run_generation_requests_in_catalog_order (env : Env) (args : Args)
    (categories : list (string * list (string * Spec))) (w : World) :
  exists ns : list nat,
    length ns = length (all_assets categories) /\
    Forall (fun n => (n <= 3)%nat) ns /\
    requests_of (trace (snd (run_generation env args categories w)))
    = requests_of (trace w) ++ prompts_sent (all_assets categories) ns.
Proof.
  destruct (run_generation_prompts env args categories w)
    as (done & rest & ns & Hsplit & Hlen & Hall & Htr).
  exists (ns ++ repeat 0%nat (length rest)).
  split; [rewrite Hsplit, !length_app, repeat_length; lia |].
  split.
  { apply Forall_app. split; [exact Hall |].
    apply List.Forall_forall. intros n Hin. apply repeat_spec in Hin. lia. }
  rewrite Htr, Hsplit, prompts_sent_app by exact Hlen.
  now rewrite prompts_sent_zero, app_nil_r.
Qed.

(** What a call of [generate_image] leaves at its output path. *)
Lemma generate_image_outcome (env : Env) (prompt output_path : string)
    (retries : Z) (w : World) :
  let g := generate_image env prompt output_path retries w in
  let picture :=
    first_picture env prompt (requests w) (Z.to_nat (retries + 1)) in
  fs (snd g)
  = match picture with
    | Some img => <[output_path := ImageData img]> (fs w)
    | None => fs w
    end /\
  (fst g = true <-> is_Some picture).
Proof.
  cbv zeta. unfold generate_image.
  destruct (loop_outcome env prompt output_path retries
              (Py.range (retries + 1)) w) as (Hfs & Hok & _).
  rewrite range_length in *. rewrite Hfs, Hok.
  split; [reflexivity | apply bool_decide_eq_true].
Qed.

Lemma after_generated_fs (env : Env) (args : Args) (path : string)
    (spec : Spec) (w : World) :
  fs (after_generated env args path spec w)
  = fs (if negb (no_post args)
        then post_process env path
               (width_px (physical_properties (subject (marketing_image spec))))
               (height_px (physical_properties (subject (marketing_image spec))))
               w
        else w).
Proof.
  unfold after_generated. cbv zeta.
  match goal with |- context [raised ?x] => destruct (raised x) end;
    [reflexivity | apply time_sleep_effects].
Qed.

(** X7. What a successfully generated asset leaves on disk: the first
    picture the service delivered for it, passed through the picture part of
    [post_process] with the spec's dimensions; with [--no-post], or when
    Pillow and numpy cannot be imported, or when the resize refuses the target
    size, the picture as delivered.  The resize refuses no size with a
    positive width and height. *)
Theorem generated_asset_file (env : Env) (args : Args) (total : nat)
    (c : Counters) (w : World) (filepath : string) (spec : Spec) :
  let path := Py.path_join (ASSETS_DIR env) filepath in
  let dims := physical_properties (subject (marketing_image spec)) in
  let r := process_asset env args total (c, w) (filepath, spec) in
  (file_exists path w && negb (force args))%bool = false ->
  generated (fst r) = S (generated c) ->
  exists img,
    first_picture env (build_prompt spec) (requests w) 3 = Some img /\
    fs (snd r) !! path
    = Some (ImageData
              (if (negb (no_post args) && pil_available env
                   && negb (resize_raises img (width_px dims) (height_px dims)))%bool
               then post_process_image (Image_resize env) img
                      (width_px dims) (height_px dims)
               else img)) /\
    (good_size spec ->
     resize_raises img (width_px dims) (height_px dims) = false).
Proof.
  cbv zeta. intros Hno Hgen.
  set (path := Py.path_join (ASSETS_DIR env) filepath) in *.
  set (dims := physical_properties (subject (marketing_image spec))) in *.
  pose proof (process_asset_cases env args total c w filepath spec) as Hcases.
  cbv zeta in Hcases. fold path in Hcases.
  pose proof (generate_image_outcome env (build_prompt spec) path
                default_retries
                (print (MsgGenerating (S (processed c)) total filepath) w))
    as (Hfs & Hsucc).
  cbv zeta in Hsucc, Hfs. cbn [requests fs print emit] in Hsucc, Hfs.
  change (Z.to_nat (default_retries + 1)) with 3%nat in Hsucc, Hfs.
  destruct Hcases as [(Hex & _) | [(_ & Hok & Hr) | (_ & _ & Hr)]].
  - congruence.
  - apply Hsucc in Hok. destruct Hok as [img Hpic]. rewrite Hpic in Hfs.
    exists img. split; [exact Hpic |].
    split; [| intros [Hw Hh]; now apply resize_raises_positive].
    assert (Hfile : fs (snd (generate_image env (build_prompt spec) path
                               default_retries
                               (print (MsgGenerating (S (processed c)) total
                                         filepath) w)))
                    !! path = Some (ImageData img)).
    { rewrite Hfs. apply lookup_insert_eq. }
    rewrite Hr. cbn [snd]. rewrite after_generated_fs. fold dims.
    destruct (no_post args); cbn [negb andb]; [exact Hfile |].
    destruct (pil_available env) eqn:Hpil; cbn [andb].
    + destruct (resize_raises img (width_px dims) (height_px dims)) eqn:Hrr;
        cbn [negb].
      * unfold post_process. rewrite Hpil, Hfile, Hrr. exact Hfile.
      * now apply post_process_saves.
    + unfold post_process. rewrite Hpil. exact Hfile.
  - rewrite Hr in Hgen. cbn [fst generated] in Hgen. lia.
Qed.

Lemma generated_asset_file_witness :
  exists img,
    first_picture (demo_env svc_ok (Some "key"%string))
      (build_prompt (snd grass_plains)) 0 3 = Some img /\
    fs (snd (process_asset (demo_env svc_ok (Some "key"%string)) default_args 1
               (zero_counters, empty_world) grass_plains))
      !! "assets/tiles/grass_plains.png"%string
    = Some (ImageData (post_process_image resize_flat img 48 48)).
Proof.
  destruct (generated_asset_file (demo_env svc_ok (Some "key"%string))
              default_args 1 zero_counters empty_world
              "tiles/grass_plains.png" (snd grass_plains))
    as (img & Hpic & Hfile & Hok); [vm_compute; reflexivity .. |].
  exists img. split; [exact Hpic |].
  rewrite Hok in Hfile by (split; vm_compute; reflexivity).
  exact Hfile.
Defined.

(** X29. Pacing: when [time.sleep] takes the delay (it is not negative and
    not too large) and no target size can stop post-processing, a record whose
    generation succeeded ends with one sleep of the configured delay, after
    the optional post-processing, and no exception is raised; a skipped record
    sleeps not at all. *)
Theorem pacing_after_success (env : Env) (args : Args) (total : nat)
    (c : Counters) (w : World) (filepath : string) (spec : Spec) :
  let path := Py.path_join (ASSETS_DIR env) filepath in
  let g := generate_image env (build_prompt spec) path default_retries
             (print (MsgGenerating (S (processed c)) total filepath) w) in
  let r := process_asset env args total (c, w) (filepath, spec) in
  raised w = None ->
  (0 <= delay args)%Q -> (delay args <= sleep_max env)%Q ->
  no_post args = true \/ pil_available env = false \/ good_size spec ->
  ((file_exists path w && negb (force args))%bool = true ->
     sleeps (trace (snd r)) = sleeps (trace w)) /\
  ((file_exists path w && negb (force args))%bool = false -> fst g = true ->
     generated (fst r) = S (generated c) /\
     last (trace (snd r)) = Some (EvSleep (delay args)) /\
     sleeps (trace (snd r)) = sleeps (trace (snd g)) ++ [delay args] /\
     raised (snd r) = None).
Proof.
  cbv zeta. intros Hw Hdelay Hmax Hsize.
  set (path := Py.path_join (ASSETS_DIR env) filepath).
  set (dims := physical_properties (subject (marketing_image spec))).
  pose proof (generate_image_raised env (build_prompt spec) path default_retries
                (print (MsgGenerating (S (processed c)) total filepath) w)) as Hg.
  cbn [raised print emit] in Hg. rewrite Hw in Hg.
  destruct (process_asset_cases env args total c w filepath spec)
    as [(Hex & ->) | [(Hex & Hok & ->) | (Hex & Hok & ->)]];
    fold path in Hex |- *; rewrite Hex;
    (split; [intros Hskip | intros Hgen Hsucc]);
    try discriminate; try (fold path in Hok; congruence).
  - cbn [snd trace print emit]. rewrite sleeps_app. simpl.
    now rewrite app_nil_r.
  - cbn [fst snd generated]. split; [reflexivity |].
    unfold after_generated. cbv zeta. fold dims.
    set (w1 := snd (generate_image env (build_prompt spec) path default_retries
                      (print (MsgGenerating (S (processed c)) total filepath) w)))
      in *.
    set (w2 := if negb (no_post args)
               then post_process env path (width_px dims) (height_px dims) w1
               else w1).
    assert (H2 : raised w2 = None /\ sleeps (trace w2) = sleeps (trace w1)).
    { subst w2. destruct (no_post args) eqn:Hpost; cbn [negb]; [auto |].
      split; [| apply post_process_effects].
      rewrite post_process_raised.
      destruct (fs w1 !! path) as [[img | sp]|]; try exact Hg.
      destruct Hsize as [H | [H | [H1 H2]]]; [discriminate | |].
      - now rewrite H.
      - fold dims in H1, H2.
        rewrite (resize_raises_positive img _ _ H1 H2), andb_false_r.
        exact Hg. }
    destruct H2 as [Hr2 Hs2]. rewrite Hr2.
    rewrite time_sleep_accepts by assumption.
    cbn [trace raised emit]. rewrite sleeps_app, Hs2. simpl.
    split; [apply last_snoc |]. split; [reflexivity | exact Hr2].
Qed.

Lemma pacing_after_success_witness :
  last (trace (snd (process_asset (demo_env svc_ok (Some "key"%string))
                      default_args 2 (zero_counters, empty_world) grass_plains)))
  = Some (EvSleep (inject_Z 1)).
Proof.
  apply (pacing_after_success (demo_env svc_ok (Some "key"%string))
           default_args 2 zero_counters empty_world
           "tiles/grass_plains.png" (snd grass_plains) eq_refl).
  - unfold Qle. simpl. lia.
  - unfold Qle. simpl. lia.
  - right. right. split; simpl; lia.
  - vm_compute. reflexivity.
  - vm_compute. reflexivity.
Defined.
(** ** The modes that generate nothing *)

Lemma file_exists_fs (path : string) (w1 w2 : World) :
  fs w1 = fs w2 -> file_exists path w1 = file_exists path w2.
Proof. unfold file_exists. now intros ->. Qed.

Lemma needs_generation_fs (env : Env) (args : Args) (w1 w2 : World)
    (a : string * Spec) :
  fs w1 = fs w2 -> needs_generation env args w1 a = needs_generation env args w2 a.
Proof. unfold needs_generation. intros H. now rewrite (file_exists_fs _ _ _ H). Qed.

Lemma dry_run_assets (env : Env) (args : Args) (w0 : World)
    (assets : list (string * Spec)) (count : nat) (w : World) :
  fs w = fs w0 ->
  let wanted := List.filter (needs_generation env args w0) assets in
  let r := fold_left
             (fun '(count, w) '(filepath, spec) =>
                let output_path := Py.path_join (ASSETS_DIR env) filepath in
                if (file_exists output_path w && negb (force args))%bool
                then (count, w)
                else (S count, print (MsgWouldGenerate filepath) w))
             assets (count, w) in
  fst r = (count + length wanted)%nat /\
  fs (snd r) = fs w0 /\ requests (snd r) = requests w /\
  trace (snd r)
  = trace w ++ map (fun a => EvPrint (MsgWouldGenerate (fst a))) wanted.
Proof.
  cbv zeta. revert count w.
  induction assets as [|[filepath spec] assets IH]; intros count w Hfs.
  - simpl. rewrite app_nil_r. repeat split; [lia | exact Hfs].
  - cbn [fold_left List.filter].
    assert (Hng : needs_generation env args w0 (filepath, spec)
                  = negb (file_exists (Py.path_join (ASSETS_DIR env) filepath) w
                          && negb (force args))).
    { unfold needs_generation. cbn [fst].
      now rewrite (file_exists_fs _ w w0 Hfs). }
    rewrite Hng.
    destruct (file_exists _ w && negb (force args))%bool; cbn [negb].
    + apply IH. exact Hfs.
    + destruct (IH (S count) (print (MsgWouldGenerate filepath) w) Hfs)
        as (H1 & H2 & H3 & H4).
      rewrite H1, H2, H3, H4. cbn [length map fst trace print emit requests].
      rewrite <- app_assoc. repeat split; lia.
Qed.

Lemma dry_run_categories (env : Env) (args : Args) (w0 : World)
    (categories : list (string * list (string * Spec)))
    (count : nat) (w : World) :
  fs w = fs w0 ->
  let wanted :=
    List.filter (needs_generation env args w0) (all_assets categories) in
  let r := fold_left
             (fun st '(cat_name, assets) =>
                fold_left
                  (fun '(count, w) '(filepath, spec) =>
                     let output_path := Py.path_join (ASSETS_DIR env) filepath in
                     if (file_exists output_path w && negb (force args))%bool
                     then (count, w)
                     else (S count, print (MsgWouldGenerate filepath) w))
                  assets st)
             categories (count, w) in
  fst r = (count + length wanted)%nat /\
  fs (snd r) = fs w0 /\ requests (snd r) = requests w /\
  trace (snd r)
  = trace w ++ map (fun a => EvPrint (MsgWouldGenerate (fst a))) wanted.
Proof.
  cbv zeta. revert count w.
  induction categories as [|[cat_name assets] categories IH]; intros count w Hfs.
  - simpl. rewrite app_nil_r. repeat split; [lia | exact Hfs].
  - cbn [fold_left].
    destruct (dry_run_assets env args w0 assets count w Hfs)
      as (A1 & A2 & A3 & A4).
    cbv zeta in A1, A2, A3, A4.
    destruct (fold_left _ assets (count, w)) as [count1 w1].
    cbn [fst snd] in *.
    destruct (IH count1 w1 A2) as (B1 & B2 & B3 & B4).
    unfold all_assets. cbn [map snd concat]. fold (all_assets categories).
    rewrite List.filter_app, length_app, map_app.
    rewrite B1, B2, B3, B4, A1, A3, A4, <- app_assoc.
    repeat split; lia.
Qed.

Lemma dry_run_listing_spec (env : Env) (args : Args)
    (categories : list (string * list (string * Spec))) (w : World) :
  fs (dry_run_listing env args categories w) = fs w /\
  requests (dry_run_listing env args categories w) = requests w /\
  trace (dry_run_listing env args categories w)
  = trace w ++ dry_run_lines env args w categories.
Proof.
  unfold dry_run_listing, dry_run_lines.
  destruct (dry_run_categories env args w categories 0
              (print MsgDryRunHeader w) eq_refl) as (H1 & H2 & H3 & H4).
  cbv zeta in H1, H2, H3, H4.
  destruct (fold_left _ categories _) as [count w1].
  cbn [fst snd trace fs requests print emit] in *.
  rewrite H1, H2, H3, H4. cbv zeta. rewrite <- !app_assoc. auto.
Qed.

(** X8. [--dry-run] (without [--list] and [--export-specs]) needs no
    credential, sends no request and writes no file.  It prints the header,
    then, in catalog order, the path of exactly those assets of the selection
    that a generation run would attempt (those whose file is missing, or all
    of them with [--force]), then their number. *)
Theorem dry_run_lists_what_would_be_generated (env : Env) (cat : Catalog)
    (args : Args) (w : World)
    (categories : list (string * list (string * Spec))) :
  select_categories cat args = inr categories ->
  list_ args = false ->
  Py.truthy (export_specs_dir args) = false ->
  dry_run args = true ->
  fst (main env cat args w) = Returned /\
  fs (snd (main env cat args w)) = fs w /\
  requests (snd (main env cat args w)) = requests w /\
  trace (snd (main env cat args w))
  = trace w ++ dry_run_lines env args w categories.
Proof.
  intros Hsel Hlist Hexp Hdry. unfold main.
  rewrite Hsel, Hlist, Hexp, Hdry. cbn [fst snd].
  split; [reflexivity |]. apply dry_run_listing_spec.
Qed.

Lemma dry_run_lists_what_would_be_generated_witness :
  trace (snd (main (demo_env svc_ok None) demo_catalog
                {| list_ := false; category := Some "tiles"%string;
                   force := false; dry_run := true; no_post := false;
                   export_specs_dir := None; delay := inject_Z 1 |}
                {| fs := {[ "assets/tiles/grass_plains.png"%string
                            := ImageData sample_image ]};
                   requests := 0; trace := []; raised := None |}))
  = [ EvPrint MsgDryRunHeader;
      EvPrint (MsgWouldGenerate "tiles/grass_flowers.png");
      EvPrint (MsgWouldGenerateCount 1) ].
Proof.
  destruct (dry_run_lists_what_would_be_generated (demo_env svc_ok None)
              demo_catalog
              {| list_ := false; category := Some "tiles"%string;
                 force := false; dry_run := true; no_post := false;
                 export_specs_dir := None; delay := inject_Z 1 |}
              {| fs := {[ "assets/tiles/grass_plains.png"%string
                          := ImageData sample_image ]};
                 requests := 0; trace := []; raised := None |}
              [("tiles"%string, [grass_plains; grass_flowers])]
              eq_refl eq_refl eq_refl eq_refl) as (_ & _ & _ & Htrace).
  rewrite Htrace. vm_compute. reflexivity.
Defined.

Lemma count_existing_fs (env : Env) (w1 w2 : World)
    (assets : list (string * Spec)) :
  fs w1 = fs w2 -> count_existing env w1 assets = count_existing env w2 assets.
Proof.
  intros Hfs. unfold count_existing. f_equal.
  apply List.filter_ext. intros a. now apply file_exists_fs.
Qed.

Lemma count_existing_all (env : Env) (w : World)
    (categories : list (string * list (string * Spec))) :
  list_sum (map (fun c => count_existing env w (snd c)) categories)
  = count_existing env w (all_assets categories).
Proof.
  unfold all_assets, count_existing.
  induction categories as [|[cat_name assets] categories IH]; simpl;
    [reflexivity |].
  now rewrite List.filter_app, length_app, IH.
Qed.

Lemma count_existing_le (env : Env) (w : World)
    (assets : list (string * Spec)) :
  (count_existing env w assets <= length assets)%nat.
Proof. unfold count_existing. apply List.filter_length_le. Qed.

Lemma list_assets_entries (env : Env) (w0 : World)
    (assets : list (string * Spec)) (w : World) :
  fs w = fs w0 ->
  let w' :=
    fold_left
      (fun w '(filepath, spec) =>
         let dims := physical_properties (subject (marketing_image spec)) in
         let file_exists_ :=
           file_exists (Py.path_join (ASSETS_DIR env) filepath) w in
         print (MsgListEntry file_exists_ filepath
                  (width_px dims) (height_px dims)) w)
      assets w in
  fs w' = fs w0 /\ requests w' = requests w /\
  trace w' = trace w ++ map (list_entry env w0) assets.
Proof.
  cbv zeta. revert w.
  induction assets as [|[filepath spec] assets IH]; intros w Hfs.
  - simpl. now rewrite app_nil_r.
  - cbn [fold_left map].
    match goal with |- context [fold_left _ assets ?w1] =>
      destruct (IH w1 Hfs) as (H1 & H2 & H3) end.
    rewrite H1, H2, H3. cbn [trace requests print emit].
    rewrite <- app_assoc. unfold list_entry at 2. cbn [fst snd].
    now rewrite (file_exists_fs _ w w0 Hfs).
Qed.

Lemma list_assets_spec (env : Env)
    (categories : list (string * list (string * Spec))) (w : World) :
  fs (list_assets env categories w) = fs w /\
  requests (list_assets env categories w) = requests w /\
  trace (list_assets env categories w) = trace w ++ list_lines env w categories.
Proof.
  unfold list_assets, list_lines.
  assert (Hloop : forall (cats : list (string * list (string * Spec))) (w1 : World),
            fs w1 = fs w ->
            let w' :=
              fold_left
                (fun w '(cat_name, assets) =>
                   let w := print (MsgListCategory cat_name (length assets)) w in
                   fold_left
                     (fun w '(filepath, spec) =>
                        let dims :=
                          physical_properties (subject (marketing_image spec)) in
                        let file_exists_ :=
                          file_exists (Py.path_join (ASSETS_DIR env) filepath) w in
                        print (MsgListEntry file_exists_ filepath
                                 (width_px dims) (height_px dims)) w)
                     assets w)
                cats w1 in
            fs w' = fs w /\ requests w' = requests w1 /\
            trace w'
            = trace w1
              ++ flat_map
                   (fun c => EvPrint (MsgListCategory (fst c) (length (snd c)))
                             :: map (list_entry env w) (snd c))
                   cats).
  { induction cats as [|[cat_name assets] cats IH]; intros w1 Hfs; cbv zeta.
    - simpl. now rewrite app_nil_r.
    - cbn [fold_left flat_map fst snd].
      destruct (list_assets_entries env w assets
                  (print (MsgListCategory cat_name (length assets)) w1) Hfs)
        as (A1 & A2 & A3).
      cbv zeta in A1, A2, A3.
      match goal with |- context [fold_left _ cats ?w2] =>
        destruct (IH w2 A1) as (B1 & B2 & B3) end.
      cbv zeta in B1, B2, B3. rewrite B1, B2, B3, A2, A3.
      cbn [trace requests print emit]. rewrite <- !app_assoc. auto. }
  destruct (Hloop categories w eq_refl) as (H1 & H2 & H3).
  cbv zeta in H1, H2, H3. cbv zeta.
  match type of H1 with fs ?x = _ => set (w' := x) in * end.
  cbn [fs requests trace print emit].
  rewrite H2, H3, (count_existing_all env w' categories),
    (count_existing_fs env w' w _ H1), <- app_assoc.
  auto.
Qed.

(** X9. [--list] comes before every other mode and needs no credential.  It
    sends no request and writes no file; it prints, category by category and
    in catalog order, one line per asset with its path, its target size and
    whether its file exists, and it ends with the number of assets and the
    number of existing ones, which is never larger. *)
Theorem list_reports_every_asset (env : Env) (cat : Catalog) (args : Args)
    (w : World) (categories : list (string * list (string * Spec))) :
  select_categories cat args = inr categories ->
  list_ args = true ->
  fst (main env cat args w) = Returned /\
  fs (snd (main env cat args w)) = fs w /\
  requests (snd (main env cat args w)) = requests w /\
  trace (snd (main env cat args w)) = trace w ++ list_lines env w categories /\
  (count_existing env w (all_assets categories) <= total_assets categories)%nat.
Proof.
  intros Hsel Hlist. unfold main. rewrite Hsel, Hlist. cbn [fst snd].
  split; [reflexivity |].
  destruct (list_assets_spec env categories w) as (H1 & H2 & H3).
  repeat split; try assumption.
  rewrite total_assets_all. apply count_existing_le.
Qed.

Lemma list_reports_every_asset_witness :
  trace (snd (main (demo_env svc_ok None) demo_catalog
                {| list_ := true; category := Some "tiles"%string;
                   force := false; dry_run := true; no_post := false;
                   export_specs_dir := Some "out"%string;
                   delay := inject_Z 1 |}
                {| fs := {[ "assets/tiles/grass_plains.png"%string
                            := ImageData sample_image ]};
                   requests := 0; trace := []; raised := None |}))
  = [ EvPrint (MsgListCategory "tiles" 2);
      EvPrint (MsgListEntry true "tiles/grass_plains.png" 48 48);
      EvPrint (MsgListEntry false "tiles/grass_flowers.png" 48 48);
      EvPrint (MsgListTotal 2 1) ].
Proof.
  destruct (list_reports_every_asset (demo_env svc_ok None) demo_catalog
              {| list_ := true; category := Some "tiles"%string;
                 force := false; dry_run := true; no_post := false;
                 export_specs_dir := Some "out"%string;
                 delay := inject_Z 1 |}
              {| fs := {[ "assets/tiles/grass_plains.png"%string
                          := ImageData sample_image ]};
                 requests := 0; trace := []; raised := None |}
              [("tiles"%string, [grass_plains; grass_flowers])]
              eq_refl eq_refl) as (_ & _ & _ & Htrace & _).
  rewrite Htrace. vm_compute. reflexivity.
Defined.

(** ** [--export-specs] *)

Lemma export_assets (cat_dir : string) (assets : list (string * Spec))
    (w : World) :
  let targets :=
    map (fun a => (Py.path_join cat_dir (path_stem (fst a) +:+ ".json"), snd a))
        assets in
  let w' :=
    fold_left
      (fun w '(filepath, spec) =>
         let name := path_stem filepath in
         let spec_path := Py.path_join cat_dir (name +:+ ".json") in
         write_file spec_path (JsonData spec) w)
      assets w in
  fs w' = write_all targets (fs w) /\ requests w' = requests w /\
  trace w' = trace w ++ map (fun t => EvWrite (fst t)) targets.
Proof.
  cbv zeta. revert w.
  induction assets as [|[filepath spec] assets IH]; intros w.
  - simpl. now rewrite app_nil_r.
  - cbn [fold_left map].
    match goal with |- context [fold_left _ assets ?w1] =>
      destruct (IH w1) as (H1 & H2 & H3) end.
    rewrite H1, H2, H3. cbn [fs requests trace write_file fst snd].
    rewrite <- app_assoc. auto.
Qed.

Lemma write_all_app (l1 l2 : list (string * Spec))
    (files : gmap string FileData) :
  write_all (l1 ++ l2) files = write_all l2 (write_all l1 files).
Proof. apply fold_left_app. Qed.

Lemma export_specs_spec (categories : list (string * list (string * Spec)))
    (output_dir : string) (w : World) :
  fs (export_specs categories output_dir w)
  = write_all (export_targets categories output_dir) (fs w) /\
  requests (export_specs categories output_dir w) = requests w /\
  trace (export_specs categories output_dir w)
  = trace w
    ++ map (fun t => EvWrite (fst t)) (export_targets categories output_dir)
    ++ [EvPrint (MsgExported output_dir)].
Proof.
  unfold export_specs.
  assert (Hloop : forall (cats : list (string * list (string * Spec))) (w1 : World),
            let w' :=
              fold_left
                (fun w '(cat_name, assets) =>
                   let cat_dir := Py.path_join output_dir cat_name in
                   fold_left
                     (fun w '(filepath, spec) =>
                        let name := path_stem filepath in
                        let spec_path := Py.path_join cat_dir (name +:+ ".json") in
                        write_file spec_path (JsonData spec) w)
                     assets w)
                cats w1 in
            fs w' = write_all (export_targets cats output_dir) (fs w1) /\
            requests w' = requests w1 /\
            trace w'
            = trace w1
              ++ map (fun t => EvWrite (fst t)) (export_targets cats output_dir)).
  { induction cats as [|[cat_name assets] cats IH]; intros w1; cbv zeta.
    - simpl. now rewrite app_nil_r.
    - cbn [fold_left].
      destruct (export_assets (Py.path_join output_dir cat_name) assets w1)
        as (A1 & A2 & A3).
      cbv zeta in A1, A2, A3.
      match goal with |- context [fold_left _ cats ?w2] =>
        destruct (IH w2) as (B1 & B2 & B3) end.
      cbv zeta in B1, B2, B3. rewrite B1, B2, B3, A1, A2, A3.
      unfold export_targets. cbn [flat_map fst snd].
      rewrite write_all_app, map_app, <- app_assoc. auto. }
  destruct (Hloop categories w) as (H1 & H2 & H3).
  cbv zeta in H1, H2, H3. cbv zeta.
  cbn [fs requests trace print emit].
  rewrite H1, H2, H3, <- app_assoc. auto.
Qed.

Lemma export_targets_length (categories : list (string * list (string * Spec)))
    (output_dir : string) :
  length (export_targets categories output_dir) = total_assets categories.
Proof.
  unfold export_targets, total_assets.
  induction categories as [|[cat_name assets] categories IH]; simpl;
    [reflexivity |].
  now rewrite length_app, length_map, IH.
Qed.

(** X10. [--export-specs DIR] (without [--list]) comes before dry run and
    generation and needs no credential.  It sends no request and writes
    exactly one file per asset of the selection, in catalog order, each at
    [DIR/<category>/<stem of the asset path>.json], with [DIR] as [pathlib]
    shows it; then it reports the directory. *)
Theorem export_writes_one_file_per_asset (env : Env) (cat : Catalog)
    (args : Args) (w : World) (output_dir : string)
    (categories : list (string * list (string * Spec))) :
  select_categories cat args = inr categories ->
  list_ args = false ->
  export_specs_dir args = Some output_dir ->
  output_dir <> ""%string ->
  fst (main env cat args w) = Returned /\
  requests (snd (main env cat args w)) = requests w /\
  trace (snd (main env cat args w))
  = trace w
    ++ map (fun t => EvWrite (fst t))
         (export_targets categories (Py.normalize output_dir))
    ++ [EvPrint (MsgExported (Py.normalize output_dir))] /\
  length (export_targets categories (Py.normalize output_dir))
  = total_assets categories.
Proof.
  intros Hsel Hlist Hdir Hne. unfold main. rewrite Hsel, Hlist, Hdir.
  destruct output_dir as [|x rest]; [congruence |]. cbn [Py.truthy fst snd].
  split; [reflexivity |].
  destruct (export_specs_spec categories (Py.normalize (String x rest)) w)
    as (_ & H2 & H3).
  repeat split; try assumption. apply export_targets_length.
Qed.

Lemma write_all_other (targets : list (string * Spec))
    (files : gmap string FileData) (path : string) :
  ~ In path (map fst targets) ->
  write_all targets files !! path = files !! path.
Proof.
  revert files. induction targets as [|[p s] targets IH]; intros files Hnot.
  - reflexivity.
  - cbn [write_all fold_left fst snd]. fold (write_all targets).
    rewrite IH by (intros Hin; apply Hnot; right; exact Hin).
    apply lookup_insert_ne. intros ->. apply Hnot. now left.
Qed.

(** X11. After [export_specs], when no two assets of the selection are sent
    to the same file (the target paths are pairwise different and have no
    [..] part), the file of every asset holds that asset's spec, and every
    other file holds what it held before: every path, written the way
    [pathlib] shows it and free of [..], that is not an export target. *)
Theorem export_then_read_back
    (categories : list (string * list (string * Spec)))
    (output_dir : string) (w : World) :
  List.NoDup (map fst (export_targets categories output_dir)) ->
  forallb no_dotdot (map fst (export_targets categories output_dir)) = true ->
  (forall (path : string) (spec : Spec),
      In (path, spec) (export_targets categories output_dir) ->
      fs (export_specs categories output_dir w) !! path = Some (JsonData spec)) /\
  (forall path : string,
      canonical path = true ->
      ~ In path (map fst (export_targets categories output_dir)) ->
      fs (export_specs categories output_dir w) !! path = fs w !! path).
Proof.
  intros Hnodup _.
  destruct (export_specs_spec categories output_dir w) as (Hfs & _ & _).
  rewrite Hfs. clear Hfs.
  split; [| intros path _ Hnot; now apply write_all_other].
  generalize (fs w) as files. revert Hnodup.
  induction (export_targets categories output_dir) as [|[p s] targets IH];
    intros Hnodup files path spec Hin.
  - destruct Hin.
  - cbn [map fst] in Hnodup. apply List.NoDup_cons_iff in Hnodup as [Hfresh Hrest].
    cbn [write_all fold_left fst snd]. fold (write_all targets).
    destruct Hin as [Heq | Hin].
    + injection Heq as -> ->.
      rewrite write_all_other by exact Hfresh. apply lookup_insert_eq.
    + apply IH; [exact Hrest | exact Hin].
Qed.

(** With a trailing slash on the directory the targets are the same files. *)
Lemma export_then_read_back_witness :
  fs (export_specs [("tiles"%string, [grass_plains; grass_flowers])] "out/"
        empty_world)
    !! "out/tiles/grass_flowers.json"%string
  = Some (JsonData (snd grass_flowers)).
Proof.
  apply (export_then_read_back [("tiles"%string, [grass_plains; grass_flowers])]
           "out/" empty_world).
  - vm_compute. repeat constructor; simpl; intuition discriminate.
  - vm_compute. reflexivity.
  - vm_compute. right. left. reflexivity.
Defined.

Lemma export_writes_one_file_per_asset_witness :
  requests (snd (main (demo_env svc_ok None) demo_catalog
                   {| list_ := false; category := None; force := false;
                      dry_run := true; no_post := false;
                      export_specs_dir := Some "out"%string;
                      delay := inject_Z 1 |} empty_world))
  = requests empty_world.
Proof.
  apply (export_writes_one_file_per_asset (demo_env svc_ok None) demo_catalog
           {| list_ := false; category := None; force := false;
              dry_run := true; no_post := false;
              export_specs_dir := Some "out"%string;
              delay := inject_Z 1 |} empty_world "out"
           (ALL_CATEGORIES demo_catalog));
    try reflexivity.
  discriminate.
Defined.

Example export_two_tiles :
  writes_of (trace (export_specs [("tiles"%string, [grass_plains; grass_flowers])]
                      "out" empty_world))
  = ["out/tiles/grass_plains.json"; "out/tiles/grass_flowers.json"]%string.
Proof. vm_compute. reflexivity. Qed.

(** ** Paths *)

(** *** Paths *)

Lemma append_inv_head (a x y : string) : a +:+ x = a +:+ y -> x = y.
Proof.
  induction a as [|c a IH]; [auto |].
  rewrite !append_cons. intros H. injection H as H. auto.
Qed.

Lemma has_char_append (c : ascii) (a b : string) :
  has_char c (a +:+ b) = (has_char c a || has_char c b)%bool.
Proof.
  induction a as [|x a IH]; [reflexivity |].
  rewrite append_cons. cbn [has_char]. rewrite IH. now rewrite orb_assoc.
Qed.

Lemma split_slash_nonempty (s : string) : Py.split_slash s <> [].
Proof.
  destruct s as [|c s]; cbn [Py.split_slash]; [discriminate |].
  destruct (Ascii.eqb c "/"); [discriminate |].
  destruct (Py.split_slash s); discriminate.
Qed.

Lemma split_slash_no_slash (x : string) :
  has_char "/" x = false -> Py.split_slash x = [x].
Proof.
  induction x as [|c x IH]; intros H; [reflexivity |].
  cbn [has_char] in H. apply orb_false_elim in H as [Hc Hx].
  cbn [Py.split_slash]. rewrite Hc, (IH Hx). reflexivity.
Qed.

Lemma split_slash_app (a b : string) :
  Py.split_slash (a +:+ "/" +:+ b) = Py.split_slash a ++ Py.split_slash b.
Proof.
  induction a as [|c a IH].
  - change ("" +:+ "/" +:+ b) with (String "/" b). reflexivity.
  - rewrite append_cons. cbn [Py.split_slash]. rewrite IH.
    destruct (Ascii.eqb c "/"); [reflexivity |].
    pose proof (split_slash_nonempty a) as Hne.
    destruct (Py.split_slash a) as [|x xs]; [congruence | reflexivity].
Qed.

Lemma split_slash_parts (s : string) :
  Forall (fun x => has_char "/" x = false) (Py.split_slash s).
Proof.
  induction s as [|c s IH]; cbn [Py.split_slash].
  - repeat constructor.
  - destruct (Ascii.eqb c "/") eqn:Hc; [constructor; [reflexivity | exact IH] |].
    destruct (Py.split_slash s) as [|x xs]; [repeat constructor; cbn; now rewrite Hc |].
    inversion IH as [|? ? Hx Hxs]; subst.
    constructor; [cbn [has_char]; now rewrite Hc, Hx | exact Hxs].
Qed.

Lemma join_cons (x y : string) (l : list string) :
  Py.join "/" (x :: y :: l) = x +:+ "/" +:+ Py.join "/" (y :: l).
Proof. reflexivity. Qed.

Lemma join_app (l1 l2 : list string) :
  l1 <> [] -> l2 <> [] ->
  Py.join "/" (l1 ++ l2) = Py.join "/" l1 +:+ "/" +:+ Py.join "/" l2.
Proof.
  intros H1 H2. induction l1 as [|x l1 IH]; [congruence |].
  destruct l1 as [|y l1].
  - destruct l2 as [|z l2]; [congruence | reflexivity].
  - change ((x :: y :: l1) ++ l2) with (x :: y :: (l1 ++ l2)).
    rewrite !join_cons.
    change (y :: l1 ++ l2) with ((y :: l1) ++ l2).
    rewrite IH by discriminate. now rewrite !append_assoc.
Qed.

Lemma split_join (l : list string) :
  l <> [] -> Forall (fun x => has_char "/" x = false) l ->
  Py.split_slash (Py.join "/" l) = l.
Proof.
  intros Hne Hall. induction l as [|x l IH]; [congruence |].
  inversion Hall as [|? ? Hx Hl]; subst.
  destruct l as [|y l].
  - now apply split_slash_no_slash.
  - rewrite join_cons, split_slash_app, (split_slash_no_slash x Hx).
    rewrite IH; [reflexivity | discriminate | exact Hl].
Qed.

Lemma path_parts_good (s : string) : Forall good_part (Py.path_parts s).
Proof.
  unfold Py.path_parts. apply List.Forall_forall. intros x Hx.
  apply List.filter_In in Hx as [Hin Hpart].
  split; [| exact Hpart].
  pose proof (split_slash_parts s) as Hall.
  rewrite List.Forall_forall in Hall. now apply Hall.
Qed.

Lemma path_parts_app (a b : string) :
  Py.path_parts (a +:+ "/" +:+ b) = Py.path_parts a ++ Py.path_parts b.
Proof.
  unfold Py.path_parts. now rewrite split_slash_app, List.filter_app.
Qed.

Lemma path_parts_empty : Py.path_parts "" = [].
Proof. reflexivity. Qed.

Lemma path_parts_slash (s : string) :
  Py.path_parts (String "/" s) = Py.path_parts s.
Proof. reflexivity. Qed.

Lemma filter_all {A : Type} (f : A -> bool) (l : list A) :
  Forall (fun x => f x = true) l -> List.filter f l = l.
Proof.
  induction 1 as [|x l Hx Hl IH]; [reflexivity |].
  cbn [List.filter]. now rewrite Hx, IH.
Qed.

Lemma path_parts_join (l : list string) :
  Forall good_part l -> Py.path_parts (Py.join "/" l) = l.
Proof.
  intros Hall. destruct l as [|x l]; [reflexivity |].
  unfold Py.path_parts. rewrite split_join.
  - apply filter_all. eapply Forall_impl; [exact Hall |]. now intros y [_ Hy].
  - discriminate.
  - eapply Forall_impl; [exact Hall |]. now intros y [Hy _].
Qed.

(** A good part starts with a character that is no slash. *)
Lemma good_part_head (x : string) :
  good_part x -> exists c rest, x = String c rest /\ Ascii.eqb c "/" = false.
Proof.
  intros [Hs Hp]. destruct x as [|c rest]; [discriminate Hp |].
  cbn [has_char] in Hs. apply orb_false_elim in Hs as [Hc _]. eauto.
Qed.

Lemma join_head (l : list string) :
  l <> [] -> Forall good_part l ->
  exists c rest, Py.join "/" l = String c rest /\ Ascii.eqb c "/" = false.
Proof.
  intros Hne Hall. destruct l as [|x l]; [congruence |].
  inversion Hall as [|? ? Hx Hl]; subst.
  destruct (good_part_head x Hx) as (c & rest & -> & Hc).
  destruct l as [|y l]; [eauto |].
  rewrite join_cons, append_cons. eauto.
Qed.

Lemma is_plain_spec (r : string) :
  is_plain r = true ->
  r = Py.join "/" (Py.path_parts r) /\
  Py.path_parts r <> [] /\
  exists c rest, r = String c rest /\ Ascii.eqb c "/" = false.
Proof.
  unfold is_plain. intros H. apply andb_prop in H as [Heq Hne].
  apply String.eqb_eq in Heq. apply negb_true_iff in Hne.
  apply String.eqb_neq in Hne.
  assert (Hparts : Py.path_parts r <> []).
  { intros Hnil. rewrite Hnil in Heq. cbn in Heq. congruence. }
  split; [now symmetry |]. split; [exact Hparts |].
  destruct (join_head (Py.path_parts r) Hparts (path_parts_good r))
    as (c & rest & Hj & Hc).
  exists c, rest. split; [congruence | exact Hc].
Qed.

Lemma starts_with_slash_head (c : ascii) (rest : string) :
  Ascii.eqb c "/" = false -> Py.starts_with_slash (String c rest) = false.
Proof. auto. Qed.

Lemma ends_with_slash_app (d : string) :
  Py.ends_with_slash d = true -> exists d', d = d' +:+ "/".
Proof.
  induction d as [|c d IH]; [discriminate |].
  destruct d as [|c2 d].
  - cbn [Py.ends_with_slash]. intros H. apply Ascii.eqb_eq in H. subst c.
    exists ""%string. reflexivity.
  - intros H. destruct (IH H) as (d' & Hd'). exists (String c d').
    rewrite append_cons. now rewrite <- Hd'.
Qed.

(** What [os.path.join] puts in front of a relative right operand. *)
Lemma os_path_join_rel (d r : string) :
  Py.starts_with_slash r = false ->
  Py.os_path_join d r
  = (if (String.eqb d "" || Py.ends_with_slash d)%bool then d else d +:+ "/")
    +:+ r.
Proof.
  intros Hr. unfold Py.os_path_join. rewrite Hr.
  destruct (String.eqb d "" || Py.ends_with_slash d)%bool; [reflexivity |].
  now rewrite append_assoc.
Qed.

Lemma os_path_join_parts (d r : string) :
  Py.starts_with_slash r = false ->
  Py.path_parts (Py.os_path_join d r) = Py.path_parts d ++ Py.path_parts r.
Proof.
  intros Hr. unfold Py.os_path_join. rewrite Hr.
  destruct (String.eqb d "") eqn:Hd.
  - apply String.eqb_eq in Hd. subst d. reflexivity.
  - cbn [orb]. destruct (Py.ends_with_slash d) eqn:He.
    + destruct (ends_with_slash_app d He) as (d' & ->).
      rewrite append_assoc, path_parts_app.
      change (d' +:+ "/") with (d' +:+ "/" +:+ "").
      rewrite path_parts_app.
      change (Py.path_parts "") with (@nil string).
      now rewrite app_nil_r.
    + apply path_parts_app.
Qed.

Lemma leading_slashes_app_head (a : string) (c1 c2 : ascii) (r1 r2 : string) :
  Ascii.eqb c1 "/" = false -> Ascii.eqb c2 "/" = false ->
  Py.leading_slashes (a +:+ String c1 r1)
  = Py.leading_slashes (a +:+ String c2 r2).
Proof.
  intros H1 H2. induction a as [|x a IH].
  - change ("" +:+ String c1 r1) with (String c1 r1).
    change ("" +:+ String c2 r2) with (String c2 r2).
    cbn [Py.leading_slashes]. now rewrite H1, H2.
  - rewrite !append_cons. cbn [Py.leading_slashes]. now rewrite IH.
Qed.

(** The root of a join does not depend on the relative operand. *)
Lemma os_path_join_root (d r1 r2 : string) :
  is_plain r1 = true -> is_plain r2 = true ->
  Py.path_root (Py.os_path_join d r1) = Py.path_root (Py.os_path_join d r2).
Proof.
  intros H1 H2.
  destruct (is_plain_spec r1 H1) as (_ & _ & c1 & rest1 & -> & Hc1).
  destruct (is_plain_spec r2 H2) as (_ & _ & c2 & rest2 & -> & Hc2).
  rewrite !os_path_join_rel by now apply starts_with_slash_head.
  unfold Py.path_root.
  now rewrite (leading_slashes_app_head _ c1 c2 rest1 rest2 Hc1 Hc2).
Qed.

Lemma path_str_parts (root x : string) (l : list string) :
  Py.path_str root (x :: l) = root +:+ Py.join "/" (x :: l).
Proof. unfold Py.path_str. now destruct root. Qed.

(** The normal form of [dir / rel] for a plain [rel]. *)
Lemma path_join_normal (d r : string) :
  is_plain r = true ->
  Py.path_join d r
  = Py.path_root (Py.os_path_join d r)
    +:+ Py.join "/" (Py.path_parts d ++ Py.path_parts r).
Proof.
  intros Hr. destruct (is_plain_spec r Hr) as (_ & Hne & c & rest & Heq & Hc).
  unfold Py.path_join, Py.normalize.
  rewrite os_path_join_parts by (rewrite Heq; now apply starts_with_slash_head).
  destruct (Py.path_parts d ++ Py.path_parts r) as [|x l] eqn:Hl.
  - apply app_eq_nil in Hl as [_ Hl]. congruence.
  - apply path_str_parts.
Qed.

Lemma path_join_inj (dir a b : string) :
  is_plain a = true -> is_plain b = true ->
  Py.path_join dir a = Py.path_join dir b -> a = b.
Proof.
  intros Ha Hb. rewrite (path_join_normal dir a Ha), (path_join_normal dir b Hb).
  rewrite (os_path_join_root dir a b Ha Hb). intros H.
  apply append_inv_head in H.
  apply (f_equal Py.path_parts) in H.
  rewrite !path_parts_join in H
    by (apply Forall_app; split; apply path_parts_good).
  apply app_inv_head in H.
  destruct (is_plain_spec a Ha) as (-> & _). destruct (is_plain_spec b Hb) as (-> & _).
  now rewrite H.
Qed.

Lemma NoDup_map_path_join (dir : string) (l : list string) :
  forallb is_plain l = true -> List.NoDup l ->
  List.NoDup (map (Py.path_join dir) l).
Proof.
  intros Hplain Hnd. induction Hnd as [|x l Hx Hl IH]; [constructor |].
  cbn [forallb] in Hplain. apply andb_prop in Hplain as [Hpx Hpl].
  cbn [map]. constructor; [| now apply IH].
  intros Hin. apply in_map_iff in Hin as (y & Hy & Hin).
  apply path_join_inj in Hy.
  - subst y. contradiction.
  - rewrite forallb_forall in Hpl. now apply Hpl.
  - exact Hpx.
Qed.

Lemma is_plain_join (c f : string) :
  is_plain c = true -> is_plain f = true ->
  is_plain (c +:+ "/" +:+ f) = true /\
  Py.path_parts (c +:+ "/" +:+ f) = Py.path_parts c ++ Py.path_parts f.
Proof.
  intros Hc Hf.
  destruct (is_plain_spec c Hc) as (Hceq & Hcne & cc & crest & Hchead & _).
  destruct (is_plain_spec f Hf) as (Hfeq & Hfne & _).
  split; [| apply path_parts_app].
  unfold is_plain. rewrite path_parts_app, join_app by assumption.
  rewrite <- Hceq, <- Hfeq, String.eqb_refl. cbn [andb].
  rewrite Hchead, append_cons. reflexivity.
Qed.

Lemma path_root_cases (s : string) :
  Py.path_root s = ""%string \/ Py.path_root s = "/"%string
  \/ Py.path_root s = "//"%string.
Proof.
  unfold Py.path_root. destruct (Py.leading_slashes s) as [|[|[|n]]]; auto.
Qed.

(** Parsing a path that is shown in normal form gives its root and parts
    back, also with something appended behind a last part. *)
Lemma normal_form_parsed (root : string) (l : list string) (t : string) :
  root = ""%string \/ root = "/"%string \/ root = "//"%string ->
  l <> [] -> Forall good_part l ->
  Py.path_parts (root +:+ Py.join "/" l) = l /\
  Py.path_root ((root +:+ Py.join "/" l) +:+ t) = root.
Proof.
  intros Hroot Hne Hall.
  destruct (join_head l Hne Hall) as (c & rest & Hj & Hc).
  split.
  - destruct Hroot as [-> | [-> | ->]].
    + change ("" +:+ Py.join "/" l) with (Py.join "/" l).
      now apply path_parts_join.
    + change ("/" +:+ Py.join "/" l) with (String "/" (Py.join "/" l)).
      rewrite path_parts_slash. now apply path_parts_join.
    + change ("//" +:+ Py.join "/" l)
        with (String "/" (String "/" (Py.join "/" l))).
      rewrite !path_parts_slash. now apply path_parts_join.
  - rewrite Hj. unfold Py.path_root.
    destruct Hroot as [-> | [-> | ->]].
    + change (("" +:+ String c rest) +:+ t) with (String c (rest +:+ t)).
      cbn [Py.leading_slashes]. now rewrite Hc.
    + change (("/" +:+ String c rest) +:+ t)
        with (String "/" (String c (rest +:+ t))).
      cbn [Py.leading_slashes]. now rewrite Ascii.eqb_refl, Hc.
    + change (("//" +:+ String c rest) +:+ t)
        with (String "/" (String "/" (String c (rest +:+ t)))).
      cbn [Py.leading_slashes]. now rewrite Ascii.eqb_refl, Hc.
Qed.

(** Joining twice is joining once with the two operands put together. *)
Lemma path_join_assoc (d c f : string) :
  is_plain c = true -> is_plain f = true ->
  Py.path_join (Py.path_join d c) f = Py.path_join d (c +:+ "/" +:+ f).
Proof.
  intros Hc Hf.
  destruct (is_plain_join c f Hc Hf) as (Hcf & Hparts).
  destruct (is_plain_spec c Hc) as (_ & Hcne & _).
  destruct (is_plain_spec f Hf) as (_ & Hfne & cf & frest & Hfhead & Hfc).
  rewrite (path_join_normal d (c +:+ "/" +:+ f) Hcf), Hparts.
  rewrite (os_path_join_root d (c +:+ "/" +:+ f) c Hcf Hc).
  rewrite (path_join_normal d c Hc).
  set (root := Py.path_root (Py.os_path_join d c)).
  set (l := Py.path_parts d ++ Py.path_parts c).
  assert (Hl : l <> []).
  { subst l. intros H. apply app_eq_nil in H as [_ H]. congruence. }
  assert (Hgood : Forall good_part l).
  { subst l. apply Forall_app; split; apply path_parts_good. }
  assert (Hroot : root = ""%string \/ root = "/"%string \/ root = "//"%string)
    by apply path_root_cases.
  set (s := root +:+ Py.join "/" l).
  unfold Py.path_join at 1. unfold Py.normalize.
  rewrite os_path_join_parts
    by (rewrite Hfhead; now apply starts_with_slash_head).
  rewrite os_path_join_rel
    by (rewrite Hfhead; now apply starts_with_slash_head).
  destruct (normal_form_parsed root l "" Hroot Hl Hgood) as (Hp & _).
  fold s in Hp. rewrite Hp.
  assert (Hr : Py.path_root
                 ((if (String.eqb s "" || Py.ends_with_slash s)%bool
                   then s else s +:+ "/") +:+ f) = root).
  { destruct (String.eqb s "" || Py.ends_with_slash s)%bool.
    - apply (normal_form_parsed root l f Hroot Hl Hgood).
    - rewrite append_assoc.
      apply (normal_form_parsed root l ("/" +:+ f) Hroot Hl Hgood). }
  rewrite Hr.
  destruct (l ++ Py.path_parts f) as [|x xs] eqn:Hlf.
  - apply app_eq_nil in Hlf as [Hlf _]. congruence.
  - rewrite path_str_parts. subst l. now rewrite <- Hlf, <- app_assoc.
Qed.

(** The name of a path that ends in a good part. *)
Lemma path_name_last (pre x : string) :
  good_part x -> Py.path_name (pre +:+ "/" +:+ x) = x.
Proof.
  intros [Hs Hp]. unfold Py.path_name. rewrite path_parts_app.
  unfold Py.path_parts at 2. rewrite (split_slash_no_slash x Hs).
  cbn [List.filter]. rewrite Hp. apply last_last.
Qed.

Lemma last_dot_none (s : string) (i : nat) (found : option nat) :
  has_char "." s = false -> last_dot s i found = found.
Proof.
  revert i found. induction s as [|c s IH]; intros i found H; [reflexivity |].
  cbn [has_char] in H. apply orb_false_elim in H as [Hc Hs].
  cbn [last_dot]. rewrite Hc. now apply IH.
Qed.

Lemma last_dot_suffix (name ext : string) (i : nat) (found : option nat) :
  has_char "." ext = false ->
  last_dot (name +:+ "." +:+ ext) i found = Some (i + String.length name)%nat.
Proof.
  intros Hext. revert i found. induction name as [|c name IH]; intros i found.
  - change ("" +:+ "." +:+ ext) with (String "." ext).
    cbn [last_dot]. rewrite Ascii.eqb_refl.
    rewrite last_dot_none by exact Hext. simpl. f_equal. lia.
  - rewrite append_cons. cbn [last_dot]. rewrite IH. simpl. f_equal. lia.
Qed.

Lemma length_append (a b : string) :
  String.length (a +:+ b) = (String.length a + String.length b)%nat.
Proof.
  induction a as [|c a IH]; [reflexivity |].
  rewrite append_cons. simpl. now rewrite IH.
Qed.

Lemma substring_prefix (a b : string) :
  String.substring 0 (String.length a) (a +:+ b) = a.
Proof.
  induction a as [|c a IH].
  - simpl. destruct b; reflexivity.
  - rewrite append_cons. simpl. now rewrite IH.
Qed.

Lemma good_part_file (name ext : string) :
  has_char "/" name = false -> has_char "/" ext = false ->
  name <> ""%string ->
  good_part (name +:+ "." +:+ ext).
Proof.
  intros Hn He Hname. split.
  - rewrite !has_char_append, Hn, He. reflexivity.
  - destruct name as [|c name]; [congruence |].
    rewrite append_cons. unfold Py.is_part. cbn [String.eqb negb andb].
    destruct (Ascii.eqb c "."); [| reflexivity].
    destruct name; reflexivity.
Qed.

(** The stem of [dir/name.ext]. *)
Lemma path_stem_of_file (dir name ext : string) :
  has_char "/" name = false -> has_char "/" ext = false ->
  has_char "." ext = false ->
  name <> ""%string -> ext <> ""%string ->
  path_stem (dir +:+ "/" +:+ name +:+ "." +:+ ext) = name.
Proof.
  intros Hn He Hd Hname Hext. unfold path_stem.
  rewrite path_name_last by now apply good_part_file.
  rewrite last_dot_suffix by exact Hd. cbn [Nat.add].
  change ("." +:+ ext) with (String "." ext).
  rewrite length_append. cbn [String.length].
  assert (H1 : (0 <? String.length name)%nat = true).
  { apply Nat.ltb_lt. destruct name; [congruence | simpl; lia]. }
  assert (H2 : (S (String.length name)
                <? String.length name + S (String.length ext))%nat = true).
  { apply Nat.ltb_lt. destruct ext; [congruence | simpl; lia]. }
  rewrite H1, H2. cbn [andb]. apply substring_prefix.
Qed.

(** Joining onto a directory that is written in normal form, and is not
    just a root or the empty path, puts one slash in between. *)
Lemma path_join_literal (d r : string) :
  Py.normalize d = d -> Py.path_parts d <> [] -> is_plain r = true ->
  Py.path_join d r = d +:+ "/" +:+ r.
Proof.
  intros Hd Hne Hr.
  destruct (is_plain_spec r Hr) as (Hreq & Hrne & c & rest & Hhead & Hc).
  rewrite (path_join_normal d r Hr).
  assert (Hform : d = Py.path_root d +:+ Py.join "/" (Py.path_parts d)).
  { rewrite <- Hd at 1. unfold Py.normalize.
    destruct (Py.path_parts d) as [|x l]; [congruence | apply path_str_parts]. }
  assert (Hroot : Py.path_root (Py.os_path_join d r) = Py.path_root d).
  { rewrite os_path_join_rel by (rewrite Hhead; now apply starts_with_slash_head).
    destruct (String.eqb d "" || Py.ends_with_slash d)%bool.
    - rewrite Hform at 1.
      apply (normal_form_parsed _ _ r (path_root_cases d) Hne (path_parts_good d)).
    - rewrite append_assoc. rewrite Hform at 1.
      apply (normal_form_parsed _ _ ("/" +:+ r) (path_root_cases d) Hne
               (path_parts_good d)). }
  rewrite Hroot, join_app by assumption.
  rewrite <- Hreq, <- append_assoc, <- Hform. reflexivity.
Qed.

Lemma is_plain_file (name : string) :
  has_char "/" name = false -> name <> ""%string ->
  is_plain (name +:+ ".json") = true.
Proof.
  intros Hn Hname.
  pose proof (good_part_file name "json" Hn eq_refl Hname) as [Hs Hp].
  change (name +:+ ".json") with (name +:+ "." +:+ "json").
  unfold is_plain, Py.path_parts.
  rewrite (split_slash_no_slash _ Hs). cbn [List.filter]. rewrite Hp.
  cbn [Py.join String.concat]. rewrite String.eqb_refl. cbn [andb].
  destruct name; [congruence | reflexivity].
Qed.

(** X12. Where a spec is exported to: the asset [<sub>/<name>.<ext>] of
    category [c] goes to [DIR / c / "<name>.json"]: its directory part and its
    suffix are dropped ([name] and [ext] free of slashes and not empty, [ext]
    free of dots).  For a directory and a category written in normal form
    that path reads [DIR/c/<name>.json]. *)
Theorem export_target_of_asset
    (categories : list (string * list (string * Spec)))
    (output_dir cat_name sub name ext : string)
    (assets : list (string * Spec)) (spec : Spec) :
  In (cat_name, assets) categories ->
  In (sub +:+ "/" +:+ name +:+ "." +:+ ext, spec) assets ->
  has_char "/" name = false -> has_char "/" ext = false ->
  has_char "." ext = false ->
  name <> ""%string -> ext <> ""%string ->
  In (Py.path_join (Py.path_join output_dir cat_name) (name +:+ ".json"), spec)
     (export_targets categories output_dir) /\
  (Py.normalize output_dir = output_dir -> Py.path_parts output_dir <> [] ->
   is_plain cat_name = true ->
   Py.path_join (Py.path_join output_dir cat_name) (name +:+ ".json")
   = output_dir +:+ "/" +:+ cat_name +:+ "/" +:+ name +:+ ".json").
Proof.
  intros Hcat Hasset Hn He Hd Hname Hext. split.
  - unfold export_targets.
    apply in_flat_map. exists (cat_name, assets). split; [exact Hcat |].
    apply in_map_iff. exists (sub +:+ "/" +:+ name +:+ "." +:+ ext, spec).
    split; [| exact Hasset]. cbn [fst snd].
    now rewrite path_stem_of_file by assumption.
  - intros Hnorm Hparts Hplain.
    pose proof (is_plain_file name Hn Hname) as Hfile.
    rewrite path_join_assoc by assumption.
    apply path_join_literal; [assumption | assumption |].
    now apply is_plain_join.
Qed.

Lemma export_target_of_asset_witness :
  In ("out/tiles/grass_plains.json"%string, snd grass_plains)
     (export_targets [("tiles"%string, [grass_plains; grass_flowers])] "out").
Proof.
  destruct (export_target_of_asset
              [("tiles"%string, [grass_plains; grass_flowers])]
              "out" "tiles" "tiles" "grass_plains" "png"
              [grass_plains; grass_flowers] (snd grass_plains))
    as (Hin & Hpath);
    try reflexivity; try discriminate.
  - left. reflexivity.
  - left. reflexivity.
  - rewrite Hpath in Hin; [exact Hin | reflexivity | discriminate | reflexivity].
Defined.

(** ** The background step on byte pictures *)

Lemma alpha_rule_fades (p : Pixel) :
  byte_pixel p ->
  byte_pixel (alpha_rule 240 220 scale_alpha p) /\
  A (alpha_rule 240 220 scale_alpha p) <= A p.
Proof.
  intros (Hr & Hg & Hb & Ha). unfold alpha_rule, byte_pixel, uint8 in *.
  destruct (all_above 240 p); [simpl; lia |].
  destruct (all_above 220 p); [| lia].
  cbn [set_alpha R G B A]. rewrite scale_alpha_floor by exact Ha.
  assert (0 <= 3 * A p / 10) by (apply Z.div_pos; lia).
  assert (3 * A p / 10 <= A p) by (apply Z.div_le_upper_bound; lia).
  lia.
Qed.

(** X13. On a picture whose channels are bytes, the background step of
    [post_process] yields a picture whose channels are bytes, and it never
    makes a pixel more opaque: the new alpha is at most the old one at every
    position. *)
Theorem remove_white_background_only_fades (data : Image) :
  byte_image data ->
  byte_image (remove_white_background data) /\
  Forall2 (Forall2 (fun p q => A q <= A p)) data (remove_white_background data).
Proof.
  intros Hbytes. rewrite remove_white_background_pixelwise.
  unfold byte_image in *.
  induction Hbytes as [|row data Hrow Hdata [IH1 IH2]]; simpl.
  - split; constructor.
  - split; constructor; try assumption.
    + clear - Hrow. induction Hrow as [|p row Hp Hrow IH]; simpl;
        constructor; [now apply alpha_rule_fades | exact IH].
    + clear - Hrow. induction Hrow as [|p row Hp Hrow IH]; simpl;
        constructor; [now apply alpha_rule_fades | exact IH].
Qed.

Lemma sample_image_bytes : byte_image sample_image.
Proof.
  unfold byte_image, sample_image, byte_pixel, uint8.
  repeat constructor; simpl; lia.
Qed.

Lemma remove_white_background_only_fades_witness :
  byte_image (remove_white_background sample_image).
Proof.
  apply (remove_white_background_only_fades sample_image sample_image_bytes).
Defined.

Lemma alpha_rule_constant_idempotent (white near v : Z) (p : Pixel) :
  alpha_rule white near (fun _ => v) (alpha_rule white near (fun _ => v) p)
  = alpha_rule white near (fun _ => v) p.
Proof.
  unfold alpha_rule.
  destruct (all_above white p) eqn:Hw.
  - unfold all_above in *. cbn [set_alpha R G B]. now rewrite Hw.
  - destruct (all_above near p) eqn:Hn.
    + unfold all_above in *. cbn [set_alpha R G B]. now rewrite Hw, Hn.
    + now rewrite Hw, Hn.
Qed.

(** X14. The background step of the tile script is idempotent: applied to its
    own result it changes nothing.  (The one of [generate-world-assets.py] is
    not: it scales the alpha of a near-white pixel again.) *)
Theorem NewTiles_remove_white_background_idempotent (data : Image) :
  NewTiles.remove_white_background (NewTiles.remove_white_background data)
  = NewTiles.remove_white_background data /\
  remove_white_background (remove_white_background [[opaque_grey]])
  <> remove_white_background [[opaque_grey]].
Proof.
  split.
  - rewrite !NewTiles_remove_white_background_pixelwise.
    rewrite map_map. apply map_ext. intros row. rewrite map_map.
    apply map_ext. intros p. apply alpha_rule_constant_idempotent.
  - vm_compute. discriminate.
Qed.

(** ** The credential *)

Lemma lstrip_chars_all (f : ascii -> bool) (a l : list ascii) :
  forallb f a = true ->
  ApiSetup.lstrip_chars f (a ++ l) = ApiSetup.lstrip_chars f l.
Proof.
  induction a as [|c a IH]; intros H; [reflexivity |].
  simpl in H. apply andb_prop in H as [Hc Ha].
  simpl. rewrite Hc. now apply IH.
Qed.

Lemma forallb_rev {T} (f : T -> bool) (l : list T) :
  forallb f (rev l) = forallb f l.
Proof.
  induction l as [|x l IH]; [reflexivity |].
  simpl. rewrite forallb_app, IH. simpl. rewrite andb_true_r. apply andb_comm.
Qed.

(** Stripping removes the padding and stops at a core whose two ends are
    outside the stripped set. *)
Lemma strip_chars_padded (f : ascii -> bool) (a m b : list ascii) :
  forallb f a = true -> forallb f b = true -> edges_outside f m = true ->
  ApiSetup.strip_chars f (a ++ m ++ b) = m.
Proof.
  intros Ha Hb Hm. unfold ApiSetup.strip_chars.
  rewrite lstrip_chars_all by exact Ha.
  destruct m as [|c m].
  - simpl.
    assert (Hall : ApiSetup.lstrip_chars f b = []).
    { rewrite <- (app_nil_r b). rewrite lstrip_chars_all by exact Hb.
      reflexivity. }
    rewrite Hall. reflexivity.
  - unfold edges_outside in Hm.
    destruct (rev (c :: m)) as [|c' r] eqn:Hrev.
    { apply (f_equal (@length ascii)) in Hrev.
      rewrite length_rev in Hrev. discriminate. }
    apply andb_prop in Hm as [Hc Hc'].
    apply negb_true_iff in Hc, Hc'.
    cbn [app ApiSetup.lstrip_chars]. rewrite Hc.
    change (c :: m ++ b) with ((c :: m) ++ b).
    rewrite rev_app_distr, lstrip_chars_all by (now rewrite forallb_rev).
    rewrite Hrev. cbn [ApiSetup.lstrip_chars]. rewrite Hc'.
    rewrite <- Hrev. apply rev_involutive.
Qed.

Lemma find_first_match {T} (p : T -> bool) (before after : list T) (x : T) :
  forallb (fun y => negb (p y)) before = true -> p x = true ->
  List.find p (before ++ x :: after) = Some x.
Proof.
  intros Hb Hx. induction before as [|y before IH]; simpl.
  - now rewrite Hx.
  - simpl in Hb. apply andb_prop in Hb as [Hy Hb].
    apply negb_true_iff in Hy. rewrite Hy. now apply IH.
Qed.

Lemma find_no_match {T} (p : T -> bool) (l : list T) :
  forallb (fun y => negb (p y)) l = true -> List.find p l = None.
Proof.
  induction l as [|y l IH]; intros H; [reflexivity |].
  simpl in H. apply andb_prop in H as [Hy Hl].
  apply negb_true_iff in Hy. simpl. rewrite Hy. now apply IH.
Qed.

(** X15. Where the credential comes from: a non-empty value in the
    environment is taken as it is and the [.env] file is not looked at;
    without one, and without a [.env] file or with one that has no line
    starting with [GEMINI_API_KEY=], the credential stays absent. *)
Theorem api_key_environment_first (environ : option string)
    (env_file : option (list string)) :
  (Py.truthy environ = true ->
     ApiSetup.load_api_key environ env_file = environ) /\
  (Py.truthy environ = false ->
   match env_file with
   | Some lines =>
       forallb (fun l => negb (ApiSetup.is_key_line l)) lines = true
   | None => True
   end ->
     Py.truthy (ApiSetup.load_api_key environ env_file) = false).
Proof.
  unfold ApiSetup.load_api_key. split; intros Henv.
  - now rewrite Henv.
  - rewrite Henv. destruct env_file as [lines|]; intros Hfile;
      [| exact Henv].
    now rewrite (find_no_match _ _ Hfile).
Qed.

Lemma api_key_environment_first_witness :
  ApiSetup.load_api_key (Some "abc"%string)
    (Some ["GEMINI_API_KEY=xyz"%string])
  = Some "abc"%string.
Proof.
  apply (api_key_environment_first (Some "abc"%string)
           (Some ["GEMINI_API_KEY=xyz"%string])).
  reflexivity.
Defined.

Lemma prefix_append (a b : string) : String.prefix a (a +:+ b) = true.
Proof.
  induction a as [|c a IH]; [destruct b; reflexivity |].
  rewrite append_cons. simpl.
  destruct (ascii_dec c c) as [_ | Hne]; [exact IH | congruence].
Qed.

Lemma after_first_append (c : ascii) (a rest : string) :
  has_char c a = false ->
  ApiSetup.after_first c (a +:+ String c rest) = Some rest.
Proof.
  induction a as [|x a IH]; intros H.
  - change ("" +:+ String c rest) with (String c rest). simpl.
    now rewrite Ascii.eqb_refl.
  - cbn [has_char] in H. apply orb_false_elim in H as [Hx Ha].
    rewrite append_cons. simpl. rewrite Hx. now apply IH.
Qed.

Lemma list_ascii_of_string_app (a b : string) :
  list_ascii_of_string (a +:+ b)
  = list_ascii_of_string a ++ list_ascii_of_string b.
Proof.
  induction a as [|c a IH]; [reflexivity |].
  rewrite append_cons. simpl. now rewrite IH.
Qed.

Lemma edges_outside_weaken (f g : ascii -> bool) (l : list ascii) :
  (forall c, g c = true -> f c = true) ->
  edges_outside f l = true -> edges_outside g l = true.
Proof.
  intros Hsub. unfold edges_outside.
  destruct l as [|c l]; [reflexivity |].
  destruct (rev (c :: l)) as [|c' r]; [reflexivity |].
  intros H. apply andb_prop in H as [Hc Hc'].
  apply negb_true_iff in Hc, Hc'.
  destruct (g c) eqn:Gc; [rewrite (Hsub _ Gc) in Hc; discriminate |].
  destruct (g c') eqn:Gc'; [rewrite (Hsub _ Gc') in Hc'; discriminate |].
  reflexivity.
Qed.

Lemma edges_outside_wrapped (f : ascii -> bool) (c : ascii) (l : list ascii) :
  f c = false -> edges_outside f (c :: l ++ [c]) = true.
Proof.
  intros Hc. unfold edges_outside.
  change (c :: l ++ [c]) with ((c :: l) ++ [c]).
  rewrite rev_app_distr. simpl. now rewrite Hc.
Qed.

Lemma strip_chars_wrapped (c : ascii) (m : list ascii) :
  edges_outside (Ascii.eqb c) m = true ->
  ApiSetup.strip_chars (Ascii.eqb c) (c :: m ++ [c]) = m.
Proof.
  intros Hm.
  apply (strip_chars_padded (Ascii.eqb c) [c] m [c]); simpl;
    rewrite ?Ascii.eqb_refl; auto.
Qed.

Lemma strip_chars_bare (f : ascii -> bool) (m : list ascii) :
  edges_outside f m = true -> ApiSetup.strip_chars f m = m.
Proof.
  intros Hm. pose proof (strip_chars_padded f [] m [] eq_refl eq_refl Hm) as H.
  now rewrite app_nil_r in H.
Qed.

(** X16. Reading the credential from the [.env] file: when the environment
    has none, the first line that starts with [GEMINI_API_KEY=] decides and
    the lines after it are not read; of its value, surrounding white space,
    then surrounding double quotes, then surrounding single quotes are
    removed.  So
    the lines [GEMINI_API_KEY=k], [GEMINI_API_KEY="k"] and [GEMINI_API_KEY='k'],
    with any padding around, all give [k], for a [k] that neither starts nor
    ends with white space or a quote. *)
Theorem api_key_from_env_file (environ : option string)
    (before after : list string) (pad1 pad2 q key : string) :
  Py.truthy environ = false ->
  forallb (fun l => negb (ApiSetup.is_key_line l)) before = true ->
  q = ""%string \/ q = String ApiSetup.dquote "" \/ q = "'"%string ->
  forallb ApiSetup.is_space (list_ascii_of_string pad1) = true ->
  forallb ApiSetup.is_space (list_ascii_of_string pad2) = true ->
  edges_outside quote_or_space (list_ascii_of_string key) = true ->
  ApiSetup.load_api_key environ
    (Some (before
           ++ ("GEMINI_API_KEY=" +:+ pad1 +:+ q +:+ key +:+ q +:+ pad2)
           :: after))
  = Some key.
Proof.
  intros Henv Hbefore Hq Hp1 Hp2 Hkey.
  unfold ApiSetup.load_api_key. rewrite Henv.
  rewrite (find_first_match ApiSetup.is_key_line before after _ Hbefore)
    by apply prefix_append.
  change ("GEMINI_API_KEY=" +:+ pad1 +:+ q +:+ key +:+ q +:+ pad2)
    with ("GEMINI_API_KEY" +:+ String "=" (pad1 +:+ q +:+ key +:+ q +:+ pad2)).
  rewrite after_first_append by reflexivity.
  f_equal. unfold ApiSetup.strip, ApiSetup.strip_char.
  rewrite !list_ascii_of_string_of_list_ascii.
  rewrite !list_ascii_of_string_app.
  set (k := list_ascii_of_string key) in *.
  assert (Hspace : edges_outside ApiSetup.is_space k = true).
  { apply (edges_outside_weaken quote_or_space); [| exact Hkey].
    intros c Hc. unfold quote_or_space. now rewrite Hc. }
  assert (Hdq : edges_outside (Ascii.eqb ApiSetup.dquote) k = true).
  { apply (edges_outside_weaken quote_or_space); [| exact Hkey].
    intros c Hc. unfold quote_or_space. rewrite Hc. now rewrite orb_true_r. }
  assert (Hsq : edges_outside (Ascii.eqb "'") k = true).
  { apply (edges_outside_weaken quote_or_space); [| exact Hkey].
    intros c Hc. unfold quote_or_space. rewrite Hc. now rewrite orb_true_r. }
  rewrite <- (string_of_list_ascii_of_string key). fold k. f_equal.
  assert (Hshape : forall (c : ascii) (l : list ascii),
            [c] ++ k ++ [c] ++ l = (c :: k ++ [c]) ++ l).
  { intros c l. simpl. now rewrite <- app_assoc. }
  destruct Hq as [-> | [-> | ->]]; cbn [list_ascii_of_string];
    rewrite ?Hshape.
  - cbn [app].
    rewrite (strip_chars_padded ApiSetup.is_space _ k _ Hp1 Hp2 Hspace).
    rewrite (strip_chars_bare _ k Hdq). exact (strip_chars_bare _ k Hsq).
  - rewrite (strip_chars_padded ApiSetup.is_space _
               (ApiSetup.dquote :: k ++ [ApiSetup.dquote]) _
               Hp1 Hp2) by (now apply edges_outside_wrapped).
    rewrite strip_chars_wrapped by exact Hdq.
    now apply strip_chars_bare.
  - rewrite (strip_chars_padded ApiSetup.is_space _ ("'"%char :: k ++ ["'"%char]) _
               Hp1 Hp2) by (now apply edges_outside_wrapped).
    rewrite (strip_chars_bare (Ascii.eqb ApiSetup.dquote))
      by (now apply edges_outside_wrapped).
    now apply strip_chars_wrapped.
Qed.

Lemma api_key_from_env_file_witness :
  ApiSetup.load_api_key None
    (Some ["# local settings"%string;
           ("GEMINI_API_KEY=" +:+ " " +:+ String ApiSetup.dquote "" +:+ "sk-123"
            +:+ String ApiSetup.dquote "" +:+ " ");
           "GEMINI_API_KEY=other"%string])
  = Some "sk-123"%string.
Proof.
  apply (api_key_from_env_file None ["# local settings"%string]
           ["GEMINI_API_KEY=other"%string] " " " "
           (String ApiSetup.dquote "") "sk-123");
    try reflexivity.
  right. left. reflexivity.
Defined.

(** ** The tile script *)

Lemma NoDup_app_disjoint {T} (a b : list T) (x : T) :
  List.NoDup (a ++ b) -> In x a -> In x b -> False.
Proof.
  induction a as [|y a IH]; intros Hnodup Ha Hb; [destruct Ha |].
  simpl in Hnodup. apply List.NoDup_cons_iff in Hnodup as [Hy Hrest].
  destruct Ha as [-> | Ha].
  - apply Hy. apply in_or_app. now right.
  - now apply IH.
Qed.

Lemma NoDup_app_parts {T} (a b : list T) :
  List.NoDup (a ++ b) -> List.NoDup a /\ List.NoDup b.
Proof.
  induction a as [|y a IH]; intros Hnodup; [split; [constructor | exact Hnodup] |].
  simpl in Hnodup. apply List.NoDup_cons_iff in Hnodup as [Hy Hrest].
  destruct (IH Hrest) as [Ha Hb]. split; [| exact Hb].
  constructor; [| exact Ha]. intros Hin. apply Hy. apply in_or_app. now left.
Qed.

Lemma NewTiles_process_tile_step (env : Env) (w : World)
    (out : list NewTilesScript.Line) (tile : string * string) :
  let st' := NewTilesScript.process_tile env (w, out) tile in
  (tile_missing env w tile = false ->
     fst st' = w) /\
  (tile_missing env w tile = true ->
     requests (fst st') = S (requests w) /\
     requests_of (trace (fst st'))
     = requests_of (trace w) ++ [tile_request tile] /\
     sleeps (trace (fst st')) = sleeps (trace w) /\
     (fs (fst st') = fs w \/
      exists img, fs (fst st')
                  = <[tile_path env tile := ImageData (tile_result env img)]>
                      (fs w))).
Proof.
  destruct tile as [filename prompt]. cbv zeta.
  unfold tile_missing, tile_path, tile_request, NewTilesScript.process_tile.
  cbn [fst snd].
  set (path := Py.path_join (NewTilesScript.ASSETS_DIR env) filename).
  destruct (file_exists path w); cbn [negb].
  { split; [reflexivity | discriminate]. }
  split; [discriminate | intros _].
  unfold NewTilesScript.generate_image.
  destruct (generate_content env (requests w) _) as [|parts].
  { cbn [fst snd requests trace fs]. rewrite requests_of_app, sleeps_app.
    simpl. rewrite app_nil_r. auto. }
  destruct (first_inline_data parts) as [img|].
  2:{ cbn [fst snd requests trace fs]. rewrite requests_of_app, sleeps_app.
      simpl. rewrite app_nil_r. auto. }
  unfold NewTilesScript.post_process, tile_result.
  destruct (pil_available env).
  - cbn [fs write_file]. rewrite lookup_insert_eq.
    cbn [fst snd requests trace fs write_file].
    rewrite !requests_of_app, !sleeps_app. simpl. rewrite !app_nil_r.
    repeat split. right. exists img. apply insert_insert_eq.
  - cbn [fst snd requests trace fs write_file].
    rewrite !requests_of_app, !sleeps_app. simpl. rewrite !app_nil_r.
    repeat split. right. exists img. reflexivity.
Qed.

Lemma NewTiles_run_spec (env : Env) (tiles : list (string * string))
    (w : World) (out : list NewTilesScript.Line) :
  List.NoDup (map (tile_path env) tiles) ->
  let w' := fst (NewTilesScript.run env tiles (w, out)) in
  let wanted := List.filter (tile_missing env w) tiles in
  requests w' = (requests w + length wanted)%nat /\
  requests_of (trace w') = requests_of (trace w) ++ map tile_request wanted /\
  sleeps (trace w') = sleeps (trace w) /\
  (forall p : string,
      ~ In p (map (tile_path env) tiles) \/ is_Some (fs w !! p) ->
      fs w' !! p = fs w !! p) /\
  (forall p : string,
      fs w !! p = None ->
      fs w' !! p = None \/
      exists img, fs w' !! p = Some (ImageData (tile_result env img))).
Proof.
  cbv zeta. revert w out.
  induction tiles as [|tile tiles IH]; intros w out Hnodup.
  - simpl. rewrite !app_nil_r. repeat split; auto.
  - cbn [map] in Hnodup. apply List.NoDup_cons_iff in Hnodup as [Hfresh Hrest].
    unfold NewTilesScript.run in *. cbn [fold_left List.filter].
    destruct (NewTiles_process_tile_step env w out tile) as [Hskip Hgen].
    cbv zeta in Hskip, Hgen.
    destruct (NewTilesScript.process_tile env (w, out) tile) as [w1 out1].
    cbn [fst] in Hskip, Hgen.
    destruct (IH w1 out1 Hrest) as (I1 & I2 & I3 & I4 & I5). clear IH.
    assert (Hother : forall p, p <> tile_path env tile -> fs w1 !! p = fs w !! p).
    { intros p Hp. destruct (tile_missing env w tile).
      - destruct (Hgen eq_refl) as (_ & _ & _ & [-> | [img ->]]);
          [reflexivity | now apply lookup_insert_ne].
      - now rewrite (Hskip eq_refl). }
    assert (Hsame : List.filter (tile_missing env w1) tiles
                    = List.filter (tile_missing env w) tiles).
    { apply List.filter_ext_in. intros t Ht. unfold tile_missing, file_exists.
      rewrite Hother; [reflexivity |].
      intros Heq. apply Hfresh. rewrite <- Heq. now apply in_map. }
    rewrite Hsame in I1, I2.
    destruct (tile_missing env w tile) eqn:Hmiss.
    + destruct (Hgen eq_refl) as (G1 & G2 & G3 & G4).
      rewrite I1, I2, I3, G1, G2, G3. cbn [length map].
      rewrite <- app_assoc.
      split; [lia |]. split; [reflexivity |]. split; [reflexivity |].
      split.
      * intros p Hp. rewrite I4.
        -- apply Hother. intros ->.
           destruct Hp as [Hp | Hp]; [apply Hp; now left |].
           unfold tile_missing, file_exists in Hmiss.
           apply negb_true_iff, bool_decide_eq_false in Hmiss. auto.
        -- destruct Hp as [Hp | Hp]; [left; intros Hin; apply Hp; now right |].
           destruct (decide (p = tile_path env tile)) as [-> | Hne].
           ++ left. exact Hfresh.
           ++ right. now rewrite Hother.
      * intros p Hp.
        destruct (decide (p = tile_path env tile)) as [-> | Hne].
        -- rewrite I4 by (left; exact Hfresh).
           destruct G4 as [-> | [img ->]]; [left; exact Hp |].
           right. exists img. apply lookup_insert_eq.
        -- apply I5. now rewrite Hother.
    + rewrite (Hskip eq_refl) in *.
      split; [exact I1 |]. split; [exact I2 |]. split; [exact I3 |].
      split; [| exact I5].
      intros p Hp. apply I4.
      destruct Hp as [Hp | Hp]; [left; intros Hin; apply Hp; now right |].
      now right.
Qed.

Lemma NEW_TILES_paths_distinct (env : Env) :
  List.NoDup (map (tile_path env) NewTilesScript.NEW_TILES).
Proof.
  replace (map (tile_path env) NewTilesScript.NEW_TILES)
    with (map (Py.path_join (NewTilesScript.ASSETS_DIR env))
              (map fst NewTilesScript.NEW_TILES))
    by (now rewrite map_map).
  apply NoDup_map_path_join; [vm_compute; reflexivity |].
  repeat constructor; simpl; intuition discriminate.
Qed.

(** What one turn does for a missing tile is decided by the answer to its
    request. *)
Lemma NewTiles_process_tile_exact (env : Env) (w : World)
    (out : list NewTilesScript.Line) (tile : string * string) :
  tile_missing env w tile = true ->
  fs (fst (NewTilesScript.process_tile env (w, out) tile))
  = match payload (generate_content env (requests w) (tile_request tile)) with
    | Some img => <[tile_path env tile := ImageData (tile_result env img)]> (fs w)
    | None => fs w
    end.
Proof.
  destruct tile as [filename prompt].
  unfold tile_missing, tile_path, tile_request, NewTilesScript.process_tile.
  cbn [fst snd].
  set (path := Py.path_join (NewTilesScript.ASSETS_DIR env) filename).
  destruct (file_exists path w); cbn [negb]; [discriminate | intros _].
  unfold NewTilesScript.generate_image.
  destruct (generate_content env (requests w) _) as [|parts];
    cbn [payload]; [reflexivity |].
  destruct (first_inline_data parts) as [img|]; [| reflexivity].
  unfold NewTilesScript.post_process, tile_result.
  destruct (pil_available env).
  - cbn [fs write_file]. rewrite lookup_insert_eq.
    cbn [fst fs write_file]. apply insert_insert_eq.
  - reflexivity.
Qed.

Lemma NewTiles_run_tile (env : Env) (before after : list (string * string))
    (tile : string * string) (w : World) (out : list NewTilesScript.Line) :
  List.NoDup (map (tile_path env) (before ++ tile :: after)) ->
  fs w !! tile_path env tile = None ->
  fs (fst (NewTilesScript.run env (before ++ tile :: after) (w, out)))
    !! tile_path env tile
  = match payload
            (generate_content env
               (requests w + length (List.filter (tile_missing env w) before))
               (tile_request tile)) with
    | Some img => Some (ImageData (tile_result env img))
    | None => None
    end.
Proof.
  intros Hnodup Hmissing.
  rewrite map_app in Hnodup. cbn [map] in Hnodup.
  pose proof (fun x => NoDup_app_disjoint _ _ x Hnodup) as Hdisj.
  apply NoDup_app_parts in Hnodup as (Hbefore & Hrest).
  apply List.NoDup_cons_iff in Hrest as [Hfresh Hafter].
  unfold NewTilesScript.run. rewrite fold_left_app. cbn [fold_left].
  fold (NewTilesScript.run env before (w, out)).
  destruct (NewTiles_run_spec env before w out Hbefore)
    as (B1 & _ & _ & B4 & _). cbv zeta in B1, B4.
  destruct (NewTilesScript.run env before (w, out)) as [w1 out1].
  cbn [fst] in B1, B4.
  assert (Hnot : ~ In (tile_path env tile) (map (tile_path env) before)).
  { intros Hin. apply (Hdisj _ Hin). now left. }
  assert (Hmiss1 : tile_missing env w1 tile = true).
  { unfold tile_missing, file_exists. rewrite B4 by now left.
    rewrite Hmissing. apply negb_true_iff, bool_decide_eq_false.
    intros [x Hx]. discriminate. }
  pose proof (NewTiles_process_tile_exact env w1 out1 tile Hmiss1) as Hstep.
  destruct (NewTilesScript.process_tile env (w1, out1) tile) as [w2 out2].
  cbn [fst] in Hstep.
  fold (NewTilesScript.run env after (w2, out2)).
  destruct (NewTiles_run_spec env after w2 out2 Hafter)
    as (_ & _ & _ & A4 & _). cbv zeta in A4.
  rewrite A4 by (left; exact Hfresh).
  rewrite B1 in Hstep. rewrite Hstep.
  destruct (payload _) as [img|]; [apply lookup_insert_eq |].
  rewrite B4 by now left. exact Hmissing.
Qed.

Lemma NewTiles_main_world (env : Env) (w : World) :
  fst (NewTilesScript.main env w)
  = fst (NewTilesScript.run env NewTilesScript.NEW_TILES
           (w, [NewTilesScript.LHeader])).
Proof. reflexivity. Qed.

(** X17. The tile script sends exactly one request for each of its four
    tiles whose file is missing when it starts, in the order of [NEW_TILES],
    each with the tile's prompt behind the fixed opening sentence; it sends
    none for a tile that exists, never retries a failed request and never
    waits. *)
Theorem new_tiles_one_request_per_missing_tile (env : Env) (w : World) :
  let w' := fst (NewTilesScript.main env w) in
  let wanted := List.filter (tile_missing env w) NewTilesScript.NEW_TILES in
  requests w' = (requests w + length wanted)%nat /\
  requests_of (trace w') = requests_of (trace w) ++ map tile_request wanted /\
  sleeps (trace w') = sleeps (trace w) /\
  (length wanted <= 4)%nat.
Proof.
  cbv zeta. rewrite NewTiles_main_world.
  destruct (NewTiles_run_spec env NewTilesScript.NEW_TILES w
              [NewTilesScript.LHeader] (NEW_TILES_paths_distinct env))
    as (H1 & H2 & H3 & _).
  repeat split; try assumption.
  apply (List.filter_length_le (tile_missing env w) NewTilesScript.NEW_TILES).
Qed.

(** X18. The tile script leaves alone every file that existed when it
    started, tiles included, and every path that is not one of its four tile
    paths. *)
Theorem new_tiles_leaves_existing_files (env : Env) (w : World) (p : string) :
  ~ In p (map (tile_path env) NewTilesScript.NEW_TILES)
  \/ is_Some (fs w !! p) ->
  fs (fst (NewTilesScript.main env w)) !! p = fs w !! p.
Proof.
  rewrite NewTiles_main_world.
  destruct (NewTiles_run_spec env NewTilesScript.NEW_TILES w
              [NewTilesScript.LHeader] (NEW_TILES_paths_distinct env))
    as (_ & _ & _ & H4 & _).
  apply H4.
Qed.

Lemma new_tiles_leaves_existing_files_witness :
  fs (fst (NewTilesScript.main (demo_env svc_ok (Some "key"%string))
             {| fs := {[ "assets/tiles/tile_snow.png"%string
                         := ImageData sample_image ]};
                requests := 0; trace := []; raised := None |}))
    !! "assets/tiles/tile_snow.png"%string
  = Some (ImageData sample_image).
Proof.
  rewrite (new_tiles_leaves_existing_files (demo_env svc_ok (Some "key"%string))
             {| fs := {[ "assets/tiles/tile_snow.png"%string
                         := ImageData sample_image ]};
                requests := 0; trace := []; raised := None |}
             "assets/tiles/tile_snow.png").
  - vm_compute. reflexivity.
  - right. vm_compute. eauto.
Defined.

(** X19. A tile that was missing when the tile script started is decided by
    the answer to its one request, which comes after one request for each
    missing tile before it: when the answer carries no picture the tile is
    still missing afterwards; otherwise, with Pillow at hand, its file is the
    delivered picture resized and with the background removed, and with a
    resampler that delivers the size it is asked for that is a picture of
    128x128 pixels, whatever size the service delivered. *)
Theorem new_tiles_are_128_square (env : Env) (w : World)
    (before after : list (string * string)) (tile : string * string) :
  (forall (img : Image) (tw th : Z),
      0 < tw -> 0 < th -> img_size (Image_resize env img (tw, th)) = (tw, th)) ->
  pil_available env = true ->
  NewTilesScript.NEW_TILES = before ++ tile :: after ->
  fs w !! tile_path env tile = None ->
  match payload
          (generate_content env
             (requests w + length (List.filter (tile_missing env w) before))
             (tile_request tile)) with
  | None => fs (fst (NewTilesScript.main env w)) !! tile_path env tile = None
  | Some img =>
      fs (fst (NewTilesScript.main env w)) !! tile_path env tile
      = Some (ImageData (NewTiles.post_process_image (Image_resize env) img)) /\
      img_size (NewTiles.post_process_image (Image_resize env) img) = (128, 128)
  end.
Proof.
  intros Hresize Hpil Hsplit Hmissing. rewrite NewTiles_main_world.
  pose proof (NEW_TILES_paths_distinct env) as Hnodup.
  rewrite Hsplit in *.
  rewrite (NewTiles_run_tile env before after tile w [NewTilesScript.LHeader]
             Hnodup Hmissing).
  destruct (payload _) as [img|]; [| reflexivity].
  unfold tile_result. rewrite Hpil. split; [reflexivity |].
  unfold NewTiles.post_process_image. cbv zeta.
  rewrite NewTiles_remove_white_background_pixelwise, img_size_map.
  apply Hresize; lia.
Qed.

Lemma new_tiles_are_128_square_witness :
  fs (fst (NewTilesScript.main (demo_env svc_ok (Some "key"%string)) empty_world))
    !! "assets/tiles/tile_snow.png"%string
  = Some (ImageData (NewTiles.post_process_image resize_flat sample_image)) /\
  img_size (NewTiles.post_process_image resize_flat sample_image) = (128, 128).
Proof.
  exact (new_tiles_are_128_square (demo_env svc_ok (Some "key"%string))
           empty_world
           (firstn 2 NewTilesScript.NEW_TILES)
           (skipn 3 NewTilesScript.NEW_TILES)
           (nth 2 NewTilesScript.NEW_TILES (""%string, ""%string))
           resize_flat_exact eq_refl eq_refl eq_refl).
Defined.

Example new_tiles_run :
  requests (fst (NewTilesScript.main (demo_env svc_third_time (Some "key"%string))
                   empty_world)) = 4%nat /\
  snd (NewTilesScript.main (demo_env svc_third_time (Some "key"%string))
         empty_world)
  = [ NewTilesScript.LHeader;
      NewTilesScript.LError "tile_deep_water.png";
      NewTilesScript.LWarnNoImage "tile_dense_forest.png";
      NewTilesScript.LOk "tile_snow.png";
      NewTilesScript.LPost "tile_snow.png";
      NewTilesScript.LOk "tile_swamp.png";
      NewTilesScript.LPost "tile_swamp.png";
      NewTilesScript.LDone ].
Proof. split; vm_compute; reflexivity. Qed.

(** ** [generate-assets.py] *)

Lemma items_done_nil (env : Env) (p : AssetsScript.Progress) :
  items_done env [] p p.
Proof.
  unfold items_done. simpl. rewrite !app_nil_r.
  repeat split; auto; lia.
Qed.

Lemma items_done_app (env : Env) (l1 l2 : list (string * string))
    (p p1 p2 : AssetsScript.Progress) :
  List.NoDup (map fst (l1 ++ l2)) ->
  items_done env l1 p p1 -> items_done env l2 p1 p2 ->
  items_done env (l1 ++ l2) p p2.
Proof.
  unfold items_done. cbv zeta.
  set (w := fst (AssetsScript.state p)).
  set (w1 := fst (AssetsScript.state p1)).
  set (w2 := fst (AssetsScript.state p2)).
  intros Hnodup (A1 & A2 & A3 & A4 & A5 & A6 & A7 & A8)
         (B1 & B2 & B3 & B4 & B5 & B6 & B7 & B8).
  rewrite map_app in Hnodup.
  assert (Hdisjoint : forall q, In q (map fst l2) -> ~ In q (map fst l1)).
  { intros q H2 H1. exact (NoDup_app_disjoint _ _ q Hnodup H1 H2). }
  assert (Hsame : List.filter (item_missing w1) l2
                  = List.filter (item_missing w) l2).
  { apply List.filter_ext_in. intros it Hit. unfold item_missing, file_exists.
    rewrite A7; [reflexivity |]. left. apply Hdisjoint. now apply in_map. }
  rewrite Hsame in *.
  rewrite List.filter_app, !length_app, map_app.
  split; [lia |]. split; [lia |]. split; [lia |]. split; [lia |].
  split; [rewrite B5, A5; now rewrite <- app_assoc |].
  split; [congruence |].
  split.
  - intros q Hq. rewrite map_app in Hq. rewrite B7, A7; [reflexivity | |].
    + destruct Hq as [Hq | Hq]; [left | now right].
      intros Hin. apply Hq. apply in_or_app. now left.
    + destruct Hq as [Hq | Hq].
      * left. intros Hin. apply Hq. apply in_or_app. now right.
      * destruct (In_dec string_dec q (map fst l1)) as [Hin | Hnot].
        -- left. intros Hin2. exact (Hdisjoint q Hin2 Hin).
        -- right. rewrite A7 by (now left). exact Hq.
  - intros q Hq.
    destruct (A8 q Hq) as [Hnone | (img & k & prompt & Hpay & Hfile)].
    + apply B8. exact Hnone.
    + right. exists img, k, prompt. split; [exact Hpay |].
      rewrite B7; [exact Hfile | right; rewrite Hfile; eauto].
Qed.

Lemma Assets_process_item_done (env : Env) (category_dir : string)
    (p : AssetsScript.Progress) (item : string * string) :
  items_done env [(Py.path_join category_dir (fst item), snd item)] p
    (AssetsScript.process_item env category_dir p item).
Proof.
  destruct item as [filename prompt]. cbn [fst snd].
  unfold items_done, AssetsScript.process_item. cbv zeta.
  set (path := Py.path_join category_dir filename).
  destruct p as [d f [w out]]. cbn [AssetsScript.state AssetsScript.done
    AssetsScript.failed_count fst snd List.filter item_missing].
  unfold item_missing. cbn [fst].
  destruct (file_exists path w) eqn:Hex; cbn [negb].
  - cbn [AssetsScript.state AssetsScript.done AssetsScript.failed_count
         AssetsScript.say fst snd length map].
    rewrite !app_nil_r. repeat split; auto; lia.
  - assert (Hnone : fs w !! path = None).
    { unfold file_exists in Hex. apply bool_decide_eq_false in Hex.
      destruct (fs w !! path); [exfalso; apply Hex; eauto | reflexivity]. }
    unfold AssetsScript.generate_image, item_request. cbn [snd].
    destruct (generate_content env (requests w)
                ("Generate a single game asset image: " +:+ prompt))
      as [|parts] eqn:Hresp.
    { cbn [AssetsScript.state AssetsScript.done AssetsScript.failed_count
           fst snd length map requests trace fs].
      rewrite requests_of_app, sleeps_app. simpl. rewrite app_nil_r.
      repeat split; auto; lia. }
    destruct (first_inline_data parts) as [img|] eqn:Hpart.
    2:{ cbn [AssetsScript.state AssetsScript.done AssetsScript.failed_count
             fst snd length map requests trace fs].
        rewrite requests_of_app, sleeps_app. simpl. rewrite app_nil_r.
        repeat split; auto; lia. }
    cbn [AssetsScript.state AssetsScript.done AssetsScript.failed_count
         fst snd length map requests trace fs write_file].
    rewrite !requests_of_app, !sleeps_app. simpl. rewrite !app_nil_r.
    repeat split; try lia.
    + intros q [Hq | Hq].
      * apply lookup_insert_ne. intros ->. apply Hq. now left.
      * apply lookup_insert_ne. intros ->. rewrite Hnone in Hq.
        destruct Hq as [x Hx]. discriminate.
    + intros q Hq. destruct (decide (q = path)) as [-> | Hne].
      * right. exists img, (requests w),
          ("Generate a single game asset image: " +:+ prompt).
        split; [now rewrite Hresp | apply lookup_insert_eq].
      * left. rewrite lookup_insert_ne by congruence. exact Hq.
Qed.

Lemma Assets_items_done (env : Env) (category_dir : string)
    (items : list (string * string)) (p : AssetsScript.Progress) :
  List.NoDup (map (fun it => Py.path_join category_dir (fst it)) items) ->
  items_done env
    (map (fun it => (Py.path_join category_dir (fst it), snd it)) items) p
    (fold_left (AssetsScript.process_item env category_dir) items p).
Proof.
  revert p. induction items as [|item items IH]; intros p Hnodup.
  - apply items_done_nil.
  - cbn [fold_left map].
    apply (items_done_app env [_] _ p
             (AssetsScript.process_item env category_dir p item)).
    + cbn [map app fst]. rewrite map_map. exact Hnodup.
    + apply Assets_process_item_done.
    + apply IH. cbn [map] in Hnodup.
      now apply List.NoDup_cons_iff in Hnodup as [_ Hrest].
Qed.

Lemma item_paths_cons (env : Env) (category : string)
    (items : list (string * string))
    (assets : list (string * list (string * string))) :
  item_paths env ((category, items) :: assets)
  = map (fun it => (Py.path_join (Py.path_join (ASSETS_DIR env) category)
                      (fst it), snd it)) items
    ++ item_paths env assets.
Proof. reflexivity. Qed.

Lemma Assets_categories_done (env : Env)
    (assets : list (string * list (string * string)))
    (p : AssetsScript.Progress) :
  List.NoDup (map fst (item_paths env assets)) ->
  items_done env (item_paths env assets) p
    (fold_left (AssetsScript.process_category env) assets p).
Proof.
  revert p. induction assets as [|[category items] assets IH]; intros p Hnodup.
  - apply items_done_nil.
  - cbn [fold_left]. rewrite item_paths_cons in *.
    pose proof Hnodup as Hparts. rewrite map_app in Hparts.
    apply NoDup_app_parts in Hparts as [H1 H2].
    rewrite map_map in H1. cbn [fst] in H1.
    eapply items_done_app; [exact Hnodup | | apply IH; exact H2].
    unfold AssetsScript.process_category.
    pose proof (Assets_items_done env
                  (Py.path_join (ASSETS_DIR env) category) items
                  {| AssetsScript.done := AssetsScript.done p;
                     AssetsScript.failed_count := AssetsScript.failed_count p;
                     AssetsScript.state :=
                       AssetsScript.say
                         (AssetsScript.LCategory category (length items))
                         (AssetsScript.state p) |} H1) as H.
    exact H.
Qed.

Lemma total_item_paths (env : Env)
    (assets : list (string * list (string * string))) :
  length (item_paths env assets)
  = list_sum (map (fun c => length (snd c)) assets).
Proof.
  induction assets as [|[category items] assets IH]; [reflexivity |].
  rewrite item_paths_cons, length_app, length_map, IH. reflexivity.
Qed.

Lemma Assets_run_done (env : Env)
    (assets : list (string * list (string * string))) (w : World) :
  List.NoDup (map fst (item_paths env assets)) ->
  items_done env (item_paths env assets)
    {| AssetsScript.done := 0; AssetsScript.failed_count := 0;
       AssetsScript.state := (w, []) |}
    (AssetsScript.run env assets w).
Proof.
  intros Hnodup. unfold AssetsScript.run. cbv zeta.
  pose proof (Assets_categories_done env assets
                {| AssetsScript.done := 0; AssetsScript.failed_count := 0;
                   AssetsScript.state :=
                     AssetsScript.say AssetsScript.LHeader (w, []) |} Hnodup)
    as H.
  destruct (fold_left (AssetsScript.process_category env) assets _)
    as [d f st].
  unfold items_done in *.
  cbn [AssetsScript.state AssetsScript.done AssetsScript.failed_count
       AssetsScript.say fst snd] in *.
  destruct (0 <? f)%nat; exact H.
Qed.

Lemma item_paths_suffixes (env : Env)
    (assets : list (string * list (string * string))) :
  forallb (fun c => is_plain (fst c)
                    && forallb (fun it => is_plain (fst it)) (snd c))%bool
          assets = true ->
  map fst (item_paths env assets)
  = map (Py.path_join (ASSETS_DIR env))
        (flat_map (fun c => map (fun it => fst c +:+ "/" +:+ fst it) (snd c))
                  assets).
Proof.
  induction assets as [|[category items] assets IH]; [reflexivity |].
  cbn [forallb fst snd]. intros H.
  apply andb_prop in H as [H Hrest]. apply andb_prop in H as [Hcat Hitems].
  rewrite item_paths_cons. cbn [flat_map fst snd].
  rewrite !map_app, (IH Hrest). f_equal.
  rewrite !map_map. apply map_ext_in. intros it Hin. cbn [fst].
  rewrite forallb_forall in Hitems.
  now apply path_join_assoc; [| apply Hitems].
Qed.

Lemma ASSETS_paths_distinct (env : Env) :
  List.NoDup (map fst (item_paths env AssetsScript.ASSETS)).
Proof.
  rewrite item_paths_suffixes by (vm_compute; reflexivity).
  apply NoDup_map_path_join; [vm_compute; reflexivity |].
  apply NoDup_ListNoDup. apply (bool_decide_unpack _). vm_compute. exact I.
Qed.

(** X20. [generate-assets.py] counts each of its 24 assets once, as done or
    as failed, and an asset whose file already exists counts as done.  It
    sends one request for each asset whose file is missing when it starts, in
    the order of [ASSETS], each with the item's prompt behind the fixed
    opening sentence; it never retries and never waits, so the failed assets
    are at most the missing ones. *)
Theorem assets_script_accounts (env : Env) (w : World) :
  let p := AssetsScript.main env w in
  let w' := fst (AssetsScript.state p) in
  let wanted :=
    List.filter (item_missing w) (item_paths env AssetsScript.ASSETS) in
  (AssetsScript.done p + AssetsScript.failed_count p = 24)%nat /\
  (AssetsScript.failed_count p <= length wanted)%nat /\
  requests w' = (requests w + length wanted)%nat /\
  requests_of (trace w') = requests_of (trace w) ++ map item_request wanted /\
  sleeps (trace w') = sleeps (trace w).
Proof.
  cbv zeta. unfold AssetsScript.main.
  pose proof (Assets_run_done env AssetsScript.ASSETS w
                (ASSETS_paths_distinct env)) as H.
  unfold items_done in H.
  cbn [AssetsScript.state AssetsScript.done AssetsScript.failed_count fst] in H.
  destruct H as (H1 & _ & H3 & H4 & H5 & H6 & _).
  rewrite total_item_paths in H1.
  change (list_sum (map (fun c => length (snd c)) AssetsScript.ASSETS))
    with 24%nat in H1.
  repeat split; try assumption; lia.
Qed.

(** X21. [generate-assets.py] leaves alone every file that existed when it
    started and every path that is not one of its asset paths; a file that
    appears holds a picture exactly as the service delivered it, since this
    script has no post-processing. *)
Theorem assets_script_files (env : Env) (w : World) (q : string) :
  let w' := fst (AssetsScript.state (AssetsScript.main env w)) in
  (~ In q (map fst (item_paths env AssetsScript.ASSETS))
   \/ is_Some (fs w !! q) ->
     fs w' !! q = fs w !! q) /\
  (fs w !! q = None ->
     fs w' !! q = None \/
     exists (img : Image) (k : nat) (prompt : string),
       payload (generate_content env k prompt) = Some img /\
       fs w' !! q = Some (ImageData img)).
Proof.
  cbv zeta. unfold AssetsScript.main.
  pose proof (Assets_run_done env AssetsScript.ASSETS w
                (ASSETS_paths_distinct env)) as H.
  unfold items_done in H.
  cbn [AssetsScript.state AssetsScript.done AssetsScript.failed_count fst] in H.
  destruct H as (_ & _ & _ & _ & _ & _ & H7 & H8).
  split; [apply H7 | apply H8].
Qed.

Lemma assets_script_files_witness :
  fs (fst (AssetsScript.state
             (AssetsScript.main (demo_env svc_ok (Some "key"%string))
                {| fs := {[ "assets/tiles/tile_grass.png"%string
                            := ImageData [[opaque_grey]] ]};
                   requests := 0; trace := []; raised := None |})))
    !! "assets/tiles/tile_grass.png"%string
  = Some (ImageData [[opaque_grey]]).
Proof.
  destruct (assets_script_files (demo_env svc_ok (Some "key"%string))
              {| fs := {[ "assets/tiles/tile_grass.png"%string
                          := ImageData [[opaque_grey]] ]};
                 requests := 0; trace := []; raised := None |}
              "assets/tiles/tile_grass.png") as [Hkeep _].
  cbv zeta in Hkeep. rewrite Hkeep.
  - vm_compute. reflexivity.
  - right. vm_compute. eauto.
Defined.

Example assets_script_all_present_counts_done :
  AssetsScript.done
    (AssetsScript.run (demo_env svc_raises (Some "key"%string))
       [("tiles"%string, [("tile_grass.png"%string, "grass"%string)])]
       {| fs := {[ "assets/tiles/tile_grass.png"%string
                   := ImageData sample_image ]};
          requests := 0; trace := []; raised := None |}) = 1%nat /\
  snd (AssetsScript.state
         (AssetsScript.run (demo_env svc_raises (Some "key"%string))
            [("tiles"%string, [("tile_grass.png"%string, "grass"%string)])]
            {| fs := {[ "assets/tiles/tile_grass.png"%string
                        := ImageData sample_image ]};
               requests := 0; trace := []; raised := None |}))
  = [ AssetsScript.LHeader; AssetsScript.LCategory "tiles" 1;
      AssetsScript.LSkip "tile_grass.png"; AssetsScript.LDone 1 1 0 ].
Proof. split; vm_compute; reflexivity. Qed.

(** ** The credential of the two small scripts *)

(** X22. The two small scripts read the [.env] value differently from the
    main script: they remove surrounding white space only, so a value written
    in quotes keeps its quotes.  The first line starting with
    [GEMINI_API_KEY=] decides, and a non-empty environment value comes
    first. *)
Theorem small_scripts_keep_quotes (environ : option string)
    (before after : list string) (pad1 pad2 value : string) :
  Py.truthy environ = false ->
  forallb (fun l => negb (ApiSetup.is_key_line l)) before = true ->
  forallb ApiSetup.is_space (list_ascii_of_string pad1) = true ->
  forallb ApiSetup.is_space (list_ascii_of_string pad2) = true ->
  edges_outside ApiSetup.is_space (list_ascii_of_string value) = true ->
  NewTilesScript.load_api_key environ
    (Some (before ++ ("GEMINI_API_KEY=" +:+ pad1 +:+ value +:+ pad2) :: after))
  = Some value /\
  AssetsScript.load_api_key environ
    (Some (before ++ ("GEMINI_API_KEY=" +:+ pad1 +:+ value +:+ pad2) :: after))
  = Some value.
Proof.
  intros Henv Hbefore Hp1 Hp2 Hvalue.
  unfold NewTilesScript.load_api_key, AssetsScript.load_api_key.
  rewrite Henv.
  rewrite (find_first_match ApiSetup.is_key_line before after _ Hbefore)
    by apply prefix_append.
  change ("GEMINI_API_KEY=" +:+ pad1 +:+ value +:+ pad2)
    with ("GEMINI_API_KEY" +:+ String "=" (pad1 +:+ value +:+ pad2)).
  rewrite after_first_append by reflexivity.
  assert (Hstrip : ApiSetup.strip (pad1 +:+ value +:+ pad2) = value).
  { unfold ApiSetup.strip. rewrite !list_ascii_of_string_app.
    rewrite (strip_chars_padded ApiSetup.is_space _ _ _ Hp1 Hp2 Hvalue).
    apply string_of_list_ascii_of_string. }
  now rewrite Hstrip.
Qed.

Lemma small_scripts_keep_quotes_witness :
  NewTilesScript.load_api_key None
    (Some ["GEMINI_API_KEY=" +:+ " " +:+ "'abc'" +:+ ""])
  = Some "'abc'"%string.
Proof.
  apply (small_scripts_keep_quotes None [] [] " " "" "'abc'"); reflexivity.
Defined.

(** X23. Without a credential, that is with nothing in the environment and
    no [.env] file or none with a [GEMINI_API_KEY=] line, both small scripts
    print the error and exit with status 1 before any request or write. *)
Theorem small_scripts_need_credential (env : Env) (environ : option string)
    (env_file : option (list string)) (w : World) :
  Py.truthy environ = false ->
  match env_file with
  | Some lines => forallb (fun l => negb (ApiSetup.is_key_line l)) lines = true
  | None => True
  end ->
  NewTilesScript.script env environ env_file w
  = (SysExit 1, (w, [NewTilesScript.LNoKey])) /\
  AssetsScript.script env environ env_file w
  = (SysExit 1, (w, [AssetsScript.LNoKey])).
Proof.
  intros Henv Hfile.
  unfold NewTilesScript.script, AssetsScript.script,
    NewTilesScript.load_api_key, AssetsScript.load_api_key.
  rewrite Henv.
  destruct env_file as [lines|].
  - rewrite (find_no_match _ _ Hfile). now rewrite Henv.
  - now rewrite Henv.
Qed.

Lemma small_scripts_need_credential_witness :
  NewTilesScript.script (demo_env svc_ok None) (Some ""%string)
    (Some ["OTHER=1"%string]) empty_world
  = (SysExit 1, (empty_world, [NewTilesScript.LNoKey])).
Proof.
  apply (small_scripts_need_credential (demo_env svc_ok None) (Some ""%string)
           (Some ["OTHER=1"%string]) empty_world); reflexivity.
Defined.

(** ** The static catalog *)

(** X24. The output paths of the static catalog are pairwise different, over
    all six categories, so the file at a path belongs to one asset only; this
    also holds for the full paths under any asset root.  The catalog has 111
    assets. *)
Theorem static_catalog_paths_unique (env : Env) :
  List.NoDup (map fst (all_assets (ALL_CATEGORIES StaticCatalog.catalog))) /\
  List.NoDup (map (fun a => Py.path_join (ASSETS_DIR env) (fst a))
                  (all_assets (ALL_CATEGORIES StaticCatalog.catalog))) /\
  total_assets (ALL_CATEGORIES StaticCatalog.catalog) = 111%nat.
Proof.
  assert (Hpaths : List.NoDup
            (map fst (all_assets (ALL_CATEGORIES StaticCatalog.catalog)))).
  { apply NoDup_ListNoDup. apply (bool_decide_unpack _). vm_compute. exact I. }
  split; [exact Hpaths |]. split; [| vm_compute; reflexivity].
  rewrite <- (map_map fst (Py.path_join (ASSETS_DIR env))).
  apply NoDup_map_path_join; [vm_compute; reflexivity | exact Hpaths].
Qed.

(** X25. Every entry of the static catalog is well formed: its title and its
    description are not empty and its width and height are positive, so no
    record of the real catalog is of the kind that nothing would reject. *)
Theorem static_catalog_well_formed (filepath : string) (spec : Spec) :
  In (filepath, spec) (all_assets (ALL_CATEGORIES StaticCatalog.catalog)) ->
  title (meta (marketing_image spec)) <> ""%string /\
  description (style (marketing_image spec)) <> ""%string /\
  0 < width_px (physical_properties (subject (marketing_image spec))) /\
  0 < height_px (physical_properties (subject (marketing_image spec))).
Proof.
  intros Hin.
  assert (Hall : forallb (fun a => well_formed_spec (snd a))
                   (all_assets (ALL_CATEGORIES StaticCatalog.catalog)) = true)
    by (vm_compute; reflexivity).
  rewrite forallb_forall in Hall. specialize (Hall _ Hin). cbn [snd] in Hall.
  unfold well_formed_spec in Hall. cbv zeta in Hall.
  repeat (apply andb_prop in Hall as [Hall ?]).
  repeat match goal with
         | H : negb _ = true |- _ => apply negb_true_iff in H
         | H : String.eqb _ _ = false |- _ => apply String.eqb_neq in H
         | H : (_ <? _) = true |- _ => apply Z.ltb_lt in H
         end.
  auto.
Qed.

Lemma static_catalog_well_formed_witness :
  0 < width_px (physical_properties (subject (marketing_image (snd grass_plains)))).
Proof.
  apply (static_catalog_well_formed (fst grass_plains) (snd grass_plains)).
  left. reflexivity.
Defined.

Lemma export_targets_suffixes
    (categories : list (string * list (string * Spec))) (output_dir : string) :
  forallb (fun c => is_plain (fst c)
                    && forallb (fun a => is_plain (path_stem (fst a) +:+ ".json"))
                         (snd c))%bool
          categories = true ->
  map fst (export_targets categories output_dir)
  = map (Py.path_join output_dir)
        (flat_map
           (fun c => map (fun a => fst c +:+ "/" +:+ path_stem (fst a)
                                   +:+ ".json")
                         (snd c))
           categories).
Proof.
  unfold export_targets.
  induction categories as [|[cat_name assets] categories IH]; [reflexivity |].
  cbn [forallb fst snd]. intros H.
  apply andb_prop in H as [H Hrest]. apply andb_prop in H as [Hcat Hassets].
  cbn [flat_map fst snd]. rewrite !map_app, (IH Hrest). f_equal.
  rewrite !map_map. apply map_ext_in. intros a Hin. cbn [fst].
  rewrite forallb_forall in Hassets.
  now apply path_join_assoc; [| apply Hassets].
Qed.

(** X26. No two assets of the static catalog are exported to the same file,
    whatever the export directory: within a category the file names without
    their suffix are all different.  So [--export-specs] on the real catalog
    writes 111 different files, none over another. *)
Theorem static_catalog_export_targets_unique (output_dir : string) :
  List.NoDup
    (map fst (export_targets (ALL_CATEGORIES StaticCatalog.catalog) output_dir)) /\
  length (export_targets (ALL_CATEGORIES StaticCatalog.catalog) output_dir)
  = 111%nat.
Proof.
  split.
  - rewrite export_targets_suffixes by (vm_compute; reflexivity).
    apply NoDup_map_path_join; [vm_compute; reflexivity |].
    apply NoDup_ListNoDup. apply (bool_decide_unpack _). vm_compute. exact I.
  - rewrite export_targets_length. vm_compute. reflexivity.
Qed.

(** ** Dry run against generation *)

Lemma post_process_other (env : Env) (path : string) (tw th : Z) (w : World)
    (q : string) :
  q <> path -> fs (post_process env path tw th w) !! q = fs w !! q.
Proof.
  intros Hne. unfold post_process.
  destruct (pil_available env); [| reflexivity].
  destruct (fs w !! path) as [[img | spec]|]; try reflexivity.
  destruct (resize_raises img tw th); [reflexivity |].
  cbn [fs print emit write_file]. apply lookup_insert_ne. congruence.
Qed.

Lemma process_asset_other (env : Env) (args : Args) (total : nat)
    (c : Counters) (w : World) (a : string * Spec) (q : string) :
  q <> Py.path_join (ASSETS_DIR env) (fst a) ->
  fs (snd (process_asset env args total (c, w) a)) !! q = fs w !! q.
Proof.
  destruct a as [filepath spec]. cbn [fst]. intros Hne.
  pose proof (process_asset_cases env args total c w filepath spec) as Hcases.
  cbv zeta in Hcases.
  pose proof (generate_image_outcome env (build_prompt spec)
                (Py.path_join (ASSETS_DIR env) filepath) default_retries
                (print (MsgGenerating (S (processed c)) total filepath) w))
    as (Hfs & _).
  cbv zeta in Hfs. cbn [fs requests print emit] in Hfs.
  assert (Hother : fs (snd (generate_image env (build_prompt spec)
                              (Py.path_join (ASSETS_DIR env) filepath)
                              default_retries
                              (print (MsgGenerating (S (processed c)) total
                                        filepath) w)))
                   !! q = fs w !! q).
  { rewrite Hfs. destruct (first_picture _ _ _ _); [| reflexivity].
    now apply lookup_insert_ne. }
  destruct Hcases as [(_ & ->) | [(_ & _ & ->) | (_ & _ & ->)]]; cbn [snd].
  - reflexivity.
  - rewrite after_generated_fs.
    destruct (negb (no_post args)); [| exact Hother].
    now rewrite post_process_other.
  - exact Hother.
Qed.

Lemma process_asset_attempts (env : Env) (args : Args) (total : nat)
    (c : Counters) (w : World) (a : string * Spec) :
  let c' := fst (process_asset env args total (c, w) a) in
  (generated c' + failed c'
   = generated c + failed c
     + (if needs_generation env args w a then 1 else 0))%nat.
Proof.
  destruct a as [filepath spec]. cbv zeta. unfold needs_generation. cbn [fst].
  destruct (process_asset_cases env args total c w filepath spec)
    as [(Hex & ->) | [(Hex & _ & ->) | (Hex & _ & ->)]];
    rewrite Hex; simpl; lia.
Qed.

(** Over records with pairwise different output paths, a record is attempted
    exactly when its file was missing at the start, and no other file is
    touched. *)
Lemma attempts_nil (env : Env) (args : Args) (st : Counters * World) :
  attempts_missing env args [] st st.
Proof. intros _. split; [simpl; lia | reflexivity]. Qed.

Lemma attempts_app (env : Env) (args : Args) (l1 l2 : list (string * Spec))
    (st1 st2 st3 : Counters * World) :
  attempts_missing env args l1 st1 st2 ->
  attempts_missing env args l2 st2 st3 ->
  attempts_missing env args (l1 ++ l2) st1 st3.
Proof.
  unfold attempts_missing. intros H1 H2 Hnodup.
  rewrite map_app in Hnodup.
  pose proof (NoDup_app_parts _ _ Hnodup) as [N1 N2].
  destruct (H1 N1) as [A1 A2]. destruct (H2 N2) as [B1 B2].
  assert (Hsame : List.filter (needs_generation env args (snd st2)) l2
                  = List.filter (needs_generation env args (snd st1)) l2).
  { apply List.filter_ext_in. intros b Hb.
    unfold needs_generation, file_exists. rewrite A2; [reflexivity |].
    intros Hin.
    apply (NoDup_app_disjoint _ _ (Py.path_join (ASSETS_DIR env) (fst b)) Hnodup);
      [exact Hin |].
    apply in_map_iff. exists b. auto. }
  rewrite Hsame in B1.
  rewrite List.filter_app, length_app, map_app. split; [lia |].
  intros q Hq. rewrite B2, A2; [reflexivity | |];
    intros Hin; apply Hq; apply in_or_app; auto.
Qed.

Lemma process_asset_attempts_missing (env : Env) (args : Args) (total : nat)
    (st : Counters * World) (a : string * Spec) :
  attempts_missing env args [a] st (process_asset env args total st a).
Proof.
  destruct st as [c w]. intros _. cbn [fst snd List.filter].
  pose proof (process_asset_attempts env args total c w a) as Hone.
  cbv zeta in Hone. split.
  - rewrite Hone. destruct (needs_generation env args w a); simpl; lia.
  - intros q Hq. apply process_asset_other. intros ->. apply Hq. now left.
Qed.

Lemma run_generation_attempts (env : Env) (args : Args)
    (categories : list (string * list (string * Spec))) (w : World) :
  exists done rest,
    all_assets categories = done ++ rest /\
    attempts_missing env args done (zero_counters, w)
      (run_generation env args categories w) /\
    (raised (snd (run_generation env args categories w)) = None -> rest = []).
Proof.
  apply (run_generation_run env args (attempts_missing env args)).
  - apply attempts_nil.
  - apply attempts_app.
  - intros m c w0 _. split; [simpl; lia | reflexivity].
  - intros total st a. apply process_asset_attempts_missing.
Qed.

(** X27. A dry run is accurate: when no two assets of the selection have the
    same output file (their output paths, as [pathlib] computes them, are
    pairwise different and have no [..] part), a generation run from the
    same files attempts no asset that the dry run does not list; when it
    comes to its end it has attempted exactly the assets that the dry run
    lists (it counts them as generated or failed) and has skipped all the
    others, and the number the dry run prints is the number of attempts. *)
Theorem dry_run_predicts_generation (env : Env) (args : Args)
    (categories : list (string * list (string * Spec))) (w : World) :
  List.NoDup (map (fun a => Py.path_join (ASSETS_DIR env) (fst a))
                  (all_assets categories)) ->
  forallb no_dotdot
    (map (fun a => Py.path_join (ASSETS_DIR env) (fst a))
         (all_assets categories)) = true ->
  let r := run_generation env args categories w in
  let wanted :=
    List.filter (needs_generation env args w) (all_assets categories) in
  (generated (fst r) + failed (fst r) <= length wanted)%nat /\
  (raised (snd r) = None ->
     (generated (fst r) + failed (fst r) = length wanted)%nat /\
     (skipped (fst r) + length wanted = total_assets categories)%nat /\
     last (dry_run_lines env args w categories)
     = Some (EvPrint (MsgWouldGenerateCount
                        (generated (fst r) + failed (fst r))))).
Proof.
  intros Hnodup _. cbv zeta.
  destruct (run_generation_attempts env args categories w)
    as (done & rest & Hsplit & Hatt & Hrest).
  destruct (run_generation_accounts env args categories w)
    as (n & _ & Hacc & Hn).
  rewrite Hsplit in Hnodup. rewrite map_app in Hnodup.
  pose proof (NoDup_app_parts _ _ Hnodup) as [Hdone _].
  destruct (Hatt Hdone) as [Hcount _]. clear Hatt.
  cbn [fst snd zero_counters generated failed] in Hcount.
  split.
  { rewrite Hcount, Hsplit, List.filter_app, length_app. lia. }
  intros Hend. specialize (Hrest Hend). specialize (Hn Hend). subst rest n.
  rewrite app_nil_r in Hsplit. subst done.
  destruct (run_generation env args categories w) as [c w'].
  unfold accounts_for, zero_counters in Hacc. cbn [fst] in *.
  cbn [generated skipped failed processed] in Hacc.
  split; [exact Hcount |]. split; [lia |].
  unfold dry_run_lines. cbv zeta. rewrite Hcount.
  change (EvPrint MsgDryRunHeader
          :: map (fun a => EvPrint (MsgWouldGenerate (fst a)))
               (List.filter (needs_generation env args w) (all_assets categories))
          ++ [EvPrint (MsgWouldGenerateCount
                         (length (List.filter (needs_generation env args w)
                                    (all_assets categories))))])
    with ((EvPrint MsgDryRunHeader
           :: map (fun a => EvPrint (MsgWouldGenerate (fst a)))
                (List.filter (needs_generation env args w) (all_assets categories)))
          ++ [EvPrint (MsgWouldGenerateCount
                         (length (List.filter (needs_generation env args w)
                                    (all_assets categories))))]).
  apply last_snoc.
Qed.

Lemma dry_run_predicts_generation_witness :
  (generated
     (fst (run_generation (demo_env svc_ok (Some "key"%string)) default_args
             (ALL_CATEGORIES demo_catalog) empty_world))
   + failed
       (fst (run_generation (demo_env svc_ok (Some "key"%string)) default_args
               (ALL_CATEGORIES demo_catalog) empty_world))
   = length
       (List.filter
          (needs_generation (demo_env svc_ok (Some "key"%string)) default_args
             empty_world)
          (all_assets (ALL_CATEGORIES demo_catalog))))%nat.
Proof.
  apply (dry_run_predicts_generation (demo_env svc_ok (Some "key"%string))
           default_args (ALL_CATEGORIES demo_catalog) empty_world).
  - apply NoDup_ListNoDup. apply (bool_decide_unpack _). vm_compute. exact I.
  - vm_compute. reflexivity.
  - vm_compute. reflexivity.
Defined.

(** ** The category filter *)

(** X28. The category filter: a registered name selects that one category
    with its table and nothing else; no name, or an empty one, selects the six
    categories in registry order; any other name selects nothing and is handed
    back as unknown. *)
Theorem category_filter (cat : Catalog) (args : Args) :
  match category args with
  | None => select_categories cat args = inr (ALL_CATEGORIES cat)
  | Some c =>
      if String.eqb c "" then
        select_categories cat args = inr (ALL_CATEGORIES cat)
      else if existsb (String.eqb c) category_names then
        exists assets,
          In (c, assets) (ALL_CATEGORIES cat) /\
          select_categories cat args = inr [(c, assets)]
      else select_categories cat args = inl c
  end.
Proof.
  unfold select_categories.
  destruct (category args) as [[|x c]|]; try reflexivity.
  change (String.eqb (String x c) "") with false.
  cbn [Py.truthy]. cbv iota.
  destruct (existsb (String.eqb (String x c)) category_names) eqn:Hknown.
  - destruct (dict_get (ALL_CATEGORIES cat) (String x c)) as [assets|] eqn:Hget.
    + exists assets. split; [| reflexivity].
      clear Hknown. revert Hget. generalize (ALL_CATEGORIES cat) as l.
      intros l. induction l as [|[k v] l IH]; [discriminate |].
      cbn [dict_get]. destruct (String.eqb_spec k (String x c)) as [-> | Hne].
      * intros [= ->]. now left.
      * intros Hget. right. now apply IH.
    + apply (proj1 (dict_get_registry cat _)) in Hget. congruence.
  - apply (proj2 (dict_get_registry cat _)) in Hknown. now rewrite Hknown.
Qed.
